(** * AI_LMS mobile client: the request helper, the form handlers and the
    pollers of the Generate, Vetting and Subject-detail screens.

    Part I embeds the TypeScript sources (frontend/services/api.ts, the
    screens under frontend/app/(tabs)/, the training dashboard and the
    syllabus dialog) as Rocq definitions.  Part II states and proves the
    properties of the specification against them.  Part III proves further
    properties of the same files. *)

From Stdlib Require Import ZArith QArith List String Ascii Bool Lia Permutation.
From Stdlib Require Import DecimalString DecimalPos DecimalZ.

Set Warnings "-register-all".
Import ListNotations.
Local Open Scope string_scope.
Local Open Scope Z_scope.

(* ====================================================================== *)
(** * Part I.  The embedding                                               *)
(* ====================================================================== *)

(** ** JavaScript values, strings and promises *)

Module JS.

(** A string is a sequence of code units; one [ascii] stands for one code
    unit below 256. *)

(** [WhiteSpace] and [LineTerminator] of ECMAScript below 256: TAB, LF, VT,
    FF, CR, SP and NBSP.  It is the class [\s] of regular expressions and
    the set [String.prototype.trim] strips. *)
Definition isWhiteSpace (c : ascii) : bool :=
  let n := nat_of_ascii c in
  ((9 <=? n) && (n <=? 13) || (n =? 32) || (n =? 160))%nat.

Fixpoint trimStart (s : string) : string :=
  match s with
  | String c s' => if isWhiteSpace c then trimStart s' else s
  | EmptyString => EmptyString
  end.

Fixpoint trimEnd (s : string) : string :=
  match s with
  | EmptyString => EmptyString
  | String c s' =>
      match trimEnd s' with
      | EmptyString => if isWhiteSpace c then EmptyString else String c EmptyString
      | t => String c t
      end
  end.

(** [s.trim()] *)
Definition trim (s : string) : string := trimEnd (trimStart s).

(** [s.startsWith(p)] *)
Definition startsWith (s p : string) : bool := String.prefix p s.

(** ASCII lower-casing, as the [i] flag of a regular expression compares
    letters. *)
Definition toLowerAscii (c : ascii) : ascii :=
  let n := nat_of_ascii c in
  if ((65 <=? n) && (n <=? 90))%nat then ascii_of_nat (n + 32) else c.

Fixpoint eqPrefix (ci : bool) (p s : string) : option string :=
  match p, s with
  | EmptyString, _ => Some s
  | String a p', String b s' =>
      if (if ci then Ascii.eqb (toLowerAscii a) (toLowerAscii b) else Ascii.eqb a b)
      then eqPrefix ci p' s' else None
  | String _ _, EmptyString => None
  end.

(** [s.replace(/p/g, '')] for a literal, non-empty pattern [p] ([ci] is the
    [i] flag): every leftmost non-overlapping occurrence is removed.  The
    fuel is the length of the text, which bounds the number of steps. *)
Fixpoint removeAllFuel (fuel : nat) (ci : bool) (p s : string) : string :=
  match fuel with
  | O => s
  | S fuel' =>
      match s with
      | EmptyString => EmptyString
      | String c s' =>
          match p with
          | EmptyString => s
          | String _ _ =>
              match eqPrefix ci p s with
              | Some rest => removeAllFuel fuel' ci p rest
              | None => String c (removeAllFuel fuel' ci p s')
              end
          end
      end
  end.

Definition removeAll (ci : bool) (p s : string) : string :=
  removeAllFuel (String.length s) ci p s.

(** Decimal rendering of an integer, as a template literal renders an
    integral number. *)
Definition decimal (z : Z) : string := NilZero.string_of_int (Z.to_int z).

Fixpoint join (sep : string) (l : list string) : string :=
  match l with
  | [] => ""
  | [x] => x
  | x :: rest => x ++ sep ++ join sep rest
  end.

(** A number: the rational a finite double denotes, or NaN, or an infinity.
    The two zeros are one: nothing the code embedded here does with a number
    (comparing it, testing it for truth, adding it, rendering it) tells
    them apart. *)
Inductive number :=
| NaN
| Infinity (negative : bool)
| Finite (q : Q).

Definition ofZ (z : Z) : number := Finite (inject_Z z).

(** [n / d] rounded to the nearest integer, a tie to the even one, for
    [0 <= n] and [0 < d]. *)
Definition roundHalfEven (n d : Z) : Z :=
  let f := n / d in
  match 2 * (n mod d) ?= d with
  | Lt => f
  | Gt => f + 1
  | Eq => if Z.even f then f else f + 1
  end.

(** The double nearest to a rational, as the results of arithmetic and of
    [parseInt] are rounded: [e] is the binary exponent of [q], at least
    -1022 (below it the doubles are evenly spaced); the significand [m] is
    [q] in units of 2^(e-52), rounded to the nearest integer, a tie to the
    even one; a result of 2^1024 or more is an infinity. *)
Definition roundToDouble (q : Q) : number :=
  let n := Z.abs (Qnum q) in
  let d := Zpos (Qden q) in
  if n =? 0 then Finite 0
  else
    let e0 := Z.log2 n - Z.log2 d in
    let e := if (if 0 <=? e0 then d * 2 ^ e0 <=? n else d <=? n * 2 ^ (- e0))
             then e0 else e0 - 1 in
    let s := 52 - Z.max e (-1022) in
    let m := if 0 <=? s then roundHalfEven (n * 2 ^ s) d
             else roundHalfEven n (d * 2 ^ (- s)) in
    if (1024 <=? e) || ((e =? 1023) && (m =? 2 ^ 53)) then Infinity (Qnum q <? 0)
    else
      let magnitude := if 0 <=? s then Qmake m (Z.to_pos (2 ^ s))
                       else inject_Z (m * 2 ^ (- s)) in
      Finite (Qred (if Qnum q <? 0 then - magnitude else magnitude)).

(** [a < b] and [a === b] on numbers; each is false on NaN. *)
Definition numLt (a b : number) : bool :=
  match a, b with
  | NaN, _ | _, NaN => false
  | Infinity true, Infinity true => false
  | Infinity true, _ => true
  | _, Infinity true => false
  | Infinity false, _ => false
  | _, Infinity false => true
  | Finite x, Finite y => negb (Qle_bool y x)
  end.

Definition numStrictEq (a b : number) : bool :=
  match a, b with
  | Infinity s, Infinity t => Bool.eqb s t
  | Finite x, Finite y => Qeq_bool x y
  | _, _ => false
  end.

(** [a <= b] is [!(b < a)], and false when either side is NaN. *)
Definition numLe (a b : number) : bool :=
  match a, b with
  | NaN, _ | _, NaN => false
  | _, _ => negb (numLt b a)
  end.

(** The values a screen receives from the backend or holds in its state:
    JSON data, and [undefined]. *)
Inductive value :=
| VUndefined
| VNull
| VBool (b : bool)
| VNum (n : number)
| VStr (s : string)
| VArr (items : list value)
| VObj (fields : list (string * value)).

(** [ToBoolean] *)
Definition truthy (v : value) : bool :=
  match v with
  | VUndefined | VNull => false
  | VBool b => b
  | VNum NaN => false
  | VNum (Infinity _) => true
  | VNum (Finite q) => negb (Qeq_bool q 0)
  | VStr s => negb (s =? "")%string
  | VArr _ | VObj _ => true
  end.

Fixpoint lookupField (key : string) (fields : list (string * value)) : value :=
  match fields with
  | [] => VUndefined
  | (k, v) :: rest => if (k =? key)%string then v else lookupField key rest
  end.

(** [v.key] or [v[key]] for a [v] that is neither [null] nor [undefined],
    and a [key] that is no member of a prototype (none of the keys read by
    the program is one): an own property of an object, [undefined]
    elsewhere. *)
Definition get (v : value) (key : string) : value :=
  match v with
  | VObj fields => lookupField key fields
  | _ => VUndefined
  end.

(** What the platform supplies: the rendering of a number as a string, and
    the JSON codec.  [JSON_parse text] is [None] where [JSON.parse(text)]
    throws.  [JSON_stringify v] is [JSON.stringify(v, null, 2)], which
    returns a string on every array and object of the model (it throws only
    on cycles and BigInts, which [value] does not have). *)
Class Platform := {
  Number_toString : number -> string;
  JSON_parse : string -> option value;
  JSON_stringify : value -> string
}.

(** [Object.hasOwn(v, key)] for the fields of an object. *)
Definition hasOwn (key : string) (fields : list (string * value)) : bool :=
  existsb (fun kv => (fst kv =? key)%string) fields.

(** [ToString], as [String(v)] and a template literal [`${v}`] apply it;
    [None] where it throws a [TypeError].  An object is rendered by its
    [toString] method.  The inherited one gives [[object Object]].  An own
    property named [toString] hides it, and no value of the model is a
    function: then [toString] cannot be called, [valueOf] either is hidden in
    the same way or returns the object itself, and the conversion throws.
    An array is rendered by [join], which renders each element that is
    neither [undefined] nor [null]. *)
Fixpoint ToString {P : Platform} (v : value) : option string :=
  match v with
  | VUndefined => Some "undefined"
  | VNull => Some "null"
  | VBool true => Some "true"
  | VBool false => Some "false"
  | VNum n => Some (Number_toString n)
  | VStr s => Some s
  | VArr items =>
      option_map (join ",")
        ((fix elements (l : list value) : option (list string) :=
            match l with
            | [] => Some []
            | x :: rest =>
                match match x with
                      | VUndefined | VNull => Some ""
                      | _ => ToString x
                      end with
                | Some s =>
                    match elements rest with
                    | Some ss => Some (s :: ss)
                    | None => None
                    end
                | None => None
                end
            end) items)
  | VObj fields =>
      if hasOwn "toString" fields then None else Some "[object Object]"
  end.

(** A thrown value: an [Error] object with its [name] and [message]. *)
Record error := { name : string; message : string }.

(** [new Error(msg)] *)
Definition Error (msg : string) : error := {| name := "Error"; message := msg |}.

(** A settled promise. *)
Inductive outcome (A : Type) :=
| Resolved (a : A)
| Rejected (e : error).
Arguments Resolved {A} a.
Arguments Rejected {A} e.

End JS.
Export JS.

(** ** frontend/services/api.ts *)

Module Api.

(** The Expo constants and platform name [getApiBase] reads. *)
Record ExpoEnv := {
  hostUri : option string;
  manifest_debuggerHost : option string;
  manifest2_debuggerHost : option string;
  Platform_OS : string
}.

(** [a || b] on optional strings ([None] is [undefined]): [a] when it is
    present and non-empty, [b] otherwise. *)
Definition orElse (a b : option string) : option string :=
  match a with
  | Some s => if (s =? "")%string then b else a
  | None => b
  end.

(** [h.split(':')[0]] *)
Fixpoint beforeColon (h : string) : string :=
  match h with
  | EmptyString => EmptyString
  | String c h' => if Ascii.eqb c ":" then EmptyString else String c (beforeColon h')
  end.

(** [getApiBase()], without its two console lines.  [if (debuggerHost)] is
    false on [undefined] and on the empty string. *)
Definition getApiBase (env : ExpoEnv) : string :=
  let debuggerHost :=
    orElse (orElse (hostUri env) (manifest_debuggerHost env))
           (manifest2_debuggerHost env) in
  match debuggerHost with
  | Some (String c h) => "http://" ++ beforeColon (String c h) ++ ":8000"
  | _ =>
      if (Platform_OS env =? "web")%string then "http://localhost:8000"
      else "http://10.0.2.2:8000"
  end.

(** [RequestInit], as far as the callers of [request] fill it. *)
Record RequestInit := {
  method : option string;
  headers : list (string * string);
  body : option string
}.

(** The [Response] [fetch] resolves to.  [json] is what [res.json()] settles
    to: the parsed body, or the rejection raised when the body is not JSON. *)
Record Response := {
  status : Z;
  statusText : string;
  json : outcome value
}.

(** [res.ok]: the status is in the range 200-299. *)
Definition ok (res : Response) : bool :=
  (200 <=? status res) && (status res <=? 299).

(** The second argument of a [console.error] call. *)
Inductive logged :=
| LValue (v : value)
| LError (e : error).

(** What a call of [request] does to the outside, in order. *)
Inductive event :=
| console_log (line : string)
| console_error (label : string) (arg : logged)
| fetch (url : string) (init : RequestInit).

(** A computation that emits events and completes normally or throws. *)
Definition M (A : Type) : Type := (list event * outcome A)%type.

Definition ret {A} (a : A) : M A := ([], Resolved a).

Definition throw {A} (e : error) : M A := ([], Rejected e).

Definition emit (ev : event) : M unit := ([ev], Resolved tt).

Definition bind {A B} (m : M A) (k : A -> M B) : M B :=
  match m with
  | (t, Resolved a) => let '(t', r) := k a in ((t ++ t')%list, r)
  | (t, Rejected e) => (t, Rejected e)
  end.

Notation "x <- m ;; k" := (bind m (fun x => k))
  (at level 61, m at next level, right associativity).
Notation "m ;; k" := (bind m (fun _ => k))
  (at level 61, right associativity).

(** [await p]: the value of a resolved promise; a rejected one throws. *)
Definition await {A} (p : outcome A) : M A := ([], p).

(** [try { m } catch (e) { handler e }] *)
Definition try_catch {A} (m : M A) (handler : error -> M A) : M A :=
  match m with
  | (t, Resolved a) => (t, Resolved a)
  | (t, Rejected e) => let '(t', r) := handler e in ((t ++ t')%list, r)
  end.

(** The promise of an [async] function whose body completed with [m]: a
    thrown error rejects it; a returned promise is adopted as it is, so its
    rejection is never seen by a [catch] of the body. *)
Definition settle {A} (m : M (outcome A)) : list event * outcome A :=
  match m with
  | (t, Resolved p) => (t, p)
  | (t, Rejected e) => (t, Rejected e)
  end.

(** [{ ...hs, [k]: v }] *)
Fixpoint assign (k v : string) (hs : list (string * string)) : list (string * string) :=
  match hs with
  | [] => [(k, v)]
  | (k', v') :: rest =>
      if (k' =? k)%string then (k, v) :: rest else (k', v') :: assign k v rest
  end.

(** [options?.method || 'GET'] *)
Definition methodOrGET (options : option RequestInit) : string :=
  match options with
  | Some o =>
      match method o with
      | Some m => if (m =? "")%string then "GET" else m
      | None => "GET"
      end
  | None => "GET"
  end.

(** [if (field) errorMessage += ` - ${field}`] (lines 49 and 50): the
    message afterwards, or [None] when the template literal throws; the
    assignment is then not made. *)
Definition appendField {P : Platform} (errorMessage : string) (field : value)
  : option string :=
  if truthy field then
    match ToString field with
    | Some text => Some (errorMessage ++ " - " ++ text)
    | None => None
    end
  else Some errorMessage.

(** Lines 45-53: the message starts as the status line; the inner [try]
    reads the body and appends the [detail] and [message] fields that are
    truthy.  When [res.json()] rejects, when the body is [null] (reading a
    property of [null] throws), or when a field cannot be rendered, the
    empty [catch] leaves the message as it is at that point. *)
Definition errorMessageOf {P : Platform} (res : Response) : list event * string :=
  let errorMessage :=
    "API Error: " ++ decimal (status res) ++ " " ++ statusText res in
  match json res with
  | Rejected _ => ([], errorMessage)
  | Resolved errorBody =>
      ([console_error "[API] Error Body:" (LValue errorBody)],
       match errorBody with
       | VNull | VUndefined => errorMessage
       | _ =>
           match appendField errorMessage (get errorBody "detail") with
           | None => errorMessage
           | Some errorMessage =>
               match appendField errorMessage (get errorBody "message") with
               | None => errorMessage
               | Some errorMessage => errorMessage
               end
           end
       end)
  end.

(** [request<T>(endpoint, options)].  [network] is what the one [fetch]
    settles to.  The last statement of the [try] block is
    [return res.json()] without [await]. *)
Definition request {P : Platform} (API_BASE endpoint : string)
    (options : option RequestInit) (network : outcome Response)
  : list event * outcome value :=
  let url := API_BASE ++ endpoint in
  let headers :=
    assign "ngrok-skip-browser-warning" "true"
      (assign "Bypass-Tunnel-Reminder" "true"
         (match options with Some o => headers o | None => [] end)) in
  let init := {| method := match options with Some o => method o | None => None end;
                 headers := headers;
                 body := match options with Some o => body o | None => None end |} in
  settle
    (emit (console_log ("[API] Request: " ++ methodOrGET options ++ " " ++ url)) ;;
     try_catch
       (emit (fetch url init) ;;
        res <- await network ;;
        if negb (ok res) then
          let '(t, errorMessage) := errorMessageOf res in
          ((t, Resolved tt) : M unit) ;;
          throw (Error errorMessage)
        else if status res =? 204 then
          ret (Resolved (VObj []))
        else
          ret (json res))
       (fun error =>
          emit (console_error "[API] Network/Parse Error:" (LError error)) ;;
          throw error)).

End Api.

(** ** Event handlers of a component

    A handler is a program over the effects a React Native component has at
    hand: state setters, refs, [Alert.alert], interval timers, and awaited
    promises.  A handler body closes over the state of the render that
    created it, so a handler is a function of that state.  A program runs
    until it finishes or reaches an [await]; what follows the [await] is a
    continuation that runs when the promise settles, so the steps of other
    handlers can come in between. *)

Module React.

Section Programs.

(** The component state, its refs, the asynchronous calls it awaits, the
    interval callbacks it registers, and the local [async] functions it
    starts without awaiting them. *)
Variables (S R call callback task : Type).

Inductive effect :=
| SetState (f : S -> S)
| WriteRefs (f : R -> R)
| Alert_alert (title msg : string)
| clearInterval (id : option Z)
| Start (t : task).

Inductive prog (A : Type) : Type :=
| Ret (a : A)
| Throw (e : error)
| Eff (e : effect) (k : prog A)
| ReadRefs (k : R -> prog A)
| Await (c : call) (k : outcome value -> prog A)
| setInterval (cb : callback) (ms : Z) (k : Z -> prog A).

Arguments Ret {A} a.
Arguments Throw {A} e.
Arguments Eff {A} e k.
Arguments ReadRefs {A} k.
Arguments Await {A} c k.
Arguments setInterval {A} cb ms k.

Fixpoint bind {A B} (m : prog A) (f : A -> prog B) : prog B :=
  match m with
  | Ret a => f a
  | Throw e => Throw e
  | Eff e k => Eff e (bind k f)
  | ReadRefs k => ReadRefs (fun r => bind (k r) f)
  | Await c k => Await c (fun o => bind (k o) f)
  | setInterval cb ms k => setInterval cb ms (fun id => bind (k id) f)
  end.

(** [try { m } catch (e) { handler e }] *)
Fixpoint try_catch {A} (m : prog A) (handler : error -> prog A) : prog A :=
  match m with
  | Ret a => Ret a
  | Throw e => handler e
  | Eff e k => Eff e (try_catch k handler)
  | ReadRefs k => ReadRefs (fun r => try_catch (k r) handler)
  | Await c k => Await c (fun o => try_catch (k o) handler)
  | setInterval cb ms k => setInterval cb ms (fun id => try_catch (k id) handler)
  end.

(** [try { m } finally { cleanup }] *)
Definition try_finally {A} (m : prog A) (cleanup : prog unit) : prog A :=
  bind (try_catch (bind m (fun a => Ret (Resolved a)))
                  (fun e => Ret (Rejected e)))
       (fun r => bind cleanup (fun _ =>
                   match r with
                   | Resolved a => Ret a
                   | Rejected e => Throw e
                   end)).

Definition perform (e : effect) : prog unit := Eff e (Ret tt).

(** [await c] *)
Definition await (c : call) : prog value :=
  Await c (fun o => match o with
                    | Resolved v => Ret v
                    | Rejected e => Throw e
                    end).

(** A registered interval. *)
Record timer := {
  timer_id : Z;
  timer_callback : callback;
  timer_ms : Z
}.

(** What the user and the network can observe of a handler. *)
Inductive event :=
| Alerted (title msg : string)
| Called (c : call)
| Started (t : task).

(** The mutable part of a mounted component: its state and refs, the
    intervals that are registered, the id the next interval gets, and the
    alerts and calls made so far. *)
Record store := {
  state : S;
  refs : R;
  timers : list timer;
  next_timer : Z;
  log : list event
}.

Definition remove_timer (id : Z) (ts : list timer) : list timer :=
  filter (fun t => negb (timer_id t =? id)) ts.

Definition apply (e : effect) (st : store) : store :=
  match e with
  | SetState f =>
      {| state := f (state st); refs := refs st; timers := timers st;
         next_timer := next_timer st; log := log st |}
  | WriteRefs f =>
      {| state := state st; refs := f (refs st); timers := timers st;
         next_timer := next_timer st; log := log st |}
  | Alert_alert title msg =>
      {| state := state st; refs := refs st; timers := timers st;
         next_timer := next_timer st; log := (log st ++ [Alerted title msg])%list |}
  | clearInterval (Some id) =>
      {| state := state st; refs := refs st; timers := remove_timer id (timers st);
         next_timer := next_timer st; log := log st |}
  | clearInterval None => st
  | Start t =>
      {| state := state st; refs := refs st; timers := timers st;
         next_timer := next_timer st; log := (log st ++ [Started t])%list |}
  end.

(** How a run of a program ends: finished, or parked at an [await]. *)
Inductive parked (A : Type) :=
| Finished (r : outcome A)
| Waiting (c : call) (k : outcome value -> prog A).
Arguments Finished {A} r.
Arguments Waiting {A} c k.

(** Run a program up to its end or its first [await]. *)
Fixpoint exec {A} (p : prog A) (st : store) : store * parked A :=
  match p with
  | Ret a => (st, Finished (Resolved a))
  | Throw e => (st, Finished (Rejected e))
  | Eff e k => exec k (apply e st)
  | ReadRefs k => exec (k (refs st)) st
  | Await c k =>
      ({| state := state st; refs := refs st; timers := timers st;
          next_timer := next_timer st; log := (log st ++ [Called c])%list |},
       Waiting c k)
  | setInterval cb ms k =>
      let id := next_timer st in
      exec (k id)
        {| state := state st; refs := refs st;
           timers := (timers st ++ [{| timer_id := id; timer_callback := cb; timer_ms := ms |}])%list;
           next_timer := id + 1; log := log st |}
  end.

(** The calls a program can reach, whatever the promises settle to. *)
Inductive issues {A} : prog A -> call -> Prop :=
| issues_here c k : issues (Await c k) c
| issues_later c k o c' : issues (k o) c' -> issues (Await c k) c'
| issues_eff e k c : issues k c -> issues (Eff e k) c
| issues_refs k r c : issues (k r) c -> issues (ReadRefs k) c
| issues_interval cb ms k id c : issues (k id) c -> issues (setInterval cb ms k) c.

End Programs.

Arguments Ret {S R call callback task A} a.
Arguments Throw {S R call callback task A} e.
Arguments Eff {S R call callback task A} e k.
Arguments ReadRefs {S R call callback task A} k.
Arguments Await {S R call callback task A} c k.
Arguments setInterval {S R call callback task A} cb ms k.
Arguments SetState {S R task} f.
Arguments WriteRefs {S R task} f.
Arguments Alert_alert {S R task} title msg.
Arguments clearInterval {S R task} id.
Arguments Start {S R task} t.
Arguments Finished {S R call callback task A} r.
Arguments Waiting {S R call callback task A} c k.
Arguments Alerted {call task} title msg.
Arguments Called {call task} c.
Arguments Started {call task} t.
Arguments bind {S R call callback task A B} m f.
Arguments try_catch {S R call callback task A} m handler.
Arguments try_finally {S R call callback task A} m cleanup.
Arguments perform {S R call callback task} e.
Arguments await {S R call callback task} c.
Arguments exec {S R call callback task A} p st.
Arguments apply {S R call callback task} e st.
Arguments issues {S R call callback task A} _ _.
Arguments state {S R call callback task} _.
Arguments refs {S R call callback task} _.
Arguments timers {S R call callback task} _.
Arguments next_timer {S R call callback task} _.
Arguments log {S R call callback task} _.
Arguments timer_id {callback} _.
Arguments timer_callback {callback} _.
Arguments timer_ms {callback} _.
Arguments remove_timer {callback} id ts.

Declare Scope prog_scope.
Delimit Scope prog_scope with prog.
Notation "x <- m ;; k" := (bind m (fun x => k))
  (at level 61, m at next level, right associativity) : prog_scope.
Notation "m ;; k" := (bind m (fun _ => k))
  (at level 61, right associativity) : prog_scope.

End React.

(** ** frontend/app/(tabs)/vetting.tsx *)

Module Vetting.

Import React.
Local Open Scope prog_scope.

(** *** extractQuestionTextFromAny *)

(** The double quote, as a one-character string. *)
Definition dq : string := String (ascii_of_nat 34) EmptyString.

(** The characters before the first double quote; [None] when there is no
    double quote. *)
Fixpoint untilQuote (s : string) : option string :=
  match s with
  | EmptyString => None
  | String c s' =>
      if Ascii.eqb c (ascii_of_nat 34) then Some EmptyString
      else match untilQuote s' with
           | Some cap => Some (String c cap)
           | None => None
           end
  end.

(** A match, starting at the head of [s], of the pattern
    Q field Q \s* : \s* Q ([^Q]+) Q, where Q is the double quote; the result
    is the captured group.  Each greedy piece is followed by a character it
    cannot match, so no backtracking can find another match. *)
Definition matchHere (field s : string) : option string :=
  match eqPrefix false (dq ++ field ++ dq) s with
  | None => None
  | Some afterKey =>
      match trimStart afterKey with
      | String c afterColon =>
          if Ascii.eqb c ":" then
            match trimStart afterColon with
            | String q inner =>
                if Ascii.eqb q (ascii_of_nat 34) then
                  match untilQuote inner with
                  | Some EmptyString => None
                  | Some cap => Some cap
                  | None => None
                  end
                else None
            | EmptyString => None
            end
          else None
      | EmptyString => None
      end
  end.

(** [raw.match(pattern)] for that pattern: the group of the leftmost match,
    [None] for [null]. *)
Fixpoint matchField (field raw : string) : option string :=
  match matchHere field raw with
  | Some cap => Some cap
  | None =>
      match raw with
      | EmptyString => None
      | String _ raw' => matchField field raw'
      end
  end.

(** The first of the [keys] whose property is truthy:
    [for (const key of keys) if (raw[key]) return ...]. *)
Fixpoint firstTruthy (raw : value) (keys : list string) : option value :=
  match keys with
  | [] => None
  | key :: rest =>
      if truthy (get raw key) then Some (get raw key) else firstTruthy raw rest
  end.

(** [extractQuestionTextFromAny(raw)].  The function calls itself on what
    [JSON.parse] returns and on property values; [fuel] bounds the depth of
    these calls, and [None] means the fuel ran out.  The last line,
    [String(raw)], is reached by a truthy boolean or number only, which
    [ToString] always renders. *)
Fixpoint extractQuestionTextFromAny {P : Platform} (fuel : nat) (raw : value)
  : option string :=
  match fuel with
  | O => None
  | S fuel' =>
      if negb (truthy raw) then Some "No question text"
      else
        match raw with
        | VStr s =>
            let trimmed := trim s in
            if startsWith trimmed "{" || startsWith trimmed "[" then
              let clean := trim (removeAll false "```" (removeAll true "```json" trimmed)) in
              match JSON_parse clean with
              | Some parsed => extractQuestionTextFromAny fuel' parsed
              | None =>
                  match matchField "question_text" s with
                  | Some m => Some m
                  | None =>
                      match matchField "question" s with
                      | Some m => Some m
                      | None =>
                          match matchField "text" s with
                          | Some m => Some m
                          | None => Some s
                          end
                      end
                  end
              end
            else Some s
        | VArr _ | VObj _ =>
            if truthy (get raw "question_text")
            then extractQuestionTextFromAny fuel' (get raw "question_text")
            else if truthy (get raw "question")
            then extractQuestionTextFromAny fuel' (get raw "question")
            else if truthy (get raw "text")
            then extractQuestionTextFromAny fuel' (get raw "text")
            else
              match firstTruthy raw ["json"; "response"; "selected_question";
                                     "draft"; "result"; "output"] with
              | Some v => extractQuestionTextFromAny fuel' v
              | None =>
                  match firstTruthy raw ["MCQ"; "Short Notes"; "Essay"] with
                  | Some v => extractQuestionTextFromAny fuel' v
                  | None => Some (JSON_stringify raw)
                  end
              end
        | _ => ToString raw
        end
  end.

(** The size of a value: one for each node, and the length of each string.
    The text of a JSON document is at least as long as the value it
    denotes is large. *)
Fixpoint value_size (v : value) : nat :=
  match v with
  | VStr s => S (String.length s)
  | VArr items => S (list_sum (map value_size items))
  | VObj fields => S (list_sum (map (fun kv => value_size (snd kv)) fields))
  | _ => 1%nat
  end.

(** *** BatchListView *)

(** A vetting batch, as [getVettingBatches] returns it. *)
Record Batch := {
  job_id : Z;
  subject_id : Z;
  subject_name : string;
  rubric_name : string;
  total_questions : Z;
  pending_count : Z;
  vetted_count : Z;
  progress : number
}.

(** [batches.filter(b => b.progress < 100)] *)
Definition activeBatches (batches : list Batch) : list Batch :=
  filter (fun b => numLt (progress b) (ofZ 100)) batches.

(** [batches.filter(b => b.progress === 100)] *)
Definition historyBatches (batches : list Batch) : list Batch :=
  filter (fun b => numStrictEq (progress b) (ofZ 100)) batches.

Inductive Tab := active | history.

(** [activeTab === 'active' ? activeBatches : historyBatches] *)
Definition displayBatches (activeTab : Tab) (batches : list Batch) : list Batch :=
  match activeTab with
  | active => activeBatches batches
  | history => historyBatches batches
  end.

(** *** QuestionReviewView *)

(** The state of the review view that [handleSubmit], [toggleCo] and
    [setLevel] read and write. *)
Record ReviewState := {
  queue : list value;
  currentIndex : nat;
  feedback : string;
  action : option string;
  submitting : bool;
  showCouncil : bool;
  detail : value;
  expandedAgent : option string;
  allReviewed : bool;
  selectedCos : list Z;
  coLevels : list (Z * string);
  bloomsLevel : option string;
  rejectionReason : option string
}.

Definition setQueue (v : list value) (s : ReviewState) : ReviewState :=
  {| queue := v; currentIndex := currentIndex s; feedback := feedback s;
     action := action s; submitting := submitting s; showCouncil := showCouncil s;
     detail := detail s; expandedAgent := expandedAgent s; allReviewed := allReviewed s;
     selectedCos := selectedCos s; coLevels := coLevels s;
     bloomsLevel := bloomsLevel s; rejectionReason := rejectionReason s |}.

Definition setCurrentIndex (v : nat) (s : ReviewState) : ReviewState :=
  {| queue := queue s; currentIndex := v; feedback := feedback s;
     action := action s; submitting := submitting s; showCouncil := showCouncil s;
     detail := detail s; expandedAgent := expandedAgent s; allReviewed := allReviewed s;
     selectedCos := selectedCos s; coLevels := coLevels s;
     bloomsLevel := bloomsLevel s; rejectionReason := rejectionReason s |}.

Definition setFeedback (v : string) (s : ReviewState) : ReviewState :=
  {| queue := queue s; currentIndex := currentIndex s; feedback := v;
     action := action s; submitting := submitting s; showCouncil := showCouncil s;
     detail := detail s; expandedAgent := expandedAgent s; allReviewed := allReviewed s;
     selectedCos := selectedCos s; coLevels := coLevels s;
     bloomsLevel := bloomsLevel s; rejectionReason := rejectionReason s |}.

Definition setAction (v : option string) (s : ReviewState) : ReviewState :=
  {| queue := queue s; currentIndex := currentIndex s; feedback := feedback s;
     action := v; submitting := submitting s; showCouncil := showCouncil s;
     detail := detail s; expandedAgent := expandedAgent s; allReviewed := allReviewed s;
     selectedCos := selectedCos s; coLevels := coLevels s;
     bloomsLevel := bloomsLevel s; rejectionReason := rejectionReason s |}.

Definition setSubmitting (v : bool) (s : ReviewState) : ReviewState :=
  {| queue := queue s; currentIndex := currentIndex s; feedback := feedback s;
     action := action s; submitting := v; showCouncil := showCouncil s;
     detail := detail s; expandedAgent := expandedAgent s; allReviewed := allReviewed s;
     selectedCos := selectedCos s; coLevels := coLevels s;
     bloomsLevel := bloomsLevel s; rejectionReason := rejectionReason s |}.

Definition setShowCouncil (v : bool) (s : ReviewState) : ReviewState :=
  {| queue := queue s; currentIndex := currentIndex s; feedback := feedback s;
     action := action s; submitting := submitting s; showCouncil := v;
     detail := detail s; expandedAgent := expandedAgent s; allReviewed := allReviewed s;
     selectedCos := selectedCos s; coLevels := coLevels s;
     bloomsLevel := bloomsLevel s; rejectionReason := rejectionReason s |}.

Definition setDetail (v : value) (s : ReviewState) : ReviewState :=
  {| queue := queue s; currentIndex := currentIndex s; feedback := feedback s;
     action := action s; submitting := submitting s; showCouncil := showCouncil s;
     detail := v; expandedAgent := expandedAgent s; allReviewed := allReviewed s;
     selectedCos := selectedCos s; coLevels := coLevels s;
     bloomsLevel := bloomsLevel s; rejectionReason := rejectionReason s |}.

Definition setExpandedAgent (v : option string) (s : ReviewState) : ReviewState :=
  {| queue := queue s; currentIndex := currentIndex s; feedback := feedback s;
     action := action s; submitting := submitting s; showCouncil := showCouncil s;
     detail := detail s; expandedAgent := v; allReviewed := allReviewed s;
     selectedCos := selectedCos s; coLevels := coLevels s;
     bloomsLevel := bloomsLevel s; rejectionReason := rejectionReason s |}.

Definition setAllReviewed (v : bool) (s : ReviewState) : ReviewState :=
  {| queue := queue s; currentIndex := currentIndex s; feedback := feedback s;
     action := action s; submitting := submitting s; showCouncil := showCouncil s;
     detail := detail s; expandedAgent := expandedAgent s; allReviewed := v;
     selectedCos := selectedCos s; coLevels := coLevels s;
     bloomsLevel := bloomsLevel s; rejectionReason := rejectionReason s |}.

Definition setSelectedCos (f : list Z -> list Z) (s : ReviewState) : ReviewState :=
  {| queue := queue s; currentIndex := currentIndex s; feedback := feedback s;
     action := action s; submitting := submitting s; showCouncil := showCouncil s;
     detail := detail s; expandedAgent := expandedAgent s; allReviewed := allReviewed s;
     selectedCos := f (selectedCos s); coLevels := coLevels s;
     bloomsLevel := bloomsLevel s; rejectionReason := rejectionReason s |}.

Definition setCoLevels (f : list (Z * string) -> list (Z * string)) (s : ReviewState)
  : ReviewState :=
  {| queue := queue s; currentIndex := currentIndex s; feedback := feedback s;
     action := action s; submitting := submitting s; showCouncil := showCouncil s;
     detail := detail s; expandedAgent := expandedAgent s; allReviewed := allReviewed s;
     selectedCos := selectedCos s; coLevels := f (coLevels s);
     bloomsLevel := bloomsLevel s; rejectionReason := rejectionReason s |}.

Definition setRejectionReason (v : option string) (s : ReviewState) : ReviewState :=
  {| queue := queue s; currentIndex := currentIndex s; feedback := feedback s;
     action := action s; submitting := submitting s; showCouncil := showCouncil s;
     detail := detail s; expandedAgent := expandedAgent s; allReviewed := allReviewed s;
     selectedCos := selectedCos s; coLevels := coLevels s;
     bloomsLevel := bloomsLevel s; rejectionReason := v |}.

(** The API calls of the review view. *)
Inductive call :=
| submitVetting (data : value)
| getQuestionDetail (id : value).

(** The programs of this view: no refs, no intervals, no unawaited work. *)
Definition handler (A : Type) : Type :=
  prog ReviewState unit call Empty_set Empty_set A.

(** [!x] is false for a string or [null] exactly when the string is present
    and non-empty. *)
Definition present (x : option string) : bool :=
  match x with
  | Some s => negb (s =? "")%string
  | None => false
  end.

Definition orNull (x : option string) : value :=
  match x with
  | Some s => VStr s
  | None => VNull
  end.

(** [v.key] inside a [try]: reading a property of [undefined] or [null]
    throws a [TypeError]. *)
Definition readProp (v : value) (key : string) : handler value :=
  match v with
  | VUndefined | VNull =>
      Throw {| name := "TypeError";
               message := "Cannot read property '" ++ key ++ "' of undefined" |}
  | _ => Ret (get v key)
  end.

(** [selectedCos.includes(id)] *)
Definition includesCo (id : Z) (cos : list Z) : bool :=
  existsb (Z.eqb id) cos.

(** [toggleCo(id)] *)
Definition toggleCo (id : Z) (st : ReviewState) : handler unit :=
  if includesCo id (selectedCos st) then
    perform (SetState (setSelectedCos (filter (fun c => negb (c =? id))))) ;;
    perform (SetState (setCoLevels (fun _ =>
               filter (fun kv => negb (fst kv =? id)) (coLevels st))))
  else
    perform (SetState (setSelectedCos (fun prev => (prev ++ [id])%list))) ;;
    perform (SetState (setCoLevels (fun prev =>
               (filter (fun kv => negb (fst kv =? id)) prev ++ [(id, "moderate")])%list))).

(** [setLevel(id, level)] *)
Definition setLevel (id : Z) (level : string) (st : ReviewState) : handler unit :=
  if negb (includesCo id (selectedCos st)) then Ret tt
  else
    perform (SetState (setCoLevels (fun prev =>
               (filter (fun kv => negb (fst kv =? id)) prev ++ [(id, level)])%list))).

(** [const newQueue = [...queue]; newQueue.splice(i, 1)] *)
Definition splice1 (i : nat) (q : list value) : list value :=
  (firstn i q ++ skipn (S i) q)%list.

(** [queue.filter((_, j) => j !== i)] *)
Fixpoint filterNotIndex (i : nat) (q : list value) : list value :=
  match q, i with
  | [], _ => []
  | _ :: rest, O => rest
  | x :: rest, S i' => x :: filterNotIndex i' rest
  end.

(** The object passed to [submitVetting]. *)
Definition submission (st : ReviewState) (question_id : value) : value :=
  VObj [
    ("question_id", question_id);
    ("action", VStr (match action st with
                     | Some "approve" => "approved"
                     | Some "reject" => "rejected"
                     | _ => "edited"
                     end));
    ("co_mappings", VArr (map (fun c => VNum (ofZ c)) (selectedCos st)));
    ("co_mapping_levels",
       VObj (map (fun kv => (decimal (fst kv), VStr (snd kv))) (coLevels st)));
    ("blooms_level", orNull (bloomsLevel st));
    ("faculty_feedback",
       if (trim (feedback st) =? "")%string then VUndefined
       else VStr (trim (feedback st)));
    ("rejection_reason", orNull (rejectionReason st));
    ("edited_text",
       match action st with
       | Some "edit" => VStr (feedback st)
       | _ => VUndefined
       end);
    ("reviewed_by", VStr "Faculty User")
  ].

(** [action === 'reject'] *)
Definition isReject (st : ReviewState) : bool :=
  match action st with
  | Some a => (a =? "reject")%string
  | None => false
  end.

(** [handleSubmit] *)
Definition handleSubmit (st : ReviewState) : handler unit :=
  let current := nth (currentIndex st) (queue st) VUndefined in
  if negb (present (action st)) then
    perform (Alert_alert "Select Action" "Choose Approve, Reject, or Edit")
  else if (List.length (selectedCos st) =? 0)%nat then
    perform (Alert_alert "Validation Error"
      "You must map this question to at least one Course Outcome (CO) before submitting.")
  else if isReject st && negb (present (rejectionReason st)) then
    perform (Alert_alert "Validation Error" "Please select a Rejection Reason.")
  else if isReject st
          && ((feedback st =? "")%string || (String.length (feedback st) <? 5)%nat) then
    perform (Alert_alert "Validation Error"
      "Please provide constructive feedback for rejection.")
  else
    perform (SetState (setSubmitting true)) ;;
    try_finally
      (try_catch
         (question_id <- readProp current "id" ;;
          await (submitVetting (submission st question_id)) ;;
          perform (SetState (setFeedback "")) ;;
          perform (SetState (setAction None)) ;;
          perform (SetState (setRejectionReason None)) ;;
          perform (SetState (setShowCouncil false)) ;;
          perform (SetState (setDetail VNull)) ;;
          perform (SetState (setExpandedAgent None)) ;;
          perform (SetState (setSelectedCos (fun _ => []))) ;;
          perform (SetState (setCoLevels (fun _ => []))) ;;
          (if Z.of_nat (currentIndex st) <? Z.of_nat (List.length (queue st)) - 1 then
             perform (SetState (setQueue (splice1 (currentIndex st) (queue st))))
           else
             let newQueue := filterNotIndex (currentIndex st) (queue st) in
             perform (SetState (setQueue newQueue)) ;;
             if (List.length newQueue =? 0)%nat
             then perform (SetState (setAllReviewed true))
             else perform (SetState (setCurrentIndex (Nat.pred (currentIndex st))))) ;;
          perform (Alert_alert "Success" "Question vetted and saved to dataset."))
         (fun e =>
            perform (Alert_alert "Error"
              (if (message e =? "")%string then "Failed to submit" else message e))))
      (perform (SetState (setSubmitting false))).

End Vetting.

(** ** frontend/app/(tabs)/_layout.tsx: the Bloom's Taxonomy modal of the
       subject-detail screen, and the SyllabusUploadDialog component of
       frontend/components/subjects/QuestionUploadDialog.tsx *)

Module SubjectDetail.

Import React.
Local Open Scope prog_scope.

(** [a + b] on numbers: the sum of two doubles is their exact sum, rounded
    to the nearest double. *)
Definition numAdd (a b : number) : number :=
  match a, b with
  | NaN, _ | _, NaN => NaN
  | Infinity s, Infinity t => if Bool.eqb s t then Infinity s else NaN
  | Infinity s, _ | _, Infinity s => Infinity s
  | Finite x, Finite y => roundToDouble (x + y)
  end.

(** A [Record<string, number>] of cognitive-level weights. *)
Definition Distribution : Type := list (string * number).

(** [{ ...prev, [level]: val }] *)
Fixpoint setWeight (level : string) (val : number) (d : Distribution) : Distribution :=
  match d with
  | [] => [(level, val)]
  | (k, w) :: rest =>
      if (k =? level)%string then (k, val) :: rest
      else (k, w) :: setWeight level val rest
  end.

(** [Object.values(weights).reduce((a, b) => a + b, 0)] *)
Definition totalWeight (weights : Distribution) : number :=
  fold_left (fun a kv => numAdd a (snd kv)) weights (ofZ 0).

Definition defaultDistribution : Distribution :=
  [("Knowledge", ofZ 40); ("Comprehension", ofZ 20); ("Application", ofZ 20);
   ("Analysis", ofZ 10); ("Synthesis", ofZ 5); ("Evaluation", ofZ 5)].

(** A topic of the subject, as the screen uses it: [syllabus_data] is split
    into its [bloom_distribution], when it has one, and its other fields. *)
Record Topic := {
  id : Z;
  title : string;
  syllabus_other : list (string * value);
  bloom_distribution : option Distribution
}.

(** The state the Bloom's Taxonomy modal reads and writes. *)
Record State := {
  syllabusModal : bool;
  activeTopicForSyllabus : option Topic;
  bloomDistribution : Distribution
}.

Definition initialState : State :=
  {| syllabusModal := false;
     activeTopicForSyllabus := None;
     bloomDistribution := defaultDistribution |}.

Definition setSyllabusModal (v : bool) (s : State) : State :=
  {| syllabusModal := v; activeTopicForSyllabus := activeTopicForSyllabus s;
     bloomDistribution := bloomDistribution s |}.

Definition setActiveTopicForSyllabus (v : option Topic) (s : State) : State :=
  {| syllabusModal := syllabusModal s; activeTopicForSyllabus := v;
     bloomDistribution := bloomDistribution s |}.

Definition setBloomDistribution (f : Distribution -> Distribution) (s : State) : State :=
  {| syllabusModal := syllabusModal s;
     activeTopicForSyllabus := activeTopicForSyllabus s;
     bloomDistribution := f (bloomDistribution s) |}.

Inductive call :=
| updateTopicSyllabus (topicId : Z) (syllabusData : value).

(** [fetchAll()], started without [await]. *)
Inductive task := fetchAll.

Definition handler (A : Type) : Type := prog State unit call Empty_set task A.

Definition distributionValue (d : Distribution) : value :=
  VObj (map (fun kv => (fst kv, VNum (snd kv))) d).

(** [openSyllabusModal(topic)] *)
Definition openSyllabusModal (topic : Topic) : handler unit :=
  perform (SetState (setActiveTopicForSyllabus (Some topic))) ;;
  let bloom := match bloom_distribution topic with
               | Some d => d
               | None => defaultDistribution
               end in
  perform (SetState (setBloomDistribution (fun _ => bloom))) ;;
  perform (SetState (setSyllabusModal true)).

(** The [onValueChange] of the slider of [level]. *)
Definition onValueChange (level : string) (val : number) : handler unit :=
  perform (SetState (setBloomDistribution (setWeight level val))).

(** [handleSaveSyllabus], the [onPress] of Save Configuration. *)
Definition handleSaveSyllabus (st : State) : handler unit :=
  match activeTopicForSyllabus st with
  | None => Ret tt
  | Some topic =>
      try_catch
        (await (updateTopicSyllabus (id topic)
                  (VObj (syllabus_other topic ++
                         [("bloom_distribution",
                           distributionValue (bloomDistribution st))])%list)) ;;
         perform (SetState (setSyllabusModal false)) ;;
         perform (Start fetchAll) ;;
         perform (Alert_alert "Success" "Bloom's taxonomy saved"))
        (fun _ => perform (Alert_alert "Error" "Failed to save"))
  end.

(** *** SyllabusUploadDialog *)

(** [BLOOM_LEVELS.reduce(...)], the initial [weights] of the dialog. *)
Definition BLOOM_LEVELS : Distribution := defaultDistribution.

(** [updateWeight(name, val)] *)
Definition updateWeight (name : string) (val : number) (weights : Distribution)
  : Distribution :=
  setWeight name val weights.

(** The [disabled] prop of Save Mapping: [totalWeight !== 100]. *)
Definition saveMappingDisabled (weights : Distribution) : bool :=
  negb (numStrictEq (totalWeight weights) (ofZ 100)).

End SubjectDetail.

(** ** frontend/app/(tabs)/generate.tsx *)

Module Generate.

Import React.
Local Open Scope prog_scope.

Inductive ViewMode := select | create | generating | complete.

(** The component state of [GenerateScreen]. *)
Record State := {
  view : ViewMode;
  rubrics : value;
  subjects : value;
  ollamaStatus : value;
  selectedRubric : value;
  loading : bool;
  rubricName : string;
  selectedSubject : value;
  difficulty : string;
  examType : string;
  duration : string;
  mcqCount : Z;
  mcqMarks : string;
  shortCount : Z;
  shortMarks : string;
  essayCount : Z;
  essayMarks : string;
  jobId : value;
  jobData : value;
  elapsed : Z
}.

(** [pollRef.current] and [timerRef.current]; [None] is [null]. *)
Record Refs := {
  pollRef : option Z;
  timerRef : option Z
}.

Definition initialState : State :=
  {| view := select; rubrics := VArr []; subjects := VArr [];
     ollamaStatus := VNull; selectedRubric := VNull; loading := true;
     rubricName := ""; selectedSubject := VNull; difficulty := "Medium";
     examType := "midterm"; duration := "60"; mcqCount := 5; mcqMarks := "2";
     shortCount := 3; shortMarks := "5"; essayCount := 2; essayMarks := "10";
     jobId := VNull; jobData := VNull; elapsed := 0 |}.

Definition initialRefs : Refs := {| pollRef := None; timerRef := None |}.

Definition setView (v : ViewMode) (s : State) : State :=
  {| view := v; rubrics := rubrics s; subjects := subjects s;
     ollamaStatus := ollamaStatus s; selectedRubric := selectedRubric s;
     loading := loading s; rubricName := rubricName s;
     selectedSubject := selectedSubject s; difficulty := difficulty s;
     examType := examType s; duration := duration s; mcqCount := mcqCount s;
     mcqMarks := mcqMarks s; shortCount := shortCount s; shortMarks := shortMarks s;
     essayCount := essayCount s; essayMarks := essayMarks s; jobId := jobId s;
     jobData := jobData s; elapsed := elapsed s |}.

(** [setRubrics(rubs); setSubjects(subjs); setOllamaStatus(ollama)] *)
Definition setFetched (rubs subjs ollama : value) (s : State) : State :=
  {| view := view s; rubrics := rubs; subjects := subjs;
     ollamaStatus := ollama; selectedRubric := selectedRubric s;
     loading := loading s; rubricName := rubricName s;
     selectedSubject := selectedSubject s; difficulty := difficulty s;
     examType := examType s; duration := duration s; mcqCount := mcqCount s;
     mcqMarks := mcqMarks s; shortCount := shortCount s; shortMarks := shortMarks s;
     essayCount := essayCount s; essayMarks := essayMarks s; jobId := jobId s;
     jobData := jobData s; elapsed := elapsed s |}.

Definition setSelectedRubric (v : value) (s : State) : State :=
  {| view := view s; rubrics := rubrics s; subjects := subjects s;
     ollamaStatus := ollamaStatus s; selectedRubric := v;
     loading := loading s; rubricName := rubricName s;
     selectedSubject := selectedSubject s; difficulty := difficulty s;
     examType := examType s; duration := duration s; mcqCount := mcqCount s;
     mcqMarks := mcqMarks s; shortCount := shortCount s; shortMarks := shortMarks s;
     essayCount := essayCount s; essayMarks := essayMarks s; jobId := jobId s;
     jobData := jobData s; elapsed := elapsed s |}.

Definition setLoading (v : bool) (s : State) : State :=
  {| view := view s; rubrics := rubrics s; subjects := subjects s;
     ollamaStatus := ollamaStatus s; selectedRubric := selectedRubric s;
     loading := v; rubricName := rubricName s;
     selectedSubject := selectedSubject s; difficulty := difficulty s;
     examType := examType s; duration := duration s; mcqCount := mcqCount s;
     mcqMarks := mcqMarks s; shortCount := shortCount s; shortMarks := shortMarks s;
     essayCount := essayCount s; essayMarks := essayMarks s; jobId := jobId s;
     jobData := jobData s; elapsed := elapsed s |}.

Definition setRubricName (v : string) (s : State) : State :=
  {| view := view s; rubrics := rubrics s; subjects := subjects s;
     ollamaStatus := ollamaStatus s; selectedRubric := selectedRubric s;
     loading := loading s; rubricName := v;
     selectedSubject := selectedSubject s; difficulty := difficulty s;
     examType := examType s; duration := duration s; mcqCount := mcqCount s;
     mcqMarks := mcqMarks s; shortCount := shortCount s; shortMarks := shortMarks s;
     essayCount := essayCount s; essayMarks := essayMarks s; jobId := jobId s;
     jobData := jobData s; elapsed := elapsed s |}.

Definition setSelectedSubject (v : value) (s : State) : State :=
  {| view := view s; rubrics := rubrics s; subjects := subjects s;
     ollamaStatus := ollamaStatus s; selectedRubric := selectedRubric s;
     loading := loading s; rubricName := rubricName s;
     selectedSubject := v; difficulty := difficulty s;
     examType := examType s; duration := duration s; mcqCount := mcqCount s;
     mcqMarks := mcqMarks s; shortCount := shortCount s; shortMarks := shortMarks s;
     essayCount := essayCount s; essayMarks := essayMarks s; jobId := jobId s;
     jobData := jobData s; elapsed := elapsed s |}.

Definition setDifficulty (v : string) (s : State) : State :=
  {| view := view s; rubrics := rubrics s; subjects := subjects s;
     ollamaStatus := ollamaStatus s; selectedRubric := selectedRubric s;
     loading := loading s; rubricName := rubricName s;
     selectedSubject := selectedSubject s; difficulty := v;
     examType := examType s; duration := duration s; mcqCount := mcqCount s;
     mcqMarks := mcqMarks s; shortCount := shortCount s; shortMarks := shortMarks s;
     essayCount := essayCount s; essayMarks := essayMarks s; jobId := jobId s;
     jobData := jobData s; elapsed := elapsed s |}.

Definition setJobId (v : value) (s : State) : State :=
  {| view := view s; rubrics := rubrics s; subjects := subjects s;
     ollamaStatus := ollamaStatus s; selectedRubric := selectedRubric s;
     loading := loading s; rubricName := rubricName s;
     selectedSubject := selectedSubject s; difficulty := difficulty s;
     examType := examType s; duration := duration s; mcqCount := mcqCount s;
     mcqMarks := mcqMarks s; shortCount := shortCount s; shortMarks := shortMarks s;
     essayCount := essayCount s; essayMarks := essayMarks s; jobId := v;
     jobData := jobData s; elapsed := elapsed s |}.

Definition setJobData (v : value) (s : State) : State :=
  {| view := view s; rubrics := rubrics s; subjects := subjects s;
     ollamaStatus := ollamaStatus s; selectedRubric := selectedRubric s;
     loading := loading s; rubricName := rubricName s;
     selectedSubject := selectedSubject s; difficulty := difficulty s;
     examType := examType s; duration := duration s; mcqCount := mcqCount s;
     mcqMarks := mcqMarks s; shortCount := shortCount s; shortMarks := shortMarks s;
     essayCount := essayCount s; essayMarks := essayMarks s; jobId := jobId s;
     jobData := v; elapsed := elapsed s |}.

Definition setElapsed (f : Z -> Z) (s : State) : State :=
  {| view := view s; rubrics := rubrics s; subjects := subjects s;
     ollamaStatus := ollamaStatus s; selectedRubric := selectedRubric s;
     loading := loading s; rubricName := rubricName s;
     selectedSubject := selectedSubject s; difficulty := difficulty s;
     examType := examType s; duration := duration s; mcqCount := mcqCount s;
     mcqMarks := mcqMarks s; shortCount := shortCount s; shortMarks := shortMarks s;
     essayCount := essayCount s; essayMarks := essayMarks s; jobId := jobId s;
     jobData := jobData s; elapsed := f (elapsed s) |}.

Definition setPollRef (v : option Z) (r : Refs) : Refs :=
  {| pollRef := v; timerRef := timerRef r |}.

Definition setTimerRef (v : option Z) (r : Refs) : Refs :=
  {| pollRef := pollRef r; timerRef := v |}.

(** The promises the screen awaits. *)
Inductive call :=
| loadAll
| createRubric (data : value)
| startGeneration (rubricId subjectId : value) (difficulty : string)
| pollJob (jobId : value).

(** The callbacks it hands to [setInterval]. *)
Inductive callback :=
| pollTick (job_id : value)
| elapsedTick.

(** [fetchData()], started without [await]. *)
Inductive task := fetchData.

Definition handler (A : Type) : Type := prog State Refs call callback task A.

Definition readProp (v : value) (key : string) : handler value :=
  match v with
  | VUndefined | VNull =>
      Throw {| name := "TypeError";
               message := "Cannot read property '" ++ key ++ "' of undefined" |}
  | _ => Ret (get v key)
  end.

(** [v === s] for a string literal [s]. *)
Definition isString (v : value) (s : string) : bool :=
  match v with
  | VStr s' => (s' =? s)%string
  | _ => false
  end.

(** [a === b] on primitive values; two objects obtained from separate
    responses are never the same object. *)
Definition strictEquals (a b : value) : bool :=
  match a, b with
  | VUndefined, VUndefined | VNull, VNull => true
  | VBool x, VBool y => Bool.eqb x y
  | VNum x, VNum y => numStrictEq x y
  | VStr x, VStr y => (x =? y)%string
  | _, _ => false
  end.

(** [x?.id] *)
Definition optId (x : value) : value :=
  match x with
  | VUndefined | VNull => VUndefined
  | _ => get x "id"
  end.

(** The value of a character as a digit of [radix], if it is one: 0 to 9,
    then a to z or A to Z for ten to thirty-five. *)
Definition digitOf (radix : Z) (c : ascii) : option Z :=
  let n := Z.of_nat (nat_of_ascii c) in
  let d := if (48 <=? n) && (n <=? 57) then n - 48
           else if (97 <=? n) && (n <=? 122) then n - 87
           else if (65 <=? n) && (n <=? 90) then n - 55
           else radix in
  if d <? radix then Some d else None.

(** The integer that the longest run of digits at the head of [s] denotes
    in [radix], after the digits read so far; [None] when no digit was
    read. *)
Fixpoint digitsValue (radix acc : Z) (seen : bool) (s : string) : option Z :=
  match s with
  | String c s' =>
      match digitOf radix c with
      | Some d => digitsValue radix (radix * acc + d) true s'
      | None => if seen then Some acc else None
      end
  | EmptyString => if seen then Some acc else None
  end.

(** [parseInt(s)], called with no radix.  Leading white space and one sign
    are skipped; after a prefix 0x or 0X the digits are hexadecimal,
    otherwise they are decimal; the longest run of digits is read, and the
    result is the double nearest to the integer it denotes (the integer
    itself up to 2^53), with the sign; NaN when there is no digit.  All the
    digits are read: the standard lets an engine take the decimal digits
    after the twentieth for zeros, which matters only to a text of more than
    twenty digits. *)
Definition parseInt (s : string) : number :=
  let trimmed := trimStart s in
  let negative := match trimmed with String "-" _ => true | _ => false end in
  let unsigned := match trimmed with
                  | String "-" rest | String "+" rest => rest
                  | _ => trimmed
                  end in
  let '(radix, digits) :=
    match unsigned with
    | String "0" (String x rest) =>
        if Ascii.eqb x "x" || Ascii.eqb x "X" then (16, rest) else (10, unsigned)
    | _ => (10, unsigned)
    end in
  match digitsValue radix 0 false digits with
  | Some z => roundToDouble (inject_Z (if negative then - z else z))
  | None => NaN
  end.

(** [s || d] on strings. *)
Definition orString (s d : string) : string :=
  if (s =? "")%string then d else s.

(** [fetchData] *)
Definition fetchDataBody : handler unit :=
  try_finally
    (try_catch
       (all <- await loadAll ;;
        match all with
        | VArr [rubs; subjs; ollama] =>
            perform (SetState (setFetched rubs subjs ollama))
        | _ => Ret tt
        end)
       (fun _ => Ret tt))
    (perform (SetState (setLoading false))).

(** [handleCreateRubric], the [onPress] of Save Rubric. *)
Definition handleCreateRubric (st : State) : handler unit :=
  if (trim (rubricName st) =? "")%string then
    perform (Alert_alert "Error" "Rubric name is required")
  else
    try_catch
      (await (createRubric (VObj [
          ("name", VStr (trim (rubricName st)));
          ("exam_type", VStr (examType st));
          ("duration", VNum (parseInt (orString (duration st) "60")));
          ("mcq_count", VNum (ofZ (mcqCount st)));
          ("mcq_marks_each", VNum (parseInt (orString (mcqMarks st) "2")));
          ("short_count", VNum (ofZ (shortCount st)));
          ("short_marks_each", VNum (parseInt (orString (shortMarks st) "5")));
          ("essay_count", VNum (ofZ (essayCount st)));
          ("essay_marks_each", VNum (parseInt (orString (essayMarks st) "10")))
        ])) ;;
       perform (SetState (setView select)) ;;
       perform (Start fetchData))
      (fun _ => perform (Alert_alert "Error" "Failed to create rubric")).

(** [clearInterval(ref.current)] for both refs, as lines 113-114, 117-118
    and 374 do. *)
Definition clearBoth : handler unit :=
  ReadRefs (fun r =>
    perform (clearInterval (pollRef r)) ;;
    ReadRefs (fun r' => perform (clearInterval (timerRef r')))).

(** Lines 111-119: what the interval callback does with the polled job. *)
Definition afterPoll (job : value) : handler unit :=
  perform (SetState (setJobData job)) ;;
  status <- readProp job "status" ;;
  if isString status "completed" then
    clearBoth ;;
    perform (SetState (setView complete))
  else if isString status "failed" then
    clearBoth
  else Ret tt.

(** The body of the interval callback registered at line 108. *)
Definition pollBody (job_id : value) : handler unit :=
  try_catch
    (job <- await (pollJob job_id) ;;
     afterPoll job)
    (fun _ => Ret tt).

(** The body of the interval callback registered at line 124. *)
Definition elapsedBody : handler unit :=
  perform (SetState (setElapsed (fun prev => prev + 1))).

Definition callbackBody (cb : callback) : handler unit :=
  match cb with
  | pollTick job_id => pollBody job_id
  | elapsedTick => elapsedBody
  end.

(** Lines 102-126: what [handleGenerate] does with the response to
    [startGeneration]. *)
Definition afterStart (result : value) : handler unit :=
  job_id <- readProp result "job_id" ;;
  perform (SetState (setJobId job_id)) ;;
  perform (SetState (setJobData (VObj [
      ("status", VStr "pending");
      ("progress", VNum (ofZ 0));
      ("total_questions_requested", get result "total_questions_requested")
    ]))) ;;
  perform (SetState (setElapsed (fun _ => 0))) ;;
  perform (SetState (setView generating)) ;;
  setInterval (pollTick job_id) 2000 (fun id =>
  perform (WriteRefs (setPollRef (Some id))) ;;
  setInterval elapsedTick 1000 (fun id' =>
  perform (WriteRefs (setTimerRef (Some id'))))).

(** [handleGenerate], the [onPress] of Generate Questions. *)
Definition handleGenerate (st : State) : handler unit :=
  if negb (truthy (selectedRubric st)) then Ret tt
  else if negb (truthy (selectedSubject st)) then
    perform (Alert_alert "Error" "Please select a subject first")
  else
    try_catch
      (result <- await (startGeneration (get (selectedRubric st) "id")
                                        (get (selectedSubject st) "id")
                                        (difficulty st)) ;;
       afterStart result)
      (fun _ => perform (Alert_alert "Error" "Failed to start generation")).

(** The [onPress] of Try Again in the failed view (line 374). *)
Definition pressTryAgain : handler unit :=
  perform (SetState (setView select)) ;;
  clearBoth.

(** The cleanup of the effect at lines 59-64, run when the screen unmounts:
    each ref is cleared when it holds a truthy id. *)
Definition unmountCleanup : handler unit :=
  ReadRefs (fun r =>
    (match pollRef r with
     | Some id => if id =? 0 then Ret tt else perform (clearInterval (Some id))
     | None => Ret tt
     end) ;;
    ReadRefs (fun r' =>
      match timerRef r' with
      | Some id => if id =? 0 then Ret tt else perform (clearInterval (Some id))
      | None => Ret tt
      end)).

(** The [onPress] of a subject chip and of a rubric card. *)
Definition pressSubject (s : value) (st : State) : handler unit :=
  perform (SetState (setSelectedSubject
    (if strictEquals (optId (selectedSubject st)) (get s "id") then VNull else s))).

Definition pressRubric (r : value) (st : State) : handler unit :=
  perform (SetState (setSelectedRubric
    (if strictEquals (optId (selectedRubric st)) (get r "id") then VNull else r))).

(** The [onPress] of Generate Another in the complete view. *)
Definition pressGenerateAnother : handler unit :=
  perform (SetState (setView select)) ;;
  perform (SetState (setSelectedRubric VNull)) ;;
  perform (SetState (setSelectedSubject VNull)) ;;
  perform (Start fetchData).

(** [ollamaStatus?.available] *)
Definition ollamaAvailable (st : State) : bool :=
  match ollamaStatus st with
  | VUndefined | VNull => false
  | o => truthy (get o "available")
  end.

(** The [disabled] prop of Generate Questions (line 269). *)
Definition generateDisabled (st : State) : bool :=
  negb (truthy (selectedRubric st)) || negb (truthy (selectedSubject st))
  || negb (ollamaAvailable st).

(** [jobData?.status === 'failed'] *)
Definition isFailed (st : State) : bool :=
  match jobData st with
  | VUndefined | VNull => false
  | j => isString (get j "status") "failed"
  end.

(** *** The screen as an event-driven system

    A world is the mounted component with its store, and the promises that
    were awaited and have not settled yet, each with the continuation that
    waits for it.  An input is a press on a control that the current view
    shows, the firing of a registered interval, the settling of a waiting
    promise, or the unmounting of the screen.  An input that cannot occur in
    a world (the control is not shown or is disabled, the interval is not
    registered, no such promise waits) leaves the world as it is. *)

Definition Store : Type := store State Refs call callback task.

Record World := {
  the_store : Store;
  pending : list (call * (outcome value -> handler unit));
  mounted : bool
}.

Definition taskBody (t : task) : handler unit :=
  match t with
  | fetchData => fetchDataBody
  end.

Definition parkedAt (pk : parked State Refs call callback task unit)
  : list (call * (outcome value -> handler unit)) :=
  match pk with
  | Finished _ => []
  | Waiting c k => [(c, k)]
  end.

(** The tasks started by the events [evs]. *)
Fixpoint startedIn (evs : list (event call task)) : list task :=
  match evs with
  | [] => []
  | Started t :: rest => t :: startedIn rest
  | _ :: rest => startedIn rest
  end.

(** Run a started task up to its first [await].  ([fetchData] starts no
    task of its own.) *)
Definition runTask (w : World) (t : task) : World :=
  let '(st', pk) := exec (taskBody t) (the_store w) in
  {| the_store := st'; pending := (pending w ++ parkedAt pk)%list;
     mounted := mounted w |}.

(** Run a handler, a callback or a continuation up to its end or its next
    [await], then the tasks it started.  (A started task only issues its
    requests before it waits, so running it after the caller's step, rather
    than inside it, changes nothing else.) *)
Definition run (p : handler unit) (w : World) : World :=
  let '(st', pk) := exec p (the_store w) in
  fold_left runTask
    (startedIn (skipn (List.length (log (the_store w))) (log st')))
    {| the_store := st'; pending := (pending w ++ parkedAt pk)%list;
       mounted := mounted w |}.

Inductive input :=
| PressSubject (s : value)
| PressRubric (r : value)
| PressCreateNewRubric
| PressBack
| ChangeRubricName (text : string)
| PressDifficulty (level : string)
| PressSaveRubric
| PressGenerate
| PressTryAgain
| PressGenerateAnother
| Tick (id : Z)
| Settle (n : nat) (r : outcome value)
| Unmount.

(** The screen right after mounting: the first effect has called
    [fetchData()]; the second has only registered its cleanup. *)
Definition mount : World :=
  run (perform (Start fetchData))
    {| the_store := {| state := initialState; refs := initialRefs;
                       timers := []; next_timer := 1; log := [] |};
       pending := []; mounted := true |}.

Definition viewIs (w : World) (v : ViewMode) : bool :=
  match view (state (the_store w)), v with
  | select, select | create, create
  | generating, generating | complete, complete => true
  | _, _ => false
  end.

Definition findTimer (id : Z) (ts : list (timer callback)) : option (timer callback) :=
  find (fun t => timer_id t =? id) ts.

Fixpoint removeNth {A} (n : nat) (l : list A) : list A :=
  match l, n with
  | [], _ => []
  | _ :: rest, O => rest
  | x :: rest, S n' => x :: removeNth n' rest
  end.

Definition step (w : World) (i : input) : World :=
  let st := state (the_store w) in
  match i with
  | PressSubject s =>
      if mounted w && viewIs w select then run (pressSubject s st) w else w
  | PressRubric r =>
      if mounted w && viewIs w select then run (pressRubric r st) w else w
  | PressCreateNewRubric =>
      if mounted w && viewIs w select
      then run (perform (SetState (setView create))) w else w
  | PressBack =>
      if mounted w && viewIs w create
      then run (perform (SetState (setView select))) w else w
  | ChangeRubricName text =>
      if mounted w && viewIs w create
      then run (perform (SetState (setRubricName text))) w else w
  | PressDifficulty level =>
      if mounted w && viewIs w select && negb (generateDisabled st)
      then run (perform (SetState (setDifficulty level))) w else w
  | PressSaveRubric =>
      if mounted w && viewIs w create then run (handleCreateRubric st) w else w
  | PressGenerate =>
      if mounted w && viewIs w select && negb (generateDisabled st)
      then run (handleGenerate st) w else w
  | PressTryAgain =>
      if mounted w && viewIs w generating && isFailed st
      then run pressTryAgain w else w
  | PressGenerateAnother =>
      if mounted w && viewIs w complete then run pressGenerateAnother w else w
  | Tick id =>
      match findTimer id (timers (the_store w)) with
      | Some t => run (callbackBody (timer_callback t)) w
      | None => w
      end
  | Settle n r =>
      match nth_error (pending w) n with
      | Some (_, k) =>
          run (k r) {| the_store := the_store w;
                       pending := removeNth n (pending w);
                       mounted := mounted w |}
      | None => w
      end
  | Unmount =>
      if mounted w
      then run unmountCleanup {| the_store := the_store w;
                                 pending := pending w; mounted := false |}
      else w
  end.

Definition steps (w : World) (inputs : list input) : World :=
  fold_left step inputs w.

(** The ids of the registered intervals, and the calls made so far. *)
Definition activeTimers (w : World) : list Z :=
  map timer_id (timers (the_store w)).

Fixpoint callsIn (evs : list (event call task)) : list call :=
  match evs with
  | [] => []
  | Called c :: rest => c :: callsIn rest
  | _ :: rest => callsIn rest
  end.

Definition callsOf (w : World) : list call := callsIn (log (the_store w)).

End Generate.

(** ** TrainingDashboard (src/unnamed/part_000) *)

Module Training.

Import React.
Local Open Scope prog_scope.

(** The [status] state: what [getTrainingStatus] last returned, or [null]. *)
Definition State : Type := value.

Inductive call :=
| getTrainingStatus (subjectId : Z).

Inductive callback :=
| statusTick (status : value).

Inductive task := fetchData.

Definition handler (A : Type) : Type := prog State unit call callback task A.

(** [['generating', 'evaluating_baseline', 'evaluating_skill'].includes(s)] *)
Definition isActiveStatus (s : value) : bool :=
  match s with
  | VStr x =>
      (x =? "generating")%string || (x =? "evaluating_baseline")%string
      || (x =? "evaluating_skill")%string
  | _ => false
  end.

(** The interval callback of lines 42-46, closed over the [status] of the
    render that ran the effect:
    [getTrainingStatus(subjectId).then(setStatus).catch(() => {})]. *)
Definition statusTickBody (subjectId : Z) (status : value) : handler unit :=
  if truthy status && isActiveStatus (get status "status") then
    Await (getTrainingStatus subjectId) (fun o =>
      match o with
      | Resolved v => perform (SetState (fun _ => v))
      | Rejected _ => Ret tt
      end)
  else Ret tt.

(** The effect of lines 39-48; it yields the id its cleanup clears. *)
Definition pollEffect (status : value) : handler Z :=
  perform (Start fetchData) ;;
  setInterval (statusTick status) 3000 (fun interval => Ret interval).

Definition pollEffectCleanup (interval : Z) : handler unit :=
  perform (clearInterval (Some interval)).

End Training.

(** ** frontend/services/api.ts: the endpoint wrappers (lines 69-262)

    Each wrapper calls [request] with an endpoint and, for the calls that
    write, with options.  A wrapper is embedded as the pair of arguments it
    passes on; one whose endpoint is a template literal has no such pair
    when the literal throws.  ([uploadMaterial] passes a [FormData] body,
    which is no string, and is left out.) *)

Module Endpoints.

Section Wrappers.

Context {P : Platform}.

(** [JSON.stringify(v)] with one argument: the compact rendering. *)
Variable stringify : value -> string.

Definition Request : Type := (string * option Api.RequestInit)%type.

(** A wrapper whose endpoint is a template literal [`...${v}...`]: the
    literal is evaluated first, and when rendering [v] throws, the wrapper
    throws and [request] is not called ([None]). *)
Definition withText (v : value) (k : string -> Request) : option Request :=
  match ToString v with
  | Some text => Some (k text)
  | None => None
  end.

(** [{ method: m, headers: { 'Content-Type': 'application/json' },
      body: JSON.stringify(data) }] *)
Definition jsonBody (m : string) (data : value) : option Api.RequestInit :=
  Some {| Api.method := Some m;
          Api.headers := [("Content-Type", "application/json")];
          Api.body := Some (stringify data) |}.

(** [{ method: m }] *)
Definition methodOnly (m : string) : option Api.RequestInit :=
  Some {| Api.method := Some m; Api.headers := []; Api.body := None |}.

Definition getSubjects : Request := ("/api/subjects/", None).




Definition createUnit (subjectId name unitNumber : value) : option Request :=
  withText subjectId (fun subjectId =>
    ("/api/subjects/" ++ subjectId ++ "/units",
     jsonBody "POST" (VObj [("name", name); ("unit_number", unitNumber)]))).


Definition createTopic (unitId title : value) : option Request :=
  withText unitId (fun unitId =>
    ("/api/units/" ++ unitId ++ "/topics",
     jsonBody "POST" (VObj [("title", title)]))).




Definition updateTopicSyllabus (topicId syllabusData : value) : option Request :=
  withText topicId (fun topicId =>
    ("/api/topics/" ++ topicId ++ "/syllabus",
     jsonBody "POST" (VObj [("syllabus_data", syllabusData)]))).





Definition createCO (subjectId data : value) : option Request :=
  withText subjectId (fun subjectId =>
    ("/api/subjects/" ++ subjectId ++ "/cos", jsonBody "POST" data)).

Definition updateCO (coId data : value) : option Request :=
  withText coId (fun coId =>
    ("/api/cos/" ++ coId, jsonBody "PUT" data)).







Definition updateUnitCOMapping (unitId coIds : value) : option Request :=
  withText unitId (fun unitId =>
    ("/api/units/" ++ unitId ++ "/co-mapping",
     jsonBody "PUT" (VObj [("co_ids", coIds)]))).




Definition getRubrics : Request := ("/api/rubrics/", None).

Definition createRubric (data : value) : Request :=
  ("/api/rubrics/", jsonBody "POST" data).


(** [startGeneration] declares two parameters; a third argument of a call
    is not read. *)
Definition startGeneration (rubricId subjectId : value) : Request :=
  ("/api/generate/",
   jsonBody "POST" (VObj [("rubric_id", rubricId); ("subject_id", subjectId)])).

Definition pollJob (jobId : value) : option Request :=
  withText jobId (fun jobId =>
    ("/api/generate/job/" ++ jobId, None)).


Definition getOllamaStatus : Request := ("/api/generate/ollama-status", None).



Definition getQuestionDetail (id : value) : option Request :=
  withText id (fun id =>
    ("/api/vetting/question/" ++ id, None)).

Definition submitVetting (data : value) : Request :=
  ("/api/vetting/submit", jsonBody "POST" data).





Definition startTraining (subjectId : value) : option Request :=
  withText subjectId (fun subjectId =>
    ("/api/training/start/" ++ subjectId, methodOnly "POST")).

Definition getTrainingStatus (subjectId : value) : option Request :=
  withText subjectId (fun subjectId =>
    ("/api/training/status/" ++ subjectId, None)).

Definition getSkillContent (subjectId : value) : option Request :=
  withText subjectId (fun subjectId =>
    ("/api/training/skill/" ++ subjectId, None)).

End Wrappers.

End Endpoints.

(** ** frontend/app/(tabs)/vetting.tsx: labels, ages and navigation *)

Module VettingView.

Import React.
Local Open Scope prog_scope.

(** The class [\w] of a regular expression without the [u] flag. *)
Definition isWordChar (c : ascii) : bool :=
  let n := nat_of_ascii c in
  ((48 <=? n) && (n <=? 57) || (65 <=? n) && (n <=? 90)
   || (97 <=? n) && (n <=? 122) || (n =? 95))%nat.

(** [c.toUpperCase()] for a [c] matched by [\w]. *)
Definition toUpperAscii (c : ascii) : ascii :=
  let n := nat_of_ascii c in
  if ((97 <=? n) && (n <=? 122))%nat then ascii_of_nat (n - 32) else c.

(** [s.replace(/_/g, ' ')] *)
Fixpoint underscoresToSpaces (s : string) : string :=
  match s with
  | EmptyString => EmptyString
  | String c s' =>
      String (if Ascii.eqb c "_" then " "%char else c) (underscoresToSpaces s')
  end.

(** [s.replace(/\b\w/g, c => c.toUpperCase())]: a word character is
    replaced when no word character stands before it.  [afterWord] tells
    whether the character before the head of [s] is a word character. *)
Fixpoint capitalizeWords (afterWord : bool) (s : string) : string :=
  match s with
  | EmptyString => EmptyString
  | String c s' =>
      String (if isWordChar c && negb afterWord then toUpperAscii c else c)
             (capitalizeWords (isWordChar c) s')
  end.

(** The [label] of a key (lines 40 and 138). *)
Definition label (key : string) : string :=
  capitalizeWords false (underscoresToSpaces key).

(** [formatTimeAgo(isoString)].  [isoString] is [None] for [null];
    [diff] is [Date.now() - new Date(isoString).getTime()], a whole number
    of milliseconds, or NaN ([None]) when the string is no date.  On NaN
    every comparison is false and the last line renders NaN. *)
Definition formatTimeAgo (isoString : option string) (diff : option Z) : string :=
  match isoString with
  | None | Some EmptyString => ""
  | Some _ =>
      match diff with
      | None => "NaNd ago"
      | Some diff =>
          let mins := diff / 60000 in
          if mins <? 1 then "Just now"
          else if mins <? 60 then decimal mins ++ "m ago"
          else
            let hrs := mins / 60 in
            if hrs <? 24 then decimal hrs ++ "h ago"
            else
              let days := hrs / 24 in
              decimal days ++ "d ago"
      end
  end.

(** The [onPress] of Previous (line 873). *)
Definition pressPrevious (st : Vetting.ReviewState) : Vetting.handler unit :=
  if (0 <? Vetting.currentIndex st)%nat then
    perform (SetState (Vetting.setCurrentIndex (Vetting.currentIndex st - 1))) ;;
    perform (SetState (Vetting.setShowCouncil false)) ;;
    perform (SetState (Vetting.setDetail VNull)) ;;
    perform (SetState (Vetting.setExpandedAgent None))
  else Ret tt.

(** The [onPress] of Next (line 880). *)
Definition pressNext (st : Vetting.ReviewState) : Vetting.handler unit :=
  if Z.of_nat (Vetting.currentIndex st)
     <? Z.of_nat (List.length (Vetting.queue st)) - 1 then
    perform (SetState (Vetting.setCurrentIndex (Vetting.currentIndex st + 1))) ;;
    perform (SetState (Vetting.setShowCouncil false)) ;;
    perform (SetState (Vetting.setDetail VNull)) ;;
    perform (SetState (Vetting.setExpandedAgent None))
  else Ret tt.

(** [loadDetail] (lines 480-486), for the render whose state is [st]; its
    [catch] only writes the error to the console. *)
Definition loadDetail (st : Vetting.ReviewState) : Vetting.handler unit :=
  let current := nth (Vetting.currentIndex st) (Vetting.queue st) VUndefined in
  if negb (truthy current) then Ret tt
  else
    try_catch
      (data <- await (Vetting.getQuestionDetail (get current "id")) ;;
       perform (SetState (Vetting.setDetail data)))
      (fun _ => Ret tt).

(** The [onPress] of View Council Deliberation (line 703).  [loadDetail()]
    is its last statement and is not awaited. *)
Definition pressCouncil (st : Vetting.ReviewState) : Vetting.handler unit :=
  perform (SetState (Vetting.setShowCouncil (negb (Vetting.showCouncil st)))) ;;
  if negb (Vetting.showCouncil st) && negb (truthy (Vetting.detail st))
  then loadDetail st
  else Ret tt.

End VettingView.

(** ** frontend/app/(tabs)/_layout.tsx: the forms of the subject-detail
       screen (Course Outcomes, Unit-CO mapping, units and topics)

    The state hooks of the screen are independent of one another; each form
    is embedded with the hooks its handlers read and write. *)

Module SubjectForms.

Import React.
Local Open Scope prog_scope.

Inductive call :=
| createCO (subjectId : number) (data : value)
| updateCO (coId : value) (data : value)
| updateUnitCOMapping (unitId : Z) (coIds : list Z)
| createUnit (subjectId : number) (name : string) (unitNumber : number)
| createTopic (unitId : value) (title : string).

(** [fetchAll()], started without [await]. *)
Inductive task := fetchAll.

(** *** The Course Outcome modal *)

Record CoForm := {
  coModal : bool;
  coText : string;
  coCode : string;
  coBlooms : list string;
  editingCoId : value
}.


Definition setCoModal (v : bool) (s : CoForm) : CoForm :=
  {| coModal := v; coText := coText s; coCode := coCode s;
     coBlooms := coBlooms s; editingCoId := editingCoId s |}.

Definition setCoText (v : string) (s : CoForm) : CoForm :=
  {| coModal := coModal s; coText := v; coCode := coCode s;
     coBlooms := coBlooms s; editingCoId := editingCoId s |}.

Definition setCoCode (v : string) (s : CoForm) : CoForm :=
  {| coModal := coModal s; coText := coText s; coCode := v;
     coBlooms := coBlooms s; editingCoId := editingCoId s |}.

Definition setCoBlooms (v : list string) (s : CoForm) : CoForm :=
  {| coModal := coModal s; coText := coText s; coCode := coCode s;
     coBlooms := v; editingCoId := editingCoId s |}.

Definition setEditingCoId (v : value) (s : CoForm) : CoForm :=
  {| coModal := coModal s; coText := coText s; coCode := coCode s;
     coBlooms := coBlooms s; editingCoId := v |}.

Definition coHandler (A : Type) : Type := prog CoForm unit call Empty_set task A.



(** The object [handleCreateCO] sends. *)
Definition coData (st : CoForm) : value :=
  VObj [("description", VStr (coText st));
        ("code", VStr (coCode st));
        ("blooms_levels", VArr (map VStr (coBlooms st)))].

(** [handleCreateCO]; [numId] is the id of the subject. *)
Definition handleCreateCO (numId : number) (st : CoForm) : coHandler unit :=
  if (trim (coCode st) =? "")%string && (trim (coText st) =? "")%string then
    perform (Alert_alert "Error" "Please provide at least a Code or Description")
  else if (List.length (coBlooms st) =? 0)%nat then
    perform (Alert_alert "Error" "Please select at least one Bloom's Level")
  else
    try_catch
      ((if truthy (editingCoId st)
        then await (updateCO (editingCoId st) (coData st))
        else await (createCO numId (coData st))) ;;
       perform (SetState (setCoModal false)) ;;
       perform (SetState (setCoText "")) ;;
       perform (SetState (setCoCode "")) ;;
       perform (SetState (setCoBlooms ["Knowledge"])) ;;
       perform (SetState (setEditingCoId VNull)) ;;
       perform (Start fetchAll))
      (fun _ => perform (Alert_alert "Error" "Failed to save CO")).

(** *** The Unit-CO mapping modal *)

(** A unit, as far as the modal reads it: its id, and the ids of its
    [mapped_cos] when it has that field. *)
Record Unit := {
  unit_id : Z;
  mapped_cos : option (list Z)
}.

(** A [Set<number>]: its members in insertion order, each once. *)
Definition NumberSet : Type := list Z.

(** [set.has(x)] *)
Definition Set_has (x : Z) (s : NumberSet) : bool := existsb (Z.eqb x) s.

(** [set.add(x)] *)
Definition Set_add (x : Z) (s : NumberSet) : NumberSet :=
  if Set_has x s then s else (s ++ [x])%list.

(** [set.delete(x)] *)
Definition Set_delete (x : Z) (s : NumberSet) : NumberSet :=
  filter (fun y => negb (y =? x)) s.

(** [new Set(items)] *)
Definition Set_of (items : list Z) : NumberSet :=
  fold_left (fun s x => Set_add x s) items [].

Record Mapping := {
  mappingModal : bool;
  activeUnitForMapping : option Unit;
  selectedCOs : NumberSet
}.

Definition initialMapping : Mapping :=
  {| mappingModal := false; activeUnitForMapping := None; selectedCOs := [] |}.

Definition setMappingModal (v : bool) (s : Mapping) : Mapping :=
  {| mappingModal := v; activeUnitForMapping := activeUnitForMapping s;
     selectedCOs := selectedCOs s |}.

Definition setActiveUnitForMapping (v : option Unit) (s : Mapping) : Mapping :=
  {| mappingModal := mappingModal s; activeUnitForMapping := v;
     selectedCOs := selectedCOs s |}.

Definition setSelectedCOs (v : NumberSet) (s : Mapping) : Mapping :=
  {| mappingModal := mappingModal s;
     activeUnitForMapping := activeUnitForMapping s; selectedCOs := v |}.

Definition mappingHandler (A : Type) : Type :=
  prog Mapping unit call Empty_set task A.

(** [openMappingModal(unit)] *)
Definition openMappingModal (the_unit : Unit) : mappingHandler unit :=
  perform (SetState (setActiveUnitForMapping (Some the_unit))) ;;
  let currentIds :=
    Set_of (match mapped_cos the_unit with Some ids => ids | None => [] end) in
  perform (SetState (setSelectedCOs currentIds)) ;;
  perform (SetState (setMappingModal true)).

(** [toggleCOSelection(coId)] *)
Definition toggleCOSelection (coId : Z) (st : Mapping) : mappingHandler unit :=
  let next := selectedCOs st in
  let next := if Set_has coId next then Set_delete coId next
              else Set_add coId next in
  perform (SetState (setSelectedCOs next)).

(** [handleSaveMapping] *)
Definition handleSaveMapping (st : Mapping) : mappingHandler unit :=
  match activeUnitForMapping st with
  | None => Ret tt
  | Some the_unit =>
      try_catch
        (await (updateUnitCOMapping (unit_id the_unit) (selectedCOs st)) ;;
         perform (SetState (setMappingModal false)) ;;
         perform (Start fetchAll))
        (fun _ => perform (Alert_alert "Error" "Failed to save mapping"))
  end.

(** *** The Add Unit and Add Topic modals *)

Record UnitForm := {
  unitModal : bool;
  unitName : string;
  unitNumber : string;
  topicCreateModal : bool;
  activeUnitId : value;
  topicTitle : string
}.

Definition setUnitModal (v : bool) (s : UnitForm) : UnitForm :=
  {| unitModal := v; unitName := unitName s; unitNumber := unitNumber s;
     topicCreateModal := topicCreateModal s; activeUnitId := activeUnitId s;
     topicTitle := topicTitle s |}.

Definition setUnitName (v : string) (s : UnitForm) : UnitForm :=
  {| unitModal := unitModal s; unitName := v; unitNumber := unitNumber s;
     topicCreateModal := topicCreateModal s; activeUnitId := activeUnitId s;
     topicTitle := topicTitle s |}.

Definition setUnitNumber (v : string) (s : UnitForm) : UnitForm :=
  {| unitModal := unitModal s; unitName := unitName s; unitNumber := v;
     topicCreateModal := topicCreateModal s; activeUnitId := activeUnitId s;
     topicTitle := topicTitle s |}.

Definition setTopicCreateModal (v : bool) (s : UnitForm) : UnitForm :=
  {| unitModal := unitModal s; unitName := unitName s; unitNumber := unitNumber s;
     topicCreateModal := v; activeUnitId := activeUnitId s;
     topicTitle := topicTitle s |}.

Definition setActiveUnitId (v : value) (s : UnitForm) : UnitForm :=
  {| unitModal := unitModal s; unitName := unitName s; unitNumber := unitNumber s;
     topicCreateModal := topicCreateModal s; activeUnitId := v;
     topicTitle := topicTitle s |}.

Definition setTopicTitle (v : string) (s : UnitForm) : UnitForm :=
  {| unitModal := unitModal s; unitName := unitName s; unitNumber := unitNumber s;
     topicCreateModal := topicCreateModal s; activeUnitId := activeUnitId s;
     topicTitle := v |}.

Definition unitHandler (A : Type) : Type :=
  prog UnitForm unit call Empty_set task A.

(** [handleCreateUnit]; [parseInt] is the global function, embedded with
    the Generate screen. *)
Definition handleCreateUnit (numId : number) (st : UnitForm) : unitHandler unit :=
  if (trim (unitName st) =? "")%string || (trim (unitNumber st) =? "")%string then
    Ret tt
  else
    try_catch
      (await (createUnit numId (trim (unitName st))
                (Generate.parseInt (unitNumber st))) ;;
       perform (SetState (setUnitName "")) ;;
       perform (SetState (setUnitNumber "")) ;;
       perform (SetState (setUnitModal false)) ;;
       perform (Start fetchAll))
      (fun _ => perform (Alert_alert "Error" "Failed to create unit")).

(** [handleCreateTopic] *)
Definition handleCreateTopic (st : UnitForm) : unitHandler unit :=
  if (trim (topicTitle st) =? "")%string || negb (truthy (activeUnitId st)) then
    Ret tt
  else
    try_catch
      (await (createTopic (activeUnitId st) (trim (topicTitle st))) ;;
       perform (SetState (setTopicTitle "")) ;;
       perform (SetState (setTopicCreateModal false)) ;;
       perform (SetState (setActiveUnitId VNull)) ;;
       perform (Start fetchAll))
      (fun _ => perform (Alert_alert "Error" "Failed to create topic")).

End SubjectForms.

(** ** frontend/app/(tabs)/generate.tsx: what the generating view shows,
       and what fetchData awaits *)

Module GenerateView.

(** [getStatusText(progress)] *)
Definition getStatusText (progress : number) : string :=
  if numLt progress (ofZ 10) then "Initializing..."
  else if numLt progress (ofZ 30) then "Retrieving study material context..."
  else if numLt progress (ofZ 50) then "Council is deliberating..."
  else if numLt progress (ofZ 80) then "Generating questions..."
  else if numLt progress (ofZ 100) then "Finalizing..."
  else "Complete!".

(** [s.padStart(n, '0')] *)
Definition padStart0 (n : nat) (s : string) : string :=
  String.concat "" (repeat "0" (n - String.length s)) ++ s.

(** The Elapsed text of line 403, for the whole number of seconds the clock
    has counted: [Math.floor(elapsed / 60)], a colon, and [elapsed % 60]
    padded to two digits. *)
Definition elapsedText (elapsed : Z) : string :=
  decimal (elapsed / 60) ++ ":" ++ padStart0 2 (decimal (Z.rem elapsed 60)).

(** What the [Promise.all] of lines 46-50 settles to: the three results when
    getRubrics and getSubjects resolve, with the fallback object in place of
    a rejected getOllamaStatus; a rejection when getRubrics or getSubjects
    rejects (the one that rejected first, which the caller does not look
    at). *)
Definition loadAllSettles (rubs subjs ollama : outcome value) : outcome value :=
  match rubs, subjs with
  | Resolved r, Resolved s =>
      Resolved (VArr [r; s;
                      match ollama with
                      | Resolved o => o
                      | Rejected _ =>
                          VObj [("available", VBool false); ("models", VArr [])]
                      end])
  | Rejected e, _ => Rejected e
  | _, Rejected e => Rejected e
  end.

End GenerateView.

(** ** TrainingDashboard (src/unnamed/part_000): the elapsed text and the
       two buttons *)

Module TrainingView.

Import React.
Local Open Scope prog_scope.

(** [formatElapsed(secs)] *)
Definition formatElapsed (secs : Z) : string :=
  let m := GenerateView.padStart0 2 (decimal (secs / 60)) in
  let s := GenerateView.padStart0 2 (decimal (Z.rem secs 60)) in
  m ++ ":" ++ s.

Record State := {
  stats : value;
  status : value;
  loading : bool;
  starting : bool;
  skillModal : bool;
  skillContent : value
}.

Definition setStats (v : value) (s : State) : State :=
  {| stats := v; status := status s; loading := loading s; starting := starting s;
     skillModal := skillModal s; skillContent := skillContent s |}.

Definition setStatus (v : value) (s : State) : State :=
  {| stats := stats s; status := v; loading := loading s; starting := starting s;
     skillModal := skillModal s; skillContent := skillContent s |}.

Definition setLoading (v : bool) (s : State) : State :=
  {| stats := stats s; status := status s; loading := v; starting := starting s;
     skillModal := skillModal s; skillContent := skillContent s |}.

Definition setStarting (v : bool) (s : State) : State :=
  {| stats := stats s; status := status s; loading := loading s; starting := v;
     skillModal := skillModal s; skillContent := skillContent s |}.

Definition setSkillModal (v : bool) (s : State) : State :=
  {| stats := stats s; status := status s; loading := loading s;
     starting := starting s; skillModal := v; skillContent := skillContent s |}.

Definition setSkillContent (v : value) (s : State) : State :=
  {| stats := stats s; status := status s; loading := loading s;
     starting := starting s; skillModal := skillModal s; skillContent := v |}.

(** The promises the dashboard awaits; [loadBoth] is the [Promise.all] of
    getDatasetStats and getTrainingStatus. *)
Inductive call :=
| startTraining (subjectId : Z)
| loadBoth (subjectId : Z)
| getSkillContent (subjectId : Z).

Definition handler (A : Type) : Type :=
  prog State unit call Empty_set Empty_set A.

(** [fetchData], awaited by its caller.  (Its [catch] only writes the error
    to the console.)  Destructuring what [Promise.all] of two promises
    resolved to gives its two elements. *)
Definition fetchData (subjectId : Z) : handler unit :=
  try_finally
    (try_catch
       (both <- await (loadBoth subjectId) ;;
        match both with
        | VArr [sStats; sStatus] =>
            perform (SetState (setStats sStats)) ;;
            perform (SetState (setStatus sStatus))
        | _ => Ret tt
        end)
       (fun _ => Ret tt))
    (perform (SetState (setLoading false))).

(** [handleStartTraining] *)
Definition handleStartTraining (subjectId : Z) : handler unit :=
  perform (SetState (setStarting true)) ;;
  try_finally
    (try_catch
       (await (startTraining subjectId) ;;
        fetchData subjectId)
       (fun e =>
          perform (Alert_alert "Error"
            (if (message e =? "")%string then "Failed to start training"
             else message e))))
    (perform (SetState (setStarting false))).

(** [handleViewSkill] *)
Definition handleViewSkill (subjectId : Z) : handler unit :=
  try_catch
    (skill <- await (getSkillContent subjectId) ;;
     if truthy skill then
       perform (SetState (setSkillContent (get skill "skill_content"))) ;;
       perform (SetState (setSkillModal true))
     else
       perform (Alert_alert "Info" "No skill content found."))
    (fun _ => perform (Alert_alert "Error" "Failed to load skill")).

(** The [disabled] prop of the Start Training button (line 175). *)
Definition startDisabled (st : State) : bool :=
  starting st
  || negb (match stats st with
           | VUndefined | VNull => false
           | s => truthy (get s "ready_for_training")
           end).

End TrainingView.

(** ** A platform to run the definitions on *)

Module Reference.

Definition nl : string := String (ascii_of_nat 10) EmptyString.

Definition quoted (s : string) : string := Vetting.dq ++ s ++ Vetting.dq.

(** Integral numbers print in decimal, as in JavaScript; a fraction prints
    as numerator/denominator (the examples below use none). *)
Definition numberText (n : number) : string :=
  match n with
  | NaN => "NaN"
  | Infinity false => "Infinity"
  | Infinity true => "-Infinity"
  | Finite q =>
      let r := Qred q in
      match Qden r with
      | xH => decimal (Qnum r)
      | d => decimal (Qnum r) ++ "/" ++ decimal (Zpos d)
      end
  end.

(** Indented JSON text, two spaces a level; strings are quoted as they are. *)
Fixpoint stringify (indent : string) (v : value) : string :=
  let inner := indent ++ "  " in
  match v with
  | VUndefined | VNull => "null"
  | VBool true => "true"
  | VBool false => "false"
  | VNum n => numberText n
  | VStr s => quoted s
  | VArr [] => "[]"
  | VArr items =>
      "[" ++ nl
      ++ join ("," ++ nl) (map (fun x => inner ++ stringify inner x) items)
      ++ nl ++ indent ++ "]"
  | VObj [] => "{}"
  | VObj fields =>
      "{" ++ nl
      ++ join ("," ++ nl)
           (map (fun kv => match kv with
                           | (k, x) => inner ++ quoted k ++ ": " ++ stringify inner x
                           end) fields)
      ++ nl ++ indent ++ "}"
  end.

(** The JSON documents the examples parse, each with the value it denotes. *)
Definition documents : list (string * value) :=
  [ ("{" ++ quoted "question" ++ ": " ++ quoted "Define osmosis." ++ "}",
     VObj [("question", VStr "Define osmosis.")]);
    ("{" ++ quoted "json" ++ ": {" ++ quoted "text" ++ ": " ++ quoted "Name two noble gases." ++ "}}",
     VObj [("json", VObj [("text", VStr "Name two noble gases.")])]);
    ("[1, 2]", VArr [VNum (ofZ 1); VNum (ofZ 2)]) ].

Fixpoint parseWith (docs : list (string * value)) (text : string) : option value :=
  match docs with
  | [] => None
  | (t, v) :: rest => if (t =? text)%string then Some v else parseWith rest text
  end.

#[export] Instance platform : Platform := {|
  Number_toString := numberText;
  JSON_parse := parseWith documents;
  JSON_stringify := stringify ""
|}.

End Reference.

(** ** Vocabulary of the specification *)

(** [hay.includes(needle)] *)
Fixpoint includes (needle hay : string) : bool :=
  match eqPrefix false needle hay with
  | Some _ => true
  | None =>
      match hay with
      | EmptyString => false
      | String _ hay' => includes needle hay'
      end
  end.

(** The status line of an error message. *)
Definition statusLine (res : Api.Response) : string :=
  "API Error: " ++ decimal (Api.status res) ++ " " ++ Api.statusText res.

(** What a field of an error body adds to the message: nothing when the
    field is absent or falsy, its text after a dash otherwise; [None] when
    the field is truthy and has no text, because rendering it throws. *)
Definition appended {P : Platform} (field : value) : option string :=
  if truthy field then option_map (append " - ") (ToString field) else Some "".

(** A value [ToString] renders whatever it holds: any value but an array or
    an object. *)
Definition primitive (v : value) : bool :=
  match v with
  | VArr _ | VObj _ => false
  | _ => true
  end.

(** The [fetch] events of a trace. *)
Definition fetches (t : list Api.event) : list Api.event :=
  filter (fun ev => match ev with Api.fetch _ _ => true | _ => false end) t.

(** The errors a trace logs with [console.error]. *)
Fixpoint loggedErrors (t : list Api.event) : list error :=
  match t with
  | [] => []
  | Api.console_error _ (Api.LError e) :: rest => e :: loggedErrors rest
  | _ :: rest => loggedErrors rest
  end.

(** The stores the handlers of each screen run on. *)
Definition VettingStore : Type :=
  React.store Vetting.ReviewState unit Vetting.call Empty_set Empty_set.

Definition SubjectDetailStore : Type :=
  React.store SubjectDetail.State unit SubjectDetail.call Empty_set SubjectDetail.task.

(** A call of [createRubric] whose [name] is the trimmed, non-empty text of
    some input. *)
Definition namedRubric (c : Generate.call) : Prop :=
  match c with
  | Generate.createRubric data =>
      exists raw, get data "name" = VStr (trim raw) /\ trim raw <> ""
  | _ => True
  end.

(** Every [createRubric] call made so far, and every one a waiting
    continuation can still make, carries a trimmed, non-empty name. *)
Definition rubricsNamed (w : Generate.World) : Prop :=
  (forall c, In (React.Called c) (React.log (Generate.the_store w)) -> namedRubric c)
  /\ (forall c k, In (c, k) (Generate.pending w) ->
        forall o c', React.issues (k o) c' -> namedRubric c').

(** [clearInterval(id)] on the list of registered intervals. *)
Definition cleared (id : option Z) (ts : list (React.timer Generate.callback))
  : list (React.timer Generate.callback) :=
  match id with
  | Some i => React.remove_timer i ts
  | None => ts
  end.

(** The status of a polled job ends the generation. *)
Definition terminal (job : value) : bool :=
  Generate.isString (get job "status") "completed"
  || Generate.isString (get job "status") "failed".

(** ** Inputs of the worked examples *)

Module Examples.

(** A 422 whose body is the JSON object with the one field [detail: false]. *)
Definition unprocessable : Api.Response :=
  {| Api.status := 422; Api.statusText := "Unprocessable Entity";
     Api.json := Resolved (VObj [("detail", VBool false)]) |}.

(** A 404 as the backend sends it. *)
Definition notFound : Api.Response :=
  {| Api.status := 404; Api.statusText := "Not Found";
     Api.json := Resolved (VObj [("detail", VStr "Rubric not found")]) |}.

(** A 500 whose [detail] is an object with a field named [toString], and
    whose [message] is a string. *)
Definition unrenderable : Api.Response :=
  {| Api.status := 500; Api.statusText := "Internal Server Error";
     Api.json := Resolved (VObj [("detail", VObj [("toString", VNum (ofZ 0))]);
                                 ("message", VStr "worker crashed")]) |}.

(** What [res.json()] rejects with on a body that is not JSON. *)
Definition syntaxError : error :=
  {| name := "SyntaxError"; message := "JSON Parse error: Unexpected token: <" |}.

(** A 200 whose body is an HTML page, as a tunnel's interstitial is. *)
Definition htmlPage : Api.Response :=
  {| Api.status := 200; Api.statusText := "OK"; Api.json := Rejected syntaxError |}.

(** A 204 to a DELETE; its body is empty, so [res.json()] would reject. *)
Definition noContent : Api.Response :=
  {| Api.status := 204; Api.statusText := "No Content"; Api.json := Rejected syntaxError |}.

(** A 200 with a JSON list. *)
Definition subjectList : Api.Response :=
  {| Api.status := 200; Api.statusText := "OK";
     Api.json := Resolved (VArr [VObj [("id", VNum (ofZ 1)); ("name", VStr "Biology")]]) |}.

Definition base : string := "http://10.0.2.2:8000".

End Examples.

Module FormExamples.

(** A review in which an action is chosen and no Course Outcome is. *)
Definition reviewWithoutCo : Vetting.ReviewState :=
  {| Vetting.queue := [VObj [("id", VNum (ofZ 41)); ("text", VStr "Define osmosis.")]];
     Vetting.currentIndex := 0;
     Vetting.feedback := "";
     Vetting.action := Some "approve";
     Vetting.submitting := false;
     Vetting.showCouncil := false;
     Vetting.detail := VNull;
     Vetting.expandedAgent := None;
     Vetting.allReviewed := false;
     Vetting.selectedCos := [];
     Vetting.coLevels := [];
     Vetting.bloomsLevel := None;
     Vetting.rejectionReason := None |}.

(** A rejection, filled in as the form requires. *)
Definition rejection : Vetting.ReviewState :=
  {| Vetting.queue := [VObj [("id", VNum (ofZ 41)); ("text", VStr "Define osmosis.")]];
     Vetting.currentIndex := 0;
     Vetting.feedback := "Pure recall.";
     Vetting.action := Some "reject";
     Vetting.submitting := false;
     Vetting.showCouncil := false;
     Vetting.detail := VNull;
     Vetting.expandedAgent := None;
     Vetting.allReviewed := false;
     Vetting.selectedCos := [3];
     Vetting.coLevels := [(3, "moderate")];
     Vetting.bloomsLevel := None;
     Vetting.rejectionReason := Some "Too Simple" |}.

Definition emptyVettingStore : VettingStore :=
  {| React.state := reviewWithoutCo; React.refs := tt; React.timers := [];
     React.next_timer := 1; React.log := [] |}.

(** The default weights with Knowledge moved from 40 to 45: they sum to 105. *)
Definition overweight : SubjectDetail.Distribution :=
  SubjectDetail.setWeight "Knowledge" (ofZ 45) SubjectDetail.defaultDistribution.

Definition topic7 : SubjectDetail.Topic :=
  {| SubjectDetail.id := 7; SubjectDetail.title := "Cell transport";
     SubjectDetail.syllabus_other := [];
     SubjectDetail.bloom_distribution := None |}.

(** The Bloom's Taxonomy modal, opened on [topic7], after that one slider
    was moved. *)
Definition overweightModal : SubjectDetail.State :=
  {| SubjectDetail.syllabusModal := true;
     SubjectDetail.activeTopicForSyllabus := Some topic7;
     SubjectDetail.bloomDistribution := overweight |}.

Definition subjectDetailStore : SubjectDetailStore :=
  {| React.state := overweightModal; React.refs := tt; React.timers := [];
     React.next_timer := 1; React.log := [] |}.

End FormExamples.

Module GenerateExamples.

Import Generate.

Definition withId (n : Z) : value := VObj [("id", VNum (ofZ n))].

(** What the first [fetchData] resolves to: one rubric, one subject, and
    Ollama available. *)
Definition loaded : outcome value :=
  Resolved (VArr [VArr [withId 1]; VArr [withId 2];
                  VObj [("available", VBool true)]]).

(** The response of the backend to [startGeneration] for job [n]. *)
Definition started (n : Z) : outcome value :=
  Resolved (VObj [("job_id", VNum (ofZ n));
                  ("total_questions_requested", VNum (ofZ 10))]).

(** A polled job in status [s]. *)
Definition job (s : string) : outcome value :=
  Resolved (VObj [("status", VStr s); ("progress", VNum (ofZ 100))]).

(** The user types a name with blanks around it and saves the rubric. *)
Definition savingARubric : list input :=
  [Settle 0 loaded; PressCreateNewRubric;
   ChangeRubricName "  Midterm A "; PressSaveRubric].

(** The user types only blanks and saves the rubric. *)
Definition savingABlankName : list input :=
  [Settle 0 loaded; PressCreateNewRubric;
   ChangeRubricName "   "; PressSaveRubric].

Definition midtermA : value :=
  VObj [("name", VStr "Midterm A");
        ("exam_type", VStr "midterm");
        ("duration", VNum (ofZ 60));
        ("mcq_count", VNum (ofZ 5));
        ("mcq_marks_each", VNum (ofZ 2));
        ("short_count", VNum (ofZ 3));
        ("short_marks_each", VNum (ofZ 5));
        ("essay_count", VNum (ofZ 2));
        ("essay_marks_each", VNum (ofZ 10))].

(** The user picks a subject and a rubric and presses Generate Questions
    twice before the first response arrives; both requests are answered. *)
Definition doublePress : list input :=
  [Settle 0 loaded; PressSubject (withId 2); PressRubric (withId 1);
   PressGenerate; PressGenerate;
   Settle 0 (started 11); Settle 0 (started 12)].

(** Then the interval of the second job fires, and its poll finds the job
    completed. *)
Definition secondJobCompletes : list input :=
  (doublePress ++ [Tick 3; Settle 0 (job "completed")])%list.

(** Or the interval of the first job fires, and its poll finds that job
    completed. *)
Definition firstJobCompletes : list input :=
  (doublePress ++ [Tick 1; Settle 0 (job "completed")])%list.

(** One press, and two polls: the job is running, then completed. *)
Definition singlePress : list input :=
  [Settle 0 loaded; PressSubject (withId 2); PressRubric (withId 1);
   PressGenerate; Settle 0 (started 11);
   Tick 1; Settle 0 (job "running"); Tick 2;
   Tick 1; Settle 0 (job "completed")].

End GenerateExamples.

Module BatchExamples.

Definition batch (job : Z) (p : number) : Vetting.Batch :=
  {| Vetting.job_id := job; Vetting.subject_id := 1;
     Vetting.subject_name := "Biology"; Vetting.rubric_name := "Midterm A";
     Vetting.total_questions := 10; Vetting.pending_count := 0;
     Vetting.vetted_count := 0; Vetting.progress := p |}.

(** Three batches: untouched, two thirds vetted, fully vetted. *)
Definition fetched : list Vetting.Batch :=
  [batch 1 (ofZ 0); batch 2 (Finite (200 # 3)); batch 3 (ofZ 100)].

End BatchExamples.

Module ExtractExamples.

(** A question that arrives as JSON text with blanks around it. *)
Definition embedded : value :=
  VStr ("  {" ++ Reference.quoted "question" ++ ": "
        ++ Reference.quoted "Define osmosis." ++ "}  ").

(** Text that opens like JSON and is cut short. *)
Definition malformed : value :=
  VStr ("{" ++ Reference.quoted "question_text" ++ " : "
        ++ Reference.quoted "Name two noble gases." ++ ", ").

End ExtractExamples.

(** ** Vocabulary for the further properties *)

(** [headers[name]] *)
Fixpoint headerOf (name : string) (hs : list (string * string)) : option string :=
  match hs with
  | [] => None
  | (k, v) :: rest => if (k =? name)%string then Some v else headerOf name rest
  end.

(** The headers, method and body a caller of [request] passes, if any. *)
Definition callerHeaders (options : option Api.RequestInit) : list (string * string) :=
  match options with Some o => Api.headers o | None => [] end.

Definition callerMethod (options : option Api.RequestInit) : option string :=
  match options with Some o => Api.method o | None => None end.

Definition callerBody (options : option Api.RequestInit) : option string :=
  match options with Some o => Api.body o | None => None end.


(** The index of the review view points at a question of the queue. *)
Definition indexInQueue (st : Vetting.ReviewState) : Prop :=
  (Vetting.currentIndex st < List.length (Vetting.queue st))%nat.

(** [coLevels[id]] *)
Fixpoint levelOf (id : Z) (levels : list (Z * string)) : option string :=
  match levels with
  | [] => None
  | (k, v) :: rest => if k =? id then Some v else levelOf id rest
  end.

(** A contribution level is kept for exactly the selected Course Outcomes. *)
Definition levelsMatch (st : Vetting.ReviewState) : Prop :=
  forall id, In id (map fst (Vetting.coLevels st)) <-> In id (Vetting.selectedCos st).

(** The state a handler of the review view leaves when it runs to its end
    or to its first [await]. *)
Definition reviewAfter (p : Vetting.handler unit) (store : VettingStore)
  : Vetting.ReviewState :=
  React.state (fst (React.exec p store)).

Module ReviewExamples.

(** The rejection of [FormExamples.rejection], in the mounted view. *)
Definition rejecting : VettingStore :=
  {| React.state := FormExamples.rejection; React.refs := tt; React.timers := [];
     React.next_timer := 1; React.log := [] |}.

Definition osmosis : value :=
  VObj [("id", VNum (ofZ 41)); ("text", VStr "Define osmosis.")].

Definition nobleGases : value :=
  VObj [("id", VNum (ofZ 42)); ("text", VStr "Name two noble gases.")].

(** Two pending questions; the first one is shown, approved and mapped to
    Course Outcome 3. *)
Definition approvingFirst : Vetting.ReviewState :=
  {| Vetting.queue := [osmosis; nobleGases];
     Vetting.currentIndex := 0;
     Vetting.feedback := "";
     Vetting.action := Some "approve";
     Vetting.submitting := false;
     Vetting.showCouncil := false;
     Vetting.detail := VNull;
     Vetting.expandedAgent := None;
     Vetting.allReviewed := false;
     Vetting.selectedCos := [3];
     Vetting.coLevels := [(3, "moderate")];
     Vetting.bloomsLevel := None;
     Vetting.rejectionReason := None |}.

Definition approving : VettingStore :=
  {| React.state := approvingFirst; React.refs := tt; React.timers := [];
     React.next_timer := 1; React.log := [] |}.

(** The view while that submission is pending, and the view after Next was
    pressed meanwhile: Next is not disabled by [submitting]. *)
Definition submitted : VettingStore :=
  fst (React.exec (Vetting.handleSubmit approvingFirst) approving).

Definition movedOn : VettingStore :=
  fst (React.exec (VettingView.pressNext (React.state submitted)) submitted).

(** What [fetch] rejects with when the device is offline. *)
Definition offline : error :=
  {| name := "TypeError"; message := "Network request failed" |}.

(** Text that opens like JSON and is cut short. *)
Definition cutShort : string :=
  "{" ++ Reference.quoted "question_text" ++ " : "
  ++ Reference.quoted "Name two noble gases." ++ ", ".

End ReviewExamples.

(** Run the handlers of successive renders: each one closes over the state
    the one before it left, and runs to its end or its first [await]. *)
Definition renders {S R call callback task : Type}
    (handlers : list (S -> React.prog S R call callback task unit))
    (store : React.store S R call callback task)
  : React.store S R call callback task :=
  fold_left (fun st h => fst (React.exec (h (React.state st)) st)) handlers store.

Definition MappingStore : Type :=
  React.store SubjectForms.Mapping unit SubjectForms.call Empty_set SubjectForms.task.

Definition CoFormStore : Type :=
  React.store SubjectForms.CoForm unit SubjectForms.call Empty_set SubjectForms.task.

Definition UnitFormStore : Type :=
  React.store SubjectForms.UnitForm unit SubjectForms.call Empty_set SubjectForms.task.

(** The number of presses on the chip of [id]. *)
Definition presses (id : Z) (chips : list Z) : nat := count_occ Z.eq_dec chips id.

(** [distribution[level]] *)
Fixpoint weightOf (level : string) (d : SubjectDetail.Distribution) : option number :=
  match d with
  | [] => None
  | (k, w) :: rest => if (k =? level)%string then Some w else weightOf level rest
  end.

Module SubjectExamples.


End SubjectExamples.

(** The state a handler of the Generate screen leaves when it runs to its
    end or to its first [await]. *)
Definition generateAfter (p : Generate.handler unit) (store : Generate.Store)
  : Generate.State :=
  React.state (fst (React.exec p store)).

(** The alerts among the events of a log. *)
Fixpoint alertsIn {call task : Type} (evs : list (React.event call task))
  : list (string * string) :=
  match evs with
  | [] => []
  | React.Alerted title msg :: rest => (title, msg) :: alertsIn rest
  | _ :: rest => alertsIn rest
  end.

(** The place of a status line in the order of the stages. *)
Definition stageOf (text : string) : nat :=
  if (text =? "Initializing...")%string then 0
  else if (text =? "Retrieving study material context...")%string then 1
  else if (text =? "Council is deliberating...")%string then 2
  else if (text =? "Generating questions...")%string then 3
  else if (text =? "Finalizing...")%string then 4
  else 5.

(** The integer a decimal text denotes, leading zeros allowed. *)
Definition readNumber (s : string) : option Z :=
  option_map Z.of_int (NilZero.int_of_string s).

Module SelectionExamples.

(** The select view with rubric 1 and subject 2 chosen and Ollama
    available, no request waiting. *)
Definition readyState : Generate.State :=
  Generate.setSelectedRubric (GenerateExamples.withId 1)
    (Generate.setSelectedSubject (GenerateExamples.withId 2)
       (Generate.setLoading false
          (Generate.setFetched (VArr [GenerateExamples.withId 1])
             (VArr [GenerateExamples.withId 2])
             (VObj [("available", VBool true)]) Generate.initialState))).

Definition ready : Generate.Store :=
  {| React.state := readyState; React.refs := Generate.initialRefs;
     React.timers := []; React.next_timer := 1; React.log := [] |}.

(** The screen right after mounting, nothing chosen yet. *)
Definition fresh : Generate.Store :=
  {| React.state := Generate.initialState; React.refs := Generate.initialRefs;
     React.timers := []; React.next_timer := 1; React.log := [] |}.

End SelectionExamples.

(** *** The difficulty chips of the Generate screen *)

(** A state, a call, a store and a world with the chosen difficulty
    forgotten. *)
Definition forgetDifficulty (st : Generate.State) : Generate.State :=
  Generate.setDifficulty "" st.

Definition forgetInCall (c : Generate.call) : Generate.call :=
  match c with
  | Generate.startGeneration r s _ => Generate.startGeneration r s ""
  | _ => c
  end.

Definition forgetInEvent (ev : React.event Generate.call Generate.task)
  : React.event Generate.call Generate.task :=
  match ev with
  | React.Called c => React.Called (forgetInCall c)
  | _ => ev
  end.

Definition forgetInStore (st : Generate.Store) : Generate.Store :=
  {| React.state := forgetDifficulty (React.state st);
     React.refs := React.refs st;
     React.timers := React.timers st;
     React.next_timer := React.next_timer st;
     React.log := map forgetInEvent (React.log st) |}.

Definition forgetInPending
    (ck : Generate.call * (outcome value -> Generate.handler unit))
  : Generate.call * (outcome value -> Generate.handler unit) :=
  (forgetInCall (fst ck), snd ck).

Definition forgetInWorld (w : Generate.World) : Generate.World :=
  {| Generate.the_store := forgetInStore (Generate.the_store w);
     Generate.pending := map forgetInPending (Generate.pending w);
     Generate.mounted := Generate.mounted w |}.

(** A program none of whose state updates looks at the difficulty. *)
Fixpoint oblivious {A} (p : Generate.handler A) : Prop :=
  match p with
  | React.Ret _ | React.Throw _ => True
  | React.Eff e k =>
      match e with
      | React.SetState f =>
          forall s, forgetDifficulty (f s) = forgetDifficulty (f (forgetDifficulty s))
      | _ => True
      end /\ oblivious k
  | React.ReadRefs k => forall r, oblivious (k r)
  | React.Await _ k => forall o, oblivious (k o)
  | React.setInterval _ _ k => forall id, oblivious (k id)
  end.

(** An input other than a press on a difficulty chip. *)
Definition notDifficultyPress (i : Generate.input) : bool :=
  match i with
  | Generate.PressDifficulty _ => false
  | _ => true
  end.

(** What a call of the Generate screen asks of the backend, through the
    wrappers of api.ts; [loadAll] is the three requests of fetchData, and
    [None] stands for a wrapper that throws before it calls [request]. *)
Definition requestsOf {P : Platform} (stringify : value -> string) (c : Generate.call)
  : list (option Endpoints.Request) :=
  match c with
  | Generate.loadAll =>
      [Some Endpoints.getRubrics; Some Endpoints.getSubjects;
       Some Endpoints.getOllamaStatus]
  | Generate.createRubric data => [Some (Endpoints.createRubric stringify data)]
  | Generate.startGeneration rubricId subjectId _ =>
      [Some (Endpoints.startGeneration stringify rubricId subjectId)]
  | Generate.pollJob jobId => [Endpoints.pollJob jobId]
  end.

(** Every continuation that waits in a world is oblivious. *)
Definition waitingOblivious (w : Generate.World) : Prop :=
  forall c k, In (c, k) (Generate.pending w) -> forall o, oblivious (k o).

(** The whole number a weight is, if it is one. *)
Definition wholeOf (w : number) : option Z :=
  match w with
  | Finite (Qmake z xH) => Some z
  | _ => None
  end.

(** A weight the sliders of SyllabusUploadDialog can give: a whole number
    from 0 to 100 (they move from 0 to 100 in steps of 5). *)
Definition wholePercent (w : number) : bool :=
  match wholeOf w with
  | Some z => (0 <=? z) && (z <=? 100)
  | None => false
  end.

(** The sum, as an integer, of the weights that are whole numbers. *)
Fixpoint wholeSum (d : SubjectDetail.Distribution) : Z :=
  match d with
  | [] => 0
  | (_, w) :: rest =>
      match wholeOf w with
      | Some z => z + wholeSum rest
      | None => wholeSum rest
      end
  end.

(** The weights are those of the six levels of the dialog, each a whole
    percentage. *)
Definition sliderWeights (weights : SubjectDetail.Distribution) : Prop :=
  map fst weights = map fst SubjectDetail.BLOOM_LEVELS
  /\ forallb (fun kv => wholePercent (snd kv)) weights = true.

(* ====================================================================== *)
(** * Part II.  Properties                                                 *)
(* ====================================================================== *)

(** ** Strings *)

Lemma eqPrefix_app (p s : string) : eqPrefix false p (p ++ s) = Some s.
Proof.
  induction p as [|a p IH]; simpl.
  - reflexivity.
  - rewrite Ascii.eqb_refl. exact IH.
Qed.

Lemma includes_app (x pre post : string) : includes x (pre ++ x ++ post) = true.
Proof.
  induction pre as [|a pre IH]; simpl.
  - destruct x as [|b x]; simpl.
    + destruct post; reflexivity.
    + rewrite Ascii.eqb_refl, eqPrefix_app. reflexivity.
  - destruct (eqPrefix false x (String a (pre ++ x ++ post))); [reflexivity | exact IH].
Qed.

Lemma append_assoc (a b c : string) : (a ++ b) ++ c = a ++ (b ++ c).
Proof.
  induction a as [|x a IH]; simpl; [reflexivity | now rewrite IH].
Qed.

Lemma append_nil_r (a : string) : a ++ "" = a.
Proof.
  induction a as [|x a IH]; simpl; [reflexivity | now rewrite IH].
Qed.

(** ** The request helper *)

Section Request.

Context {P : Platform}.
Variables (API_BASE endpoint : string) (options : option Api.RequestInit).

Let url : string := API_BASE ++ endpoint.

Let init : Api.RequestInit :=
  {| Api.method := match options with Some o => Api.method o | None => None end;
     Api.headers :=
       Api.assign "ngrok-skip-browser-warning" "true"
         (Api.assign "Bypass-Tunnel-Reminder" "true"
            (match options with Some o => Api.headers o | None => [] end));
     Api.body := match options with Some o => Api.body o | None => None end |}.

Let announce : Api.event :=
  Api.console_log ("[API] Request: " ++ Api.methodOrGET options ++ " " ++ url).

(** The four shapes a call can take. *)
Lemma request_network_failure (e : error) :
  Api.request API_BASE endpoint options (Rejected e)
  = ([announce; Api.fetch url init;
      Api.console_error "[API] Network/Parse Error:" (Api.LError e)],
     Rejected e).
Proof. reflexivity. Qed.

Lemma request_not_ok (res : Api.Response) :
  Api.ok res = false ->
  Api.request API_BASE endpoint options (Resolved res)
  = (((announce :: Api.fetch url init :: fst (Api.errorMessageOf res))
       ++ [Api.console_error "[API] Network/Parse Error:"
             (Api.LError (Error (snd (Api.errorMessageOf res))))])%list,
     Rejected (Error (snd (Api.errorMessageOf res)))).
Proof.
  intros Hok. unfold Api.request. cbn. rewrite Hok. cbn.
  destruct (Api.errorMessageOf res) as [t msg]. cbn.
  rewrite !app_nil_r. reflexivity.
Qed.

Lemma request_no_content (res : Api.Response) :
  Api.ok res = true -> Api.status res = 204 ->
  Api.request API_BASE endpoint options (Resolved res)
  = ([announce; Api.fetch url init], Resolved (VObj [])).
Proof.
  intros Hok H204. unfold Api.request. cbn. rewrite Hok, H204. reflexivity.
Qed.

Lemma request_success (res : Api.Response) :
  Api.ok res = true -> Api.status res <> 204 ->
  Api.request API_BASE endpoint options (Resolved res)
  = ([announce; Api.fetch url init], Api.json res).
Proof.
  intros Hok H204. unfold Api.request. cbn. rewrite Hok. cbn.
  destruct (Z.eqb_spec (Api.status res) 204) as [E|_]; [contradiction|].
  reflexivity.
Qed.

(** Whatever the network does, one call of the helper fetches the URL
    exactly once. *)
Lemma request_fetches_once (network : outcome Api.Response) :
  fetches (fst (Api.request API_BASE endpoint options network))
  = [Api.fetch url init].
Proof.
  destruct network as [res|e].
  - destruct (Api.ok res) eqn:Hok.
    + destruct (Z.eq_dec (Api.status res) 204) as [E|E].
      * rewrite request_no_content by assumption. reflexivity.
      * rewrite request_success by assumption. reflexivity.
    + rewrite request_not_ok by assumption. cbn.
      unfold fetches. rewrite filter_app. cbn.
      unfold Api.errorMessageOf.
      destruct (Api.json res); cbn; reflexivity.
  - rewrite request_network_failure. reflexivity.
Qed.

(** A rejected [fetch] is logged and rethrown as it is. *)
Lemma request_network_error_logged (e : error) :
  snd (Api.request API_BASE endpoint options (Rejected e)) = Rejected e
  /\ loggedErrors (fst (Api.request API_BASE endpoint options (Rejected e))) = [e].
Proof. split; reflexivity. Qed.

End Request.

Lemma value_eq_null_or_undefined (v : value) :
  (v = VNull \/ v = VUndefined) \/ (v <> VNull /\ v <> VUndefined).
Proof. destruct v; first [left; auto; fail | right; split; discriminate]. Qed.

(** C1 (as amended).  On a response whose status is not 2xx the helper
    rejects with an [Error] whose message begins with the status line and so
    contains the numeric status.  When the body cannot be parsed, or is
    [null], the message is the status line alone.  When the body parses, the
    text of its [detail] field and then of its [message] field is appended
    after a dash, each only when the field is truthy.  A truthy field that
    has no text, because rendering it throws, ends the message where it is:
    neither that field nor the one after it is appended.  A string, a number
    or a boolean always has a text. *)
Theorem request_rejects_with_status {P : Platform}
    (API_BASE endpoint : string) (options : option Api.RequestInit)
    (res : Api.Response) :
  Api.ok res = false ->
  exists msg,
    snd (Api.request API_BASE endpoint options (Resolved res)) = Rejected (Error msg)
    /\ includes (decimal (Api.status res)) msg = true
    /\ (forall e, Api.json res = Rejected e -> msg = statusLine res)
    /\ (Api.json res = Resolved VNull -> msg = statusLine res)
    /\ (forall body, Api.json res = Resolved body ->
          body <> VNull -> body <> VUndefined ->
          match appended (get body "detail"), appended (get body "message") with
          | Some detail, Some message => msg = statusLine res ++ detail ++ message
          | Some detail, None => msg = statusLine res ++ detail
          | None, _ => msg = statusLine res
          end)
    /\ (forall field, appended field = None ->
          truthy field = true /\ primitive field = false).
Proof.
  intros Hok. exists (snd (Api.errorMessageOf res)).
  rewrite request_not_ok by assumption. cbn [snd].
  split; [reflexivity|].
  assert (Hline : forall tail,
             includes (decimal (Api.status res)) (statusLine res ++ tail) = true).
  { intros tail. unfold statusLine.
    rewrite !append_assoc. apply includes_app. }
  assert (Hbare : includes (decimal (Api.status res)) (statusLine res) = true).
  { rewrite <- (append_nil_r (statusLine res)). apply Hline. }
  assert (Hshape : forall body, body <> VNull -> body <> VUndefined ->
             Api.json res = Resolved body ->
             snd (Api.errorMessageOf res)
             = match appended (get body "detail"), appended (get body "message") with
               | Some detail, Some message => statusLine res ++ detail ++ message
               | Some detail, None => statusLine res ++ detail
               | None, _ => statusLine res
               end).
  { intros body Hn Hu Hb. unfold Api.errorMessageOf. rewrite Hb. cbn [snd].
    fold (statusLine res). unfold Api.appendField, appended.
    destruct body; try contradiction;
      destruct (truthy (get _ "detail")); try destruct (ToString (get _ "detail"));
      destruct (truthy (get _ "message")); try destruct (ToString (get _ "message"));
      cbn [option_map]; rewrite ?append_assoc, ?append_nil_r; reflexivity. }
  split; [|split; [|split; [|split]]].
  - unfold Api.errorMessageOf in *. fold (statusLine res) in *.
    destruct (Api.json res) as [body|e] eqn:Hjson; cbn [snd]; [|exact Hbare].
    destruct (value_eq_null_or_undefined body) as [Hnull|[Hn Hu]].
    + destruct Hnull as [->| ->]; exact Hbare.
    + specialize (Hshape body Hn Hu eq_refl). cbn [snd] in Hshape. rewrite Hshape.
      destruct (appended (get body "detail")), (appended (get body "message"));
        rewrite ?append_assoc; try apply Hline; exact Hbare.
  - intros e He. unfold Api.errorMessageOf. rewrite He. reflexivity.
  - intros He. unfold Api.errorMessageOf. rewrite He. reflexivity.
  - intros body Hb Hn Hu. rewrite (Hshape body Hn Hu Hb).
    destruct (appended (get body "detail")), (appended (get body "message"));
      reflexivity.
  - intros field Hnone. unfold appended in Hnone.
    destruct (truthy field); [|discriminate Hnone]. split; [reflexivity|].
    destruct field as [| |[|]| | | |]; cbn in Hnone; try discriminate Hnone;
      reflexivity.
Qed.

Lemma request_rejects_with_status_witness :
  Api.ok Examples.notFound = false
  /\ (exists msg,
        snd (Api.request (P := Reference.platform) Examples.base "/api/rubrics/9" None
               (Resolved Examples.notFound)) = Rejected (Error msg)
        /\ msg = "API Error: 404 Not Found - Rubric not found")
  /\ Api.ok Examples.unrenderable = false
  /\ (exists msg,
        snd (Api.request (P := Reference.platform) Examples.base "/api/generate/" None
               (Resolved Examples.unrenderable)) = Rejected (Error msg)
        /\ msg = "API Error: 500 Internal Server Error").
Proof.
  split; [reflexivity|]. split; [|split; [reflexivity|]].
  - destruct (request_rejects_with_status (P := Reference.platform)
                Examples.base "/api/rubrics/9" None Examples.notFound eq_refl)
      as (msg & Hreq & _ & _ & _ & Hbody & _).
    exists msg. split; [exact Hreq|].
    apply (Hbody _ eq_refl); discriminate.
  - destruct (request_rejects_with_status (P := Reference.platform)
                Examples.base "/api/generate/" None Examples.unrenderable eq_refl)
      as (msg & Hreq & _ & _ & _ & Hbody & _).
    exists msg. split; [exact Hreq|].
    apply (Hbody _ eq_refl); discriminate.
Defined.

(** C1, as stated, fails: the body of this 422 is JSON with a [detail]
    field whose text is [false], and the message the helper rejects with is
    the status line alone; it does not contain that text. *)
Lemma request_false_detail_not_appended :
  Api.ok Examples.unprocessable = false
  /\ Api.json Examples.unprocessable = Resolved (VObj [("detail", VBool false)])
  /\ get (VObj [("detail", VBool false)]) "detail" = VBool false
  /\ ToString (P := Reference.platform) (VBool false) = Some "false"
  /\ snd (Api.request (P := Reference.platform) Examples.base "/api/rubrics/" None
            (Resolved Examples.unprocessable))
     = Rejected (Error "API Error: 422 Unprocessable Entity")
  /\ includes "false" "API Error: 422 Unprocessable Entity" = false.
Proof. repeat split. Qed.

(** C7: the failing input.  A 200 response whose body is not JSON: the
    helper fetches once and rejects with the parse error unchanged, but the
    error never passes through the [catch] block, so no [console.error]
    records it.  The same error raised by [fetch] itself is logged. *)
Theorem request_parse_error_not_logged :
  Api.request (P := Reference.platform) Examples.base "/api/subjects/" None
    (Resolved Examples.htmlPage)
  = ([Api.console_log "[API] Request: GET http://10.0.2.2:8000/api/subjects/";
      Api.fetch "http://10.0.2.2:8000/api/subjects/"
        {| Api.method := None;
           Api.headers := [("Bypass-Tunnel-Reminder", "true");
                           ("ngrok-skip-browser-warning", "true")];
           Api.body := None |}],
     Rejected Examples.syntaxError)
  /\ loggedErrors (fst (Api.request (P := Reference.platform) Examples.base
                          "/api/subjects/" None (Resolved Examples.htmlPage))) = []
  /\ loggedErrors (fst (Api.request (P := Reference.platform) Examples.base
                          "/api/subjects/" None (Rejected Examples.syntaxError)))
     = [Examples.syntaxError].
Proof. repeat split. Qed.

(** C8 (as amended).  On a 204 the helper resolves with the empty object,
    whatever [res.json()] would give.  On every other 2xx response it
    settles as [res.json()] does: it resolves with the parsed body when the
    body is JSON, and rejects with the parse error when it is not. *)
Theorem request_settles_on_success {P : Platform}
    (API_BASE endpoint : string) (options : option Api.RequestInit)
    (res : Api.Response) :
  Api.ok res = true ->
  (Api.status res = 204 ->
     snd (Api.request API_BASE endpoint options (Resolved res)) = Resolved (VObj [])
     /\ forall body,
          Api.request API_BASE endpoint options
            (Resolved {| Api.status := 204; Api.statusText := Api.statusText res;
                         Api.json := body |})
          = Api.request API_BASE endpoint options (Resolved res))
  /\ (Api.status res <> 204 ->
        (forall v, Api.json res = Resolved v ->
           snd (Api.request API_BASE endpoint options (Resolved res)) = Resolved v)
        /\ (forall e, Api.json res = Rejected e ->
              snd (Api.request API_BASE endpoint options (Resolved res)) = Rejected e)).
Proof.
  intros Hok. split.
  - intros H204. split.
    + rewrite request_no_content by assumption. reflexivity.
    + intros body. rewrite !request_no_content; try assumption; reflexivity.
  - intros H204. rewrite request_success by assumption. cbn [snd].
    split; intros x Hx; exact Hx.
Qed.

Lemma request_settles_on_success_witness :
  snd (Api.request (P := Reference.platform) Examples.base "/api/rubrics/3"
         (Some {| Api.method := Some "DELETE"; Api.headers := []; Api.body := None |})
         (Resolved Examples.noContent)) = Resolved (VObj [])
  /\ snd (Api.request (P := Reference.platform) Examples.base "/api/subjects/" None
            (Resolved Examples.subjectList))
     = Resolved (VArr [VObj [("id", VNum (ofZ 1)); ("name", VStr "Biology")]]).
Proof.
  split.
  - destruct (request_settles_on_success (P := Reference.platform) Examples.base
                "/api/rubrics/3"
                (Some {| Api.method := Some "DELETE"; Api.headers := [];
                         Api.body := None |})
                Examples.noContent eq_refl) as [H204 _].
    exact (proj1 (H204 eq_refl)).
  - destruct (request_settles_on_success (P := Reference.platform) Examples.base
                "/api/subjects/" None Examples.subjectList eq_refl) as [_ Hother].
    assert (Hne : Api.status Examples.subjectList <> 204) by discriminate.
    exact (proj1 (Hother Hne) _ eq_refl).
Defined.

(** C8, as stated, fails: this response has status 200, not 204, and the
    helper does not resolve; it rejects with the parse error of the body. *)
Lemma request_success_can_reject :
  Api.ok Examples.htmlPage = true
  /\ Api.status Examples.htmlPage <> 204
  /\ snd (Api.request (P := Reference.platform) Examples.base "/api/subjects/" None
            (Resolved Examples.htmlPage))
     = Rejected Examples.syntaxError
  /\ forall v,
       snd (Api.request (P := Reference.platform) Examples.base "/api/subjects/" None
              (Resolved Examples.htmlPage))
       <> Resolved v.
Proof.
  repeat apply conj; [reflexivity | discriminate | reflexivity | discriminate].
Qed.

(** ** Handler programs *)

Section ProgramFacts.

Import React.
Context {S R call callback task : Type}.

(** One step of an induction over a program: the hypothesis about the rest
    of the program is sent through the induction hypothesis. *)
Ltac step_issues IH :=
  match goal with
  | Hx : issues _ _ |- _ =>
      apply IH in Hx; destruct Hx as [Hm|Hf];
      [ left; first [ eapply issues_later; eassumption
                    | econstructor; eassumption ]
      | right; assumption ]
  end.

Lemma issues_Ret {A} (a : A) (c : call) : ~ issues (Ret a : React.prog S R call callback task A) c.
Proof. intros H; inversion H. Qed.

Lemma issues_Throw {A} (e : error) (c : call) : ~ issues (Throw e : React.prog S R call callback task A) c.
Proof. intros H; inversion H. Qed.

Lemma issues_perform (e : React.effect S R task) (c : call) :
  ~ issues (perform e : React.prog S R call callback task unit) c.
Proof.
  unfold perform. intros H. inversion H; subst.
  match goal with H' : issues (Ret _) _ |- _ => inversion H' end.
Qed.

Lemma issues_await (c0 c : call) : issues (await c0 : React.prog S R call callback task value) c -> c = c0.
Proof.
  unfold await. intros H. inversion H; subst; [reflexivity|].
  match goal with H' : issues (match ?o with _ => _ end) _ |- _ =>
    destruct o; inversion H' end.
Qed.

Lemma issues_bind {A B} (m : React.prog S R call callback task A) (f : A -> React.prog S R call callback task B) (c : call) :
  issues (bind m f) c -> issues m c \/ exists a, issues (f a) c.
Proof.
  induction m as [a|e|e k IH|k IH|c0 k IH|cb ms k IH]; cbn; intros H.
  - right. exists a. exact H.
  - inversion H.
  - inversion H; subst. step_issues IH.
  - inversion H; subst. step_issues IH.
  - inversion H; subst; [left; constructor | step_issues IH].
  - inversion H; subst. step_issues IH.
Qed.

Lemma issues_try_catch {A} (m : React.prog S R call callback task A) (h : error -> React.prog S R call callback task A) (c : call) :
  issues (try_catch m h) c -> issues m c \/ exists e, issues (h e) c.
Proof.
  induction m as [a|e|e k IH|k IH|c0 k IH|cb ms k IH]; cbn; intros H.
  - inversion H.
  - right. exists e. exact H.
  - inversion H; subst. step_issues IH.
  - inversion H; subst. step_issues IH.
  - inversion H; subst; [left; constructor | step_issues IH].
  - inversion H; subst. step_issues IH.
Qed.

Lemma issues_try_finally {A} (m : React.prog S R call callback task A) (cleanup : React.prog S R call callback task unit) (c : call) :
  issues (try_finally m cleanup) c -> issues m c \/ issues cleanup c.
Proof.
  unfold try_finally. intros H.
  apply issues_bind in H. destruct H as [H|[r H]].
  - apply issues_try_catch in H. destruct H as [H|[e H]].
    + apply issues_bind in H. destruct H as [H|[a H]]; [now left | inversion H].
    + inversion H.
  - apply issues_bind in H. destruct H as [H|[u H]]; [now right|].
    destruct r; inversion H.
Qed.

(** A run records exactly the calls it parks at, and what it parks can only
    issue calls of the program. *)
Lemma exec_log {A} (p : React.prog S R call callback task A) (st : React.store S R call callback task) :
  (exists evs, log (fst (exec p st)) = (log st ++ evs)%list
     /\ forall c, In (Called c) evs -> issues p c)
  /\ match snd (exec p st) with
     | Waiting c k => issues p c /\ forall o c', issues (k o) c' -> issues p c'
     | Finished _ => True
     end.
Proof.
  revert st.
  induction p as [a|e|e k IH|k IH|c0 k IH|cb ms k IH]; intros st.
  - split; [exists []; split; [cbn; now rewrite app_nil_r | intros c []] | exact I].
  - split; [exists []; split; [cbn; now rewrite app_nil_r | intros c []] | exact I].
  - change (exec (Eff e k) st) with (exec k (apply e st)).
    destruct (IH (apply e st)) as [(evs & Hlog & Hcalls) Hpark].
    split.
    + assert (Hap : exists ee, log (apply e st) = (log st ++ ee)%list
                               /\ forall c, ~ In (Called c) ee).
      { destruct e as [f|f|title msg|[id|]|t]; cbn.
        - exists []. split; [now rewrite app_nil_r | intros c []].
        - exists []. split; [now rewrite app_nil_r | intros c []].
        - exists [Alerted title msg]. split; [reflexivity|].
          intros c [Hc|[]]; discriminate.
        - exists []. split; [now rewrite app_nil_r | intros c []].
        - exists []. split; [now rewrite app_nil_r | intros c []].
        - exists [Started t]. split; [reflexivity|].
          intros c [Hc|[]]; discriminate. }
      destruct Hap as (ee & Hap & Hno).
      exists (ee ++ evs)%list. split.
      * rewrite Hlog, Hap, app_assoc. reflexivity.
      * intros c Hc. apply in_app_or in Hc. destruct Hc as [Hc|Hc].
        -- exfalso. exact (Hno c Hc).
        -- constructor. auto.
    + destruct (snd (exec k (apply e st))); [exact I|].
      destruct Hpark as [H1 H2]. split; [now constructor|].
      intros o c' Hc'. constructor. eauto.
  - change (exec (ReadRefs k) st) with (exec (k (refs st)) st).
    destruct (IH (refs st) st) as [(evs & Hlog & Hcalls) Hpark].
    split.
    + exists evs. split; [exact Hlog | intros c Hc; econstructor; eauto].
    + destruct (snd (exec (k (refs st)) st)); [exact I|].
      destruct Hpark as [H1 H2]. split; [econstructor; eauto|].
      intros o c' Hc'. econstructor. eauto.
  - cbn. split.
    + exists [Called c0]. split; [reflexivity|].
      intros c [Hc|[]]. injection Hc as <-. constructor.
    + split; [constructor|]. intros o c' Hc'. eapply issues_later; eauto.
  - cbn [exec].
    match goal with |- context [exec (k ?id) ?st'] =>
      destruct (IH id st') as [(evs & Hlog & Hcalls) Hpark];
      destruct (exec (k id) st') as [st2 pk] eqn:Hex end.
    cbn in Hlog, Hpark |- *. split.
    + exists evs. split; [exact Hlog | intros c Hc; econstructor; eauto].
    + destruct pk; [exact I|].
      destruct Hpark as [H1 H2]. split; [econstructor; eauto|].
      intros o c' Hc'. econstructor. eauto.
Qed.

End ProgramFacts.

Section MoreProgramFacts.

Import React.
Context {S R call callback task : Type}.

Lemma issues_Eff {A} (e : React.effect S R task)
    (k : React.prog S R call callback task A) (c : call) :
  issues (Eff e k) c -> issues k c.
Proof. intros H; inversion H; subst; assumption. Qed.

Lemma issues_ReadRefs {A} (k : R -> React.prog S R call callback task A) (c : call) :
  issues (ReadRefs k) c -> exists r, issues (k r) c.
Proof. intros H; inversion H; subst; eauto. Qed.

Lemma issues_setInterval {A} (cb : callback) (ms : Z)
    (k : Z -> React.prog S R call callback task A) (c : call) :
  issues (setInterval cb ms k) c -> exists id, issues (k id) c.
Proof. intros H; inversion H; subst; eauto. Qed.

End MoreProgramFacts.

(** Walk through a program that issues no call: every path ends in a
    contradiction. *)
Ltac no_issues H :=
  cbv beta zeta in H;
  lazymatch type of H with
  | React.issues (React.bind _ _) _ =>
      apply issues_bind in H; destruct H as [H|[? H]]; no_issues H
  | React.issues (React.try_catch _ _) _ =>
      apply issues_try_catch in H; destruct H as [H|[? H]]; no_issues H
  | React.issues (React.perform _) _ => exact (False_ind _ (issues_perform _ _ H))
  | React.issues (React.Ret _) _ => exact (False_ind _ (issues_Ret _ _ H))
  | React.issues (React.Throw _) _ => exact (False_ind _ (issues_Throw _ _ H))
  | React.issues (React.ReadRefs _) _ =>
      apply issues_ReadRefs in H; destruct H as [? H]; no_issues H
  | React.issues (React.setInterval _ _ _) _ =>
      apply issues_setInterval in H; destruct H as [? H]; no_issues H
  | React.issues (if ?b then _ else _) _ => destruct b; no_issues H
  | React.issues (match ?x with _ => _ end) _ => destruct x; no_issues H
  end.

(** ** The vetting screen: handleSubmit *)

Lemma handleSubmit_issues (st : Vetting.ReviewState) (c : Vetting.call) :
  React.issues (Vetting.handleSubmit st) c ->
  Vetting.present (Vetting.action st) = true
  /\ (List.length (Vetting.selectedCos st) =? 0)%nat = false
  /\ Vetting.isReject st && negb (Vetting.present (Vetting.rejectionReason st)) = false
  /\ Vetting.isReject st
     && ((Vetting.feedback st =? "")%string
         || (String.length (Vetting.feedback st) <? 5)%nat) = false
  /\ exists question_id, c = Vetting.submitVetting (Vetting.submission st question_id).
Proof.
  unfold Vetting.handleSubmit. intros H.
  destruct (Vetting.present (Vetting.action st)) eqn:Ha; cbn [negb] in H;
    [|no_issues H].
  destruct (List.length (Vetting.selectedCos st) =? 0)%nat eqn:Hc; [no_issues H|].
  destruct (Vetting.isReject st && negb (Vetting.present (Vetting.rejectionReason st)))
    eqn:Hr; [no_issues H|].
  destruct (Vetting.isReject st
            && ((Vetting.feedback st =? "")%string
                || (String.length (Vetting.feedback st) <? 5)%nat)) eqn:Hf;
    [no_issues H|].
  repeat (split; [reflexivity|]).
  apply issues_bind in H. destruct H as [H|[? H]]; [no_issues H|].
  apply issues_try_finally in H. destruct H as [H|H]; [|no_issues H].
  apply issues_try_catch in H. destruct H as [H|[? H]]; [|no_issues H].
  apply issues_bind in H. destruct H as [H|[question_id H]].
  { unfold Vetting.readProp in H. no_issues H. }
  apply issues_bind in H. destruct H as [H|[? H]].
  - apply issues_await in H. exists question_id. exact H.
  - no_issues H.
Qed.

(** C3.  When no Course Outcome is selected, [handleSubmit] shows one alert
    and finishes without calling [submitVetting]; with an action chosen (the
    only case in which the Submit button is enabled) it is the validation
    alert about Course Outcomes.  [submitVetting] is called only with at
    least one Course Outcome selected and, for a rejection, only with a
    rejection reason chosen and feedback of at least 5 characters. *)
Theorem handleSubmit_requires_course_outcome
    (st : Vetting.ReviewState) (store : VettingStore) :
  (Vetting.selectedCos st = [] ->
     (forall c, ~ React.issues (Vetting.handleSubmit st) c)
     /\ exists title msg,
          React.exec (Vetting.handleSubmit st) store
          = (React.apply (React.Alert_alert title msg) store,
             React.Finished (Resolved tt))
          /\ (Vetting.present (Vetting.action st) = true ->
                title = "Validation Error"
                /\ msg = "You must map this question to at least one Course Outcome (CO) before submitting."))
  /\ (forall c, React.issues (Vetting.handleSubmit st) c ->
        Vetting.selectedCos st <> []
        /\ (exists question_id,
              c = Vetting.submitVetting (Vetting.submission st question_id))
        /\ (Vetting.action st = Some "reject" ->
              Vetting.present (Vetting.rejectionReason st) = true
              /\ (5 <= String.length (Vetting.feedback st))%nat)).
Proof.
  split.
  - intros Hempty. split.
    + intros c Hc. apply handleSubmit_issues in Hc.
      destruct Hc as (_ & Hlen & _). rewrite Hempty in Hlen. discriminate.
    + unfold Vetting.handleSubmit.
      destruct (Vetting.present (Vetting.action st)) eqn:Ha; cbn [negb].
      * rewrite Hempty. cbn. eexists _, _. split; [reflexivity|].
        intros _. split; reflexivity.
      * eexists _, _. split; [reflexivity|]. intros H; discriminate.
  - intros c Hc. apply handleSubmit_issues in Hc.
    destruct Hc as (_ & Hlen & Hreason & Hfeedback & Hcall).
    split; [|split].
    + intros Hempty. rewrite Hempty in Hlen. discriminate.
    + exact Hcall.
    + intros Hreject.
      assert (Hr : Vetting.isReject st = true)
        by (unfold Vetting.isReject; rewrite Hreject; reflexivity).
      rewrite Hr in Hreason, Hfeedback. cbn in Hreason, Hfeedback.
      apply negb_false_iff in Hreason.
      apply orb_false_iff in Hfeedback. destruct Hfeedback as [_ Hlt].
      apply Nat.leb_gt in Hlt. split; [assumption | lia].
Qed.

Lemma handleSubmit_requires_course_outcome_witness :
  React.exec (Vetting.handleSubmit FormExamples.reviewWithoutCo)
    FormExamples.emptyVettingStore
  = (React.apply
       (React.Alert_alert "Validation Error"
          "You must map this question to at least one Course Outcome (CO) before submitting.")
       FormExamples.emptyVettingStore,
     React.Finished (Resolved tt))
  /\ FormExamples.rejection.(Vetting.selectedCos) <> []
  /\ Vetting.present (Vetting.rejectionReason FormExamples.rejection) = true
  /\ (5 <= String.length (Vetting.feedback FormExamples.rejection))%nat.
Proof.
  split.
  - destruct (handleSubmit_requires_course_outcome FormExamples.reviewWithoutCo
                FormExamples.emptyVettingStore) as [Hempty _].
    destruct (Hempty eq_refl) as (_ & title & msg & Hexec & Halert).
    destruct (Halert eq_refl) as [-> ->]. exact Hexec.
  - destruct (handleSubmit_requires_course_outcome FormExamples.rejection
                FormExamples.emptyVettingStore) as [_ Hcall].
    assert (Hissued :
              React.issues (Vetting.handleSubmit FormExamples.rejection)
                (Vetting.submitVetting
                   (Vetting.submission FormExamples.rejection (VNum (ofZ 41))))).
    { vm_compute. constructor. constructor. }
    destruct (Hcall _ Hissued) as (Hcos & _ & Hreject).
    destruct (Hreject eq_refl) as [Hreason Hfeedback].
    repeat split; assumption.
Defined.

(** ** The subject-detail screen: handleSaveSyllabus *)

(** With a topic open, Save Configuration sends the weights as they are:
    the handler never looks at them. *)
Lemma handleSaveSyllabus_sends (st : SubjectDetail.State) (topic : SubjectDetail.Topic)
    (store : SubjectDetailStore) :
  SubjectDetail.activeTopicForSyllabus st = Some topic ->
  React.log (fst (React.exec (SubjectDetail.handleSaveSyllabus st) store))
  = (React.log store ++
     [React.Called
        (SubjectDetail.updateTopicSyllabus (SubjectDetail.id topic)
           (VObj (SubjectDetail.syllabus_other topic ++
                  [("bloom_distribution",
                    SubjectDetail.distributionValue
                      (SubjectDetail.bloomDistribution st))])))])%list.
Proof.
  intros Htopic. unfold SubjectDetail.handleSaveSyllabus. rewrite Htopic.
  reflexivity.
Qed.

(** C2: the failing input.  The six weights sum to 105, a topic is open, and
    Save Configuration sends [updateTopicSyllabus] with these weights.  The
    Save Mapping button of SyllabusUploadDialog is disabled for the same
    weights. *)
Theorem handleSaveSyllabus_ignores_the_sum :
  SubjectDetail.totalWeight FormExamples.overweight = ofZ 105
  /\ numStrictEq (SubjectDetail.totalWeight FormExamples.overweight) (ofZ 100) = false
  /\ React.log (fst (React.exec
                       (SubjectDetail.handleSaveSyllabus FormExamples.overweightModal)
                       FormExamples.subjectDetailStore))
     = [React.Called
          (SubjectDetail.updateTopicSyllabus 7
             (VObj [("bloom_distribution",
                     VObj [("Knowledge", VNum (ofZ 45));
                           ("Comprehension", VNum (ofZ 20));
                           ("Application", VNum (ofZ 20));
                           ("Analysis", VNum (ofZ 10));
                           ("Synthesis", VNum (ofZ 5));
                           ("Evaluation", VNum (ofZ 5))])]))]
  /\ SubjectDetail.saveMappingDisabled FormExamples.overweight = true.
Proof. repeat split. Qed.

(** ** The Generate screen: handleCreateRubric *)

Lemma in_callsIn (evs : list (React.event Generate.call Generate.task))
    (c : Generate.call) :
  In c (Generate.callsIn evs) <-> In (React.Called c) evs.
Proof.
  induction evs as [|ev evs IH]; cbn; [tauto|].
  destruct ev as [title msg|c0|t]; cbn; rewrite IH; split.
  - intros H; now right.
  - intros [H|H]; [discriminate | assumption].
  - intros [->|H]; [now left | now right].
  - intros [H|H]; [injection H as ->; now left | now right].
  - intros H; now right.
  - intros [H|H]; [discriminate | assumption].
Qed.

Lemma handleCreateRubric_issues (st : Generate.State) (c : Generate.call) :
  React.issues (Generate.handleCreateRubric st) c ->
  trim (Generate.rubricName st) <> ""
  /\ exists data, c = Generate.createRubric data
                  /\ get data "name" = VStr (trim (Generate.rubricName st)).
Proof.
  unfold Generate.handleCreateRubric. intros H.
  destruct (String.eqb_spec (trim (Generate.rubricName st)) "") as [E|E];
    [no_issues H|].
  split; [exact E|].
  apply issues_try_catch in H. destruct H as [H|[? H]]; [|no_issues H].
  apply issues_bind in H. destruct H as [H|[? H]]; [|no_issues H].
  apply issues_await in H. eexists. split; [exact H | reflexivity].
Qed.

Lemma handleGenerate_issues (st : Generate.State) (c : Generate.call) :
  React.issues (Generate.handleGenerate st) c ->
  c = Generate.startGeneration (get (Generate.selectedRubric st) "id")
        (get (Generate.selectedSubject st) "id") (Generate.difficulty st).
Proof.
  unfold Generate.handleGenerate. intros H.
  destruct (truthy (Generate.selectedRubric st)); cbn [negb] in H; [|no_issues H].
  destruct (truthy (Generate.selectedSubject st)); cbn [negb] in H; [|no_issues H].
  apply issues_try_catch in H. destruct H as [H|[? H]]; [|no_issues H].
  apply issues_bind in H. destruct H as [H|[result H]].
  - apply issues_await in H. exact H.
  - unfold Generate.afterStart, Generate.readProp in H. no_issues H.
Qed.

Lemma clearBoth_issues (c : Generate.call) : ~ React.issues Generate.clearBoth c.
Proof. unfold Generate.clearBoth. intros H. no_issues H. Qed.

Lemma pollBody_issues (job_id : value) (c : Generate.call) :
  React.issues (Generate.pollBody job_id) c -> c = Generate.pollJob job_id.
Proof.
  unfold Generate.pollBody. intros H.
  apply issues_try_catch in H. destruct H as [H|[? H]]; [|no_issues H].
  apply issues_bind in H. destruct H as [H|[job H]].
  - apply issues_await in H. exact H.
  - unfold Generate.afterPoll, Generate.readProp, Generate.clearBoth in H.
    no_issues H.
Qed.

Lemma fetchDataBody_issues (c : Generate.call) :
  React.issues Generate.fetchDataBody c -> c = Generate.loadAll.
Proof.
  unfold Generate.fetchDataBody. intros H.
  apply issues_try_finally in H. destruct H as [H|H]; [|no_issues H].
  apply issues_try_catch in H. destruct H as [H|[? H]]; [|no_issues H].
  apply issues_bind in H. destruct H as [H|[all H]].
  - apply issues_await in H. exact H.
  - destruct all as [| | | | |[|a [|b [|d [|? ?]]]]|]; no_issues H.
Qed.

Lemma exec_named (p : Generate.handler unit) (st : Generate.Store) :
  (forall c, React.issues p c -> namedRubric c) ->
  (forall c, In (React.Called c) (React.log st) -> namedRubric c) ->
  (forall c, In (React.Called c) (React.log (fst (React.exec p st))) -> namedRubric c)
  /\ (forall c k, In (c, k) (Generate.parkedAt (snd (React.exec p st))) ->
        forall o c', React.issues (k o) c' -> namedRubric c').
Proof.
  intros Hp Hst.
  destruct (exec_log p st) as [(evs & Hlog & Hcalls) Hpark].
  split.
  - intros c Hc. rewrite Hlog in Hc. apply in_app_or in Hc.
    destruct Hc as [Hc|Hc]; auto.
  - intros c k Hin o c' Hc'.
    destruct (snd (React.exec p st)) as [r|c0 k0]; cbn in Hin; [contradiction|].
    destruct Hin as [Hin|[]]. injection Hin as <- <-.
    apply Hp. apply (proj2 Hpark o c' Hc').
Qed.

Lemma runTask_named (w : Generate.World) (t : Generate.task) :
  rubricsNamed w -> rubricsNamed (Generate.runTask w t).
Proof.
  intros [Hlog Hpend]. unfold Generate.runTask.
  assert (Hbody : forall c, React.issues (Generate.taskBody t) c -> namedRubric c).
  { intros c Hc. destruct t. apply fetchDataBody_issues in Hc. subst c. exact I. }
  destruct (exec_named (Generate.taskBody t) (Generate.the_store w) Hbody Hlog)
    as [Hlog' Hpark].
  destruct (React.exec (Generate.taskBody t) (Generate.the_store w)) as [st' pk].
  split; cbn in *.
  - exact Hlog'.
  - intros c k Hin. apply in_app_or in Hin. destruct Hin as [Hin|Hin]; eauto.
Qed.

Lemma run_named (p : Generate.handler unit) (w : Generate.World) :
  (forall c, React.issues p c -> namedRubric c) ->
  rubricsNamed w -> rubricsNamed (Generate.run p w).
Proof.
  intros Hp [Hlog Hpend]. unfold Generate.run.
  destruct (exec_named p (Generate.the_store w) Hp Hlog) as [Hlog' Hpark].
  destruct (React.exec p (Generate.the_store w)) as [st' pk].
  match goal with |- rubricsNamed (fold_left _ ?ts ?w0) =>
    assert (H0 : rubricsNamed w0); [|generalize H0; generalize w0; generalize ts]
  end.
  - split; cbn in *.
    + exact Hlog'.
    + intros c k Hin. apply in_app_or in Hin. destruct Hin as [Hin|Hin]; eauto.
  - intros ts. induction ts as [|t ts IH]; intros w0 Hw0; cbn; [exact Hw0|].
    apply IH. apply runTask_named. exact Hw0.
Qed.

Lemma removeNth_In {A} (n : nat) (l : list A) (x : A) :
  In x (Generate.removeNth n l) -> In x l.
Proof.
  revert n. induction l as [|y l IH]; intros [|n]; cbn; auto.
  intros [H|H]; [now left | right; eauto].
Qed.

Lemma step_named (w : Generate.World) (i : Generate.input) :
  rubricsNamed w -> rubricsNamed (Generate.step w i).
Proof.
  intros Hw.
  assert (Hnone : forall p : Generate.handler unit,
             (forall c, ~ React.issues p c) -> rubricsNamed (Generate.run p w)).
  { intros p Hp. apply run_named; [|exact Hw]. intros c Hc. destruct (Hp c Hc). }
  destruct i; cbn [Generate.step].
  - destruct (_ && _); [|exact Hw]. apply Hnone.
    intros c Hc. unfold Generate.pressSubject in Hc. no_issues Hc.
  - destruct (_ && _); [|exact Hw]. apply Hnone.
    intros c Hc. unfold Generate.pressRubric in Hc. no_issues Hc.
  - destruct (_ && _); [|exact Hw]. apply Hnone. intros c Hc. no_issues Hc.
  - destruct (_ && _); [|exact Hw]. apply Hnone. intros c Hc. no_issues Hc.
  - destruct (_ && _); [|exact Hw]. apply Hnone. intros c Hc. no_issues Hc.
  - destruct (_ && _); [|exact Hw]. apply Hnone. intros c Hc. no_issues Hc.
  - destruct (_ && _); [|exact Hw]. apply run_named; [|exact Hw].
    intros c Hc. apply handleCreateRubric_issues in Hc.
    destruct Hc as (Hne & data & -> & Hname). cbn.
    exists (Generate.rubricName (React.state (Generate.the_store w))). split; assumption.
  - destruct (_ && _); [|exact Hw]. apply run_named; [|exact Hw].
    intros c Hc. apply handleGenerate_issues in Hc. subst c. exact I.
  - destruct (_ && _); [|exact Hw]. apply Hnone.
    intros c Hc. unfold Generate.pressTryAgain, Generate.clearBoth in Hc. no_issues Hc.
  - destruct (_ && _); [|exact Hw]. apply Hnone.
    intros c Hc. unfold Generate.pressGenerateAnother in Hc. no_issues Hc.
  - destruct (Generate.findTimer id _) as [t|]; [|exact Hw].
    apply run_named; [|exact Hw].
    intros c Hc. destruct (React.timer_callback t) as [job_id|]; cbn in Hc.
    + apply pollBody_issues in Hc. subst c. exact I.
    + unfold Generate.elapsedBody in Hc. no_issues Hc.
  - destruct (nth_error (Generate.pending w) n) as [[c0 k]|] eqn:Hn; [|exact Hw].
    destruct Hw as [Hlog Hpend]. apply run_named.
    + intros c Hc. eapply Hpend; [eapply nth_error_In; exact Hn | exact Hc].
    + split; cbn; [exact Hlog|].
      intros c k' Hin. apply removeNth_In in Hin. eauto.
  - destruct (Generate.mounted w); [|exact Hw].
    destruct Hw as [Hlog Hpend]. apply run_named; [|split; assumption].
    intros c Hc. unfold Generate.unmountCleanup in Hc. no_issues Hc.
Qed.

Lemma mount_named : rubricsNamed Generate.mount.
Proof.
  unfold Generate.mount. apply run_named.
  - intros c Hc. no_issues Hc.
  - split; cbn; [intros c [] | intros c k []].
Qed.

Lemma steps_named (inputs : list Generate.input) (w : Generate.World) :
  rubricsNamed w -> rubricsNamed (Generate.steps w inputs).
Proof.
  revert w. induction inputs as [|i inputs IH]; intros w Hw; cbn; [exact Hw|].
  apply IH. apply step_named. exact Hw.
Qed.

Lemma skipn_length_app {A} (l l' : list A) : skipn (List.length l) (l ++ l') = l'.
Proof. induction l as [|x l IH]; cbn; [reflexivity | exact IH]. Qed.

(** C5.  A press on Save Rubric while the trimmed name is empty shows the
    error alert and does nothing else: no call is made and none is left
    waiting.  In every run of the screen, each call of [createRubric] carries
    a name that is the trimmed text of the input and is not empty. *)
Theorem createRubric_requires_name :
  (forall w : Generate.World,
     Generate.mounted w = true ->
     Generate.viewIs w Generate.create = true ->
     trim (Generate.rubricName (React.state (Generate.the_store w))) = "" ->
     Generate.step w Generate.PressSaveRubric
     = {| Generate.the_store :=
            React.apply (React.Alert_alert "Error" "Rubric name is required")
              (Generate.the_store w);
          Generate.pending := Generate.pending w;
          Generate.mounted := Generate.mounted w |})
  /\ (forall (inputs : list Generate.input) (data : value),
        In (Generate.createRubric data)
           (Generate.callsOf (Generate.steps Generate.mount inputs)) ->
        exists raw, get data "name" = VStr (trim raw) /\ trim raw <> "").
Proof.
  split.
  - intros w Hm Hv Hname. cbn [Generate.step]. rewrite Hm, Hv. cbn [andb].
    unfold Generate.handleCreateRubric. rewrite Hname. cbn [String.eqb].
    unfold Generate.run. cbn.
    rewrite skipn_length_app. cbn. rewrite app_nil_r, Hm. reflexivity.
  - intros inputs data Hin.
    apply in_callsIn in Hin.
    exact (proj1 (steps_named inputs Generate.mount mount_named) _ Hin).
Qed.

Lemma createRubric_requires_name_witness :
  (exists raw, get GenerateExamples.midtermA "name" = VStr (trim raw) /\ trim raw <> "")
  /\ Generate.callsOf
       (Generate.steps Generate.mount GenerateExamples.savingABlankName)
     = [Generate.loadAll]
  /\ React.log (Generate.the_store
                  (Generate.steps Generate.mount GenerateExamples.savingABlankName))
     = [React.Started Generate.fetchData; React.Called Generate.loadAll;
        React.Alerted "Error" "Rubric name is required"].
Proof.
  split.
  - apply (proj2 createRubric_requires_name GenerateExamples.savingARubric
             GenerateExamples.midtermA).
    vm_compute. right. left. reflexivity.
  - change (Generate.steps Generate.mount GenerateExamples.savingABlankName)
      with (Generate.step
              (Generate.steps Generate.mount
                 (firstn 3 GenerateExamples.savingABlankName))
              Generate.PressSaveRubric).
    rewrite (proj1 createRubric_requires_name
               (Generate.steps Generate.mount
                  (firstn 3 GenerateExamples.savingABlankName))
               eq_refl eq_refl eq_refl).
    split; vm_compute; reflexivity.
Defined.

(** ** The Generate screen: the polling loop and its timers *)

(** Settle a conjunction of closed equations by evaluation. *)
Ltac evaluate := repeat apply conj; vm_compute; reflexivity.

(** With the response to [startGeneration], the handler registers the poll
    at 2000 ms and the clock at 1000 ms, and leaves their ids in the refs. *)
Lemma afterStart_registers (result : value) (st : Generate.Store) :
  result <> VNull -> result <> VUndefined ->
  let st' := fst (React.exec (Generate.afterStart result) st) in
  React.timers st'
  = (React.timers st ++
     [ {| React.timer_id := React.next_timer st;
          React.timer_callback := Generate.pollTick (get result "job_id");
          React.timer_ms := 2000 |};
       {| React.timer_id := React.next_timer st + 1;
          React.timer_callback := Generate.elapsedTick;
          React.timer_ms := 1000 |} ])%list
  /\ React.refs st'
     = {| Generate.pollRef := Some (React.next_timer st);
          Generate.timerRef := Some (React.next_timer st + 1) |}
  /\ Generate.view (React.state st') = Generate.generating.
Proof.
  intros Hn Hu.
  destruct result; try contradiction; cbn; rewrite <- app_assoc; repeat split.
Qed.

(** A poll that finds the job completed or failed clears the intervals the
    two refs hold at that moment; any other status leaves every interval
    registered. *)
Lemma afterPoll_timers (job : value) (st : Generate.Store) :
  job <> VNull -> job <> VUndefined ->
  React.timers (fst (React.exec (Generate.afterPoll job) st))
  = if terminal job
    then cleared (Generate.timerRef (React.refs st))
           (cleared (Generate.pollRef (React.refs st)) (React.timers st))
    else React.timers st.
Proof.
  intros Hn Hu. unfold terminal.
  destruct st as [s [[p|] [t|]] ts n l];
    destruct job; try contradiction; cbn;
    try reflexivity;
    destruct (Generate.isString _ "completed"); cbn;
    try (destruct (Generate.isString _ "failed"); cbn);
    reflexivity.
Qed.

Lemma remove_timer_gone (id : Z) (ts : list (React.timer Generate.callback)) :
  ~ In id (map React.timer_id (React.remove_timer id ts)).
Proof.
  unfold React.remove_timer. intros Hin. apply in_map_iff in Hin.
  destruct Hin as (t & Hid & Hin). apply filter_In in Hin.
  destruct Hin as [_ Hne]. rewrite Hid, Z.eqb_refl in Hne. discriminate.
Qed.

Lemma remove_timer_subset (id j : Z) (ts : list (React.timer Generate.callback)) :
  In j (map React.timer_id (React.remove_timer id ts)) -> In j (map React.timer_id ts).
Proof.
  unfold React.remove_timer. intros Hin. apply in_map_iff in Hin.
  destruct Hin as (t & Hid & Hin). apply filter_In in Hin.
  apply in_map_iff. exists t. tauto.
Qed.

(** So, after such a poll, neither interval held by the refs is registered. *)
Lemma afterPoll_clears_refs (job : value) (st : Generate.Store) (id : Z) :
  job <> VNull -> job <> VUndefined -> terminal job = true ->
  Generate.pollRef (React.refs st) = Some id
  \/ Generate.timerRef (React.refs st) = Some id ->
  ~ In id (map React.timer_id
             (React.timers (fst (React.exec (Generate.afterPoll job) st)))).
Proof.
  intros Hn Hu Ht Href. rewrite afterPoll_timers by assumption. rewrite Ht.
  destruct Href as [Hp|Hr].
  - rewrite Hp. cbn [cleared].
    destruct (Generate.timerRef (React.refs st)) as [j|]; cbn [cleared].
    + intros Hin. apply remove_timer_subset in Hin. exact (remove_timer_gone _ _ Hin).
    + apply remove_timer_gone.
  - rewrite Hr. cbn [cleared]. apply remove_timer_gone.
Qed.

(** The cleanup on unmount clears the intervals the two refs hold. *)
Lemma unmountCleanup_timers (st : Generate.Store) (p t : Z) :
  Generate.pollRef (React.refs st) = Some p -> p <> 0 ->
  Generate.timerRef (React.refs st) = Some t -> t <> 0 ->
  React.timers (fst (React.exec Generate.unmountCleanup st))
  = React.remove_timer t (React.remove_timer p (React.timers st)).
Proof.
  intros Hp Hp0 Ht Ht0. unfold Generate.unmountCleanup. cbn. rewrite Hp.
  destruct (Z.eqb_spec p 0) as [E|_]; [contradiction|]. cbn. rewrite Ht.
  destruct (Z.eqb_spec t 0) as [E|_]; [contradiction|]. reflexivity.
Qed.

(** One press: the poll runs at 2000 ms and the clock at 1000 ms; a poll
    that finds the job running leaves both registered; the poll that finds
    it completed clears both, and later ticks of the cleared interval do
    nothing. *)
Lemma single_press_loop :
  React.timers (Generate.the_store
     (Generate.steps Generate.mount (firstn 5 GenerateExamples.singlePress)))
  = [ {| React.timer_id := 1;
         React.timer_callback := Generate.pollTick (VNum (ofZ 11));
         React.timer_ms := 2000 |};
      {| React.timer_id := 2; React.timer_callback := Generate.elapsedTick;
         React.timer_ms := 1000 |} ]
  /\ Generate.activeTimers
       (Generate.steps Generate.mount (firstn 8 GenerateExamples.singlePress))
     = [1; 2]
  /\ Generate.activeTimers (Generate.steps Generate.mount GenerateExamples.singlePress)
     = []
  /\ Generate.steps Generate.mount
       (GenerateExamples.singlePress ++ [Generate.Tick 1; Generate.Tick 2])
     = Generate.steps Generate.mount GenerateExamples.singlePress.
Proof. evaluate. Qed.

(** C6: the failing input.  Generate Questions is pressed twice before the
    first response arrives.  Each response registers a poll and a clock, and
    the refs keep only the second pair (3 and 4).  When the job reaches
    [completed] the generating view is left and the pair in the refs is
    cleared; intervals 1 and 2 stay registered, also after the screen
    unmounts. *)
Theorem double_press_leaks_timers :
  Generate.activeTimers (Generate.steps Generate.mount GenerateExamples.doublePress)
  = [1; 2; 3; 4]
  /\ React.refs (Generate.the_store
                   (Generate.steps Generate.mount GenerateExamples.doublePress))
     = {| Generate.pollRef := Some 3; Generate.timerRef := Some 4 |}
  /\ Generate.view (React.state (Generate.the_store
        (Generate.steps Generate.mount GenerateExamples.secondJobCompletes)))
     = Generate.complete
  /\ Generate.activeTimers
       (Generate.steps Generate.mount GenerateExamples.secondJobCompletes)
     = [1; 2]
  /\ Generate.mounted
       (Generate.steps Generate.mount
          (GenerateExamples.secondJobCompletes ++ [Generate.Unmount])) = false
  /\ Generate.activeTimers
       (Generate.steps Generate.mount
          (GenerateExamples.secondJobCompletes ++ [Generate.Unmount]))
     = [1; 2].
Proof. evaluate. Qed.

(** C4: the failing input.  After the same double press, the poll of the
    first loop (interval 1, job 11) finds its job completed.  The callback
    clears the intervals in the refs, 3 and 4, which belong to the second
    loop; interval 1 stays registered, and its next tick polls job 11
    again. *)
Theorem stale_loop_polls_again :
  React.timers (Generate.the_store
     (Generate.steps Generate.mount GenerateExamples.firstJobCompletes))
  = [ {| React.timer_id := 1;
         React.timer_callback := Generate.pollTick (VNum (ofZ 11));
         React.timer_ms := 2000 |};
      {| React.timer_id := 2; React.timer_callback := Generate.elapsedTick;
         React.timer_ms := 1000 |} ]
  /\ Generate.callsOf
       (Generate.steps Generate.mount GenerateExamples.firstJobCompletes)
     = [Generate.loadAll;
        Generate.startGeneration (VNum (ofZ 1)) (VNum (ofZ 2)) "Medium";
        Generate.startGeneration (VNum (ofZ 1)) (VNum (ofZ 2)) "Medium";
        Generate.pollJob (VNum (ofZ 11))]
  /\ Generate.callsOf
       (Generate.steps Generate.mount
          (GenerateExamples.firstJobCompletes ++ [Generate.Tick 1]))
     = [Generate.loadAll;
        Generate.startGeneration (VNum (ofZ 1)) (VNum (ofZ 2)) "Medium";
        Generate.startGeneration (VNum (ofZ 1)) (VNum (ofZ 2)) "Medium";
        Generate.pollJob (VNum (ofZ 11));
        Generate.pollJob (VNum (ofZ 11))].
Proof. evaluate. Qed.

(** ** The vetting screen: the two tabs of BatchListView *)

Lemma numLt_not_strictEq (p : number) :
  numLt p (ofZ 100) = true -> numStrictEq p (ofZ 100) = false.
Proof.
  destruct p as [|[|]|q]; cbn; try reflexivity; try discriminate.
  intros Hlt. apply negb_true_iff in Hlt.
  destruct (Qeq_bool q (inject_Z 100)) eqn:Heq; [|reflexivity].
  apply Qeq_bool_iff in Heq.
  assert (Hle : Qle_bool (inject_Z 100) q = true).
  { apply Qle_bool_iff. rewrite Heq. apply Qle_refl. }
  rewrite Hle in Hlt. discriminate.
Qed.

Lemma numLe_cases (p : number) :
  numLe p (ofZ 100) = true ->
  xorb (numLt p (ofZ 100)) (numStrictEq p (ofZ 100)) = true.
Proof.
  destruct p as [|[|]|q]; cbn; try reflexivity; try discriminate.
  rewrite negb_involutive. intros Hle. apply Qle_bool_iff in Hle.
  destruct (Qeq_bool q (inject_Z 100)) eqn:Heq.
  - apply Qeq_bool_iff in Heq.
    assert (Hge : Qle_bool (inject_Z 100) q = true).
    { apply Qle_bool_iff. rewrite Heq. apply Qle_refl. }
    rewrite Hge. reflexivity.
  - destruct (Qle_bool (inject_Z 100) q) eqn:Hge; [|reflexivity].
    apply Qle_bool_iff in Hge.
    assert (Heq' : Qeq_bool q (inject_Z 100) = true).
    { apply Qeq_bool_iff. apply Qle_antisym; assumption. }
    rewrite Heq' in Heq. discriminate.
Qed.

Lemma filter_xor_Permutation {A} (f g : A -> bool) (l : list A) :
  Forall (fun x => xorb (f x) (g x) = true) l ->
  Permutation (filter f l ++ filter g l) l.
Proof.
  induction 1 as [|x l Hx Hl IH]; cbn; [constructor|].
  destruct (f x), (g x); try discriminate; cbn.
  - now constructor.
  - apply Permutation_sym. apply Permutation_cons_app. apply Permutation_sym. exact IH.
Qed.

(** C10.  When every fetched batch has a progress of at most 100, no batch
    is in both the Active and the History list, every batch is in one of
    them, and the two lists together are the fetched list, rearranged.  So
    each fetched batch is shown under exactly one tab: there is a tab whose
    list shows it, no other tab shows it, and a tab shows fetched batches
    only. *)
Theorem batch_tabs_partition (batches : list Vetting.Batch) :
  Forall (fun b => numLe (Vetting.progress b) (ofZ 100) = true) batches ->
  (forall b, In b (Vetting.activeBatches batches) ->
             ~ In b (Vetting.historyBatches batches))
  /\ (forall b, In b batches <->
                In b (Vetting.activeBatches batches)
                \/ In b (Vetting.historyBatches batches))
  /\ Permutation (Vetting.activeBatches batches ++ Vetting.historyBatches batches)
       batches
  /\ (forall b tab, In b (Vetting.displayBatches tab batches) ->
        forall tab', In b (Vetting.displayBatches tab' batches) -> tab' = tab)
  /\ (forall b, In b batches ->
        exists tab, In b (Vetting.displayBatches tab batches)
                    /\ forall tab', In b (Vetting.displayBatches tab' batches) ->
                                    tab' = tab)
  /\ (forall b tab, In b (Vetting.displayBatches tab batches) -> In b batches).
Proof.
  intros Hall. unfold Vetting.displayBatches.
  unfold Vetting.activeBatches, Vetting.historyBatches.
  assert (Hdisjoint : forall b,
             In b (filter (fun b => numLt (Vetting.progress b) (ofZ 100)) batches) ->
             ~ In b (filter (fun b => numStrictEq (Vetting.progress b) (ofZ 100)) batches)).
  { intros b Ha Hh. apply filter_In in Ha. apply filter_In in Hh.
    destruct Ha as [_ Ha], Hh as [_ Hh].
    rewrite (numLt_not_strictEq _ Ha) in Hh. discriminate. }
  assert (Hcover : forall b, In b batches ->
             In b (filter (fun b => numLt (Vetting.progress b) (ofZ 100)) batches)
             \/ In b (filter (fun b => numStrictEq (Vetting.progress b) (ofZ 100))
                        batches)).
  { intros b Hin. rewrite Forall_forall in Hall.
    pose proof (numLe_cases _ (Hall b Hin)) as Hx.
    destruct (numLt (Vetting.progress b) (ofZ 100)) eqn:Hlt.
    - left. apply filter_In. split; assumption.
    - right. apply filter_In. split; [assumption|].
      destruct (numStrictEq (Vetting.progress b) (ofZ 100)); [reflexivity|discriminate]. }
  assert (Hone : forall b tab,
             In b (match tab with
                   | Vetting.active =>
                       filter (fun b => numLt (Vetting.progress b) (ofZ 100)) batches
                   | Vetting.history =>
                       filter (fun b => numStrictEq (Vetting.progress b) (ofZ 100))
                         batches
                   end) ->
             forall tab',
               In b (match tab' with
                     | Vetting.active =>
                         filter (fun b => numLt (Vetting.progress b) (ofZ 100)) batches
                     | Vetting.history =>
                         filter (fun b => numStrictEq (Vetting.progress b) (ofZ 100))
                           batches
                     end) ->
               tab' = tab).
  { intros b tab Hin tab' Hin'. destruct tab, tab'; try reflexivity.
    - destruct (Hdisjoint b Hin Hin').
    - destruct (Hdisjoint b Hin' Hin). }
  split; [exact Hdisjoint|]. split; [|split; [|split; [|split]]].
  - intros b. split; [apply Hcover|].
    intros [H|H]; apply filter_In in H; tauto.
  - apply filter_xor_Permutation.
    eapply Forall_impl; [|exact Hall]. intros b Hb. apply numLe_cases. exact Hb.
  - exact Hone.
  - intros b Hin. destruct (Hcover b Hin) as [Ha|Hh].
    + exists Vetting.active. split; [exact Ha|]. intros tab'. apply (Hone b Vetting.active Ha).
    + exists Vetting.history. split; [exact Hh|].
      intros tab'. apply (Hone b Vetting.history Hh).
  - intros b tab Hin. destruct tab; apply filter_In in Hin; tauto.
Qed.

Lemma batch_tabs_partition_witness :
  Permutation
    (Vetting.activeBatches BatchExamples.fetched
     ++ Vetting.historyBatches BatchExamples.fetched)
    BatchExamples.fetched
  /\ (exists tab,
        In (BatchExamples.batch 3 (ofZ 100))
          (Vetting.displayBatches tab BatchExamples.fetched)
        /\ forall tab',
             In (BatchExamples.batch 3 (ofZ 100))
               (Vetting.displayBatches tab' BatchExamples.fetched) ->
             tab' = tab).
Proof.
  assert (Hall : Forall (fun b => numLe (Vetting.progress b) (ofZ 100) = true)
                   BatchExamples.fetched) by (repeat constructor).
  destruct (batch_tabs_partition BatchExamples.fetched Hall)
    as (_ & _ & Hperm & _ & Hshown & _).
  split; [exact Hperm|].
  apply Hshown. cbn. tauto.
Defined.

(** ** The vetting screen: extractQuestionTextFromAny *)

Lemma length_trimStart (s : string) :
  (String.length (trimStart s) <= String.length s)%nat.
Proof.
  induction s as [|c s IH]; cbn; [lia|].
  destruct (isWhiteSpace c); cbn; lia.
Qed.

Lemma length_trimEnd (s : string) :
  (String.length (trimEnd s) <= String.length s)%nat.
Proof.
  induction s as [|c s IH]; cbn; [lia|].
  destruct (trimEnd s); cbn in *; [destruct (isWhiteSpace c); cbn; lia | lia].
Qed.

Lemma length_trim (s : string) : (String.length (trim s) <= String.length s)%nat.
Proof.
  unfold trim. pose proof (length_trimEnd (trimStart s)).
  pose proof (length_trimStart s). lia.
Qed.

Lemma length_eqPrefix (ci : bool) (p s rest : string) :
  eqPrefix ci p s = Some rest -> (String.length rest <= String.length s)%nat.
Proof.
  revert s. induction p as [|a p IH]; intros s H; cbn in H.
  - injection H as <-. lia.
  - destruct s as [|b s]; [discriminate|].
    destruct (if ci then _ else _); [|discriminate].
    apply IH in H. cbn. lia.
Qed.

Lemma length_removeAllFuel (fuel : nat) (ci : bool) (p s : string) :
  (String.length (removeAllFuel fuel ci p s) <= String.length s)%nat.
Proof.
  revert s. induction fuel as [|fuel IH]; intros s; cbn; [lia|].
  destruct s as [|c s]; [cbn; lia|].
  destruct p as [|a p]; [lia|].
  destruct (eqPrefix ci (String a p) (String c s)) as [rest|] eqn:E.
  - apply length_eqPrefix in E. specialize (IH rest). lia.
  - specialize (IH s). cbn. lia.
Qed.

Lemma length_removeAll (ci : bool) (p s : string) :
  (String.length (removeAll ci p s) <= String.length s)%nat.
Proof. apply length_removeAllFuel. Qed.

Lemma lookupField_size (key : string) (fields : list (string * value)) :
  lookupField key fields = VUndefined
  \/ (Vetting.value_size (lookupField key fields)
      <= list_sum (map (fun kv => Vetting.value_size (snd kv)) fields))%nat.
Proof.
  unfold list_sum.
  induction fields as [|[k v] fields IH]; cbn [lookupField fold_right map snd];
    [now left|].
  destruct (k =? key)%string.
  - right. lia.
  - destruct IH as [IH|IH]; [now left | right; lia].
Qed.

(** A truthy property is strictly smaller than the value it is read from. *)
Lemma get_size (raw : value) (key : string) :
  truthy (get raw key) = true ->
  (Vetting.value_size (get raw key) < Vetting.value_size raw)%nat.
Proof.
  destruct raw; cbn; try discriminate.
  intros Ht. destruct (lookupField_size key fields) as [E|Hle].
  - rewrite E in Ht. discriminate.
  - lia.
Qed.

Lemma firstTruthy_size (raw : value) (keys : list string) (v : value) :
  Vetting.firstTruthy raw keys = Some v ->
  (Vetting.value_size v < Vetting.value_size raw)%nat.
Proof.
  induction keys as [|key keys IH]; cbn; [discriminate|].
  destruct (truthy (get raw key)) eqn:Ht; [|exact IH].
  intros H. injection H as <-. apply get_size. exact Ht.
Qed.

(** One unfolding of the function. *)
Lemma extract_step {P : Platform} (fuel : nat) (raw : value) :
  Vetting.extractQuestionTextFromAny (S fuel) raw
  = if negb (truthy raw) then Some "No question text"
    else
      match raw with
      | VStr s =>
          let trimmed := trim s in
          if startsWith trimmed "{" || startsWith trimmed "[" then
            let clean := trim (removeAll false "```" (removeAll true "```json" trimmed)) in
            match JSON_parse clean with
            | Some parsed => Vetting.extractQuestionTextFromAny fuel parsed
            | None =>
                match Vetting.matchField "question_text" s with
                | Some m => Some m
                | None =>
                    match Vetting.matchField "question" s with
                    | Some m => Some m
                    | None =>
                        match Vetting.matchField "text" s with
                        | Some m => Some m
                        | None => Some s
                        end
                    end
                end
            end
          else Some s
      | VArr _ | VObj _ =>
          if truthy (get raw "question_text")
          then Vetting.extractQuestionTextFromAny fuel (get raw "question_text")
          else if truthy (get raw "question")
          then Vetting.extractQuestionTextFromAny fuel (get raw "question")
          else if truthy (get raw "text")
          then Vetting.extractQuestionTextFromAny fuel (get raw "text")
          else
            match Vetting.firstTruthy raw ["json"; "response"; "selected_question";
                                           "draft"; "result"; "output"] with
            | Some v => Vetting.extractQuestionTextFromAny fuel v
            | None =>
                match Vetting.firstTruthy raw ["MCQ"; "Short Notes"; "Essay"] with
                | Some v => Vetting.extractQuestionTextFromAny fuel v
                | None => Some (JSON_stringify raw)
                end
            end
      | _ => ToString raw
      end.
Proof. reflexivity. Qed.

Section Extract.

Context {P : Platform}.

(** The text of a JSON document is at least as long as the value it denotes
    is large. *)
Hypothesis JSON_parse_size :
  forall text v, JSON_parse text = Some v ->
                 (Vetting.value_size v <= String.length text)%nat.

Lemma extract_bounded (n : nat) :
  forall raw, (Vetting.value_size raw <= n)%nat ->
  exists text,
    (forall fuel, (n <= fuel)%nat ->
                  Vetting.extractQuestionTextFromAny fuel raw = Some text)
    /\ (truthy raw = false -> text = "No question text").
Proof.
  induction n as [|n IH]; intros raw Hsize.
  { destruct raw; cbn in Hsize; lia. }
  destruct (truthy raw) eqn:Htruthy.
  2:{ exists "No question text". split; [|reflexivity].
      intros [|fuel] Hf; [lia|]. rewrite extract_step, Htruthy. reflexivity. }
  assert (Hgoal : exists text, forall fuel, (S n <= fuel)%nat ->
            Vetting.extractQuestionTextFromAny fuel raw = Some text).
  2:{ destruct Hgoal as [text Htext]. exists text.
      split; [exact Htext | intros H; discriminate]. }
  assert (Hsub : forall v, (Vetting.value_size v < Vetting.value_size raw)%nat ->
            exists text, forall fuel, (S n <= fuel)%nat ->
              Vetting.extractQuestionTextFromAny (Nat.pred fuel) v = Some text).
  { intros v Hv. destruct (IH v ltac:(lia)) as (text & Htext & _).
    exists text. intros fuel Hf. apply Htext. lia. }
  assert (Hobject :
            exists text, forall fuel, (S n <= fuel)%nat ->
              (if truthy (get raw "question_text")
               then Vetting.extractQuestionTextFromAny (Nat.pred fuel) (get raw "question_text")
               else if truthy (get raw "question")
               then Vetting.extractQuestionTextFromAny (Nat.pred fuel) (get raw "question")
               else if truthy (get raw "text")
               then Vetting.extractQuestionTextFromAny (Nat.pred fuel) (get raw "text")
               else
                 match Vetting.firstTruthy raw ["json"; "response"; "selected_question";
                                                "draft"; "result"; "output"] with
                 | Some v => Vetting.extractQuestionTextFromAny (Nat.pred fuel) v
                 | None =>
                     match Vetting.firstTruthy raw ["MCQ"; "Short Notes"; "Essay"] with
                     | Some v => Vetting.extractQuestionTextFromAny (Nat.pred fuel) v
                     | None => Some (JSON_stringify raw)
                     end
                 end) = Some text).
  { destruct (truthy (get raw "question_text")) eqn:H1;
      [apply Hsub, get_size, H1|].
    destruct (truthy (get raw "question")) eqn:H2; [apply Hsub, get_size, H2|].
    destruct (truthy (get raw "text")) eqn:H3; [apply Hsub, get_size, H3|].
    destruct (Vetting.firstTruthy raw ["json"; "response"; "selected_question";
                                       "draft"; "result"; "output"]) as [v|] eqn:H4;
      [apply Hsub; eapply firstTruthy_size; exact H4|].
    destruct (Vetting.firstTruthy raw ["MCQ"; "Short Notes"; "Essay"]) as [v|] eqn:H5;
      [apply Hsub; eapply firstTruthy_size; exact H5|].
    eexists. intros fuel _. reflexivity. }
  destruct raw as [| |b|num|s|items|fields].
  - discriminate.
  - discriminate.
  - destruct b; [|discriminate Htruthy].
    eexists. intros [|fuel] Hf; [lia|]. rewrite extract_step. reflexivity.
  - eexists. intros [|fuel] Hf; [lia|]. rewrite extract_step, Htruthy. reflexivity.
  - clear Hobject.
    destruct (startsWith (trim s) "{" || startsWith (trim s) "[") eqn:Hbrace.
    + destruct (JSON_parse (trim (removeAll false "```"
                                    (removeAll true "```json" (trim s)))))
        as [parsed|] eqn:Hparse.
      * assert (Hsmall : (Vetting.value_size parsed <= n)%nat).
        { apply JSON_parse_size in Hparse.
          pose proof (length_trim (removeAll false "```"
                                     (removeAll true "```json" (trim s)))).
          pose proof (length_removeAll false "```" (removeAll true "```json" (trim s))).
          pose proof (length_removeAll true "```json" (trim s)).
          pose proof (length_trim s). cbn in Hsize. lia. }
        destruct (IH parsed Hsmall) as (text & Htext & _).
        exists text. intros [|fuel] Hf; [lia|].
        rewrite extract_step, Htruthy. cbn [negb]. cbv zeta.
        rewrite Hbrace, Hparse. apply Htext. lia.
      * destruct (Vetting.matchField "question_text" s) as [m1|] eqn:H1;
          [|destruct (Vetting.matchField "question" s) as [m2|] eqn:H2;
            [|destruct (Vetting.matchField "text" s) as [m3|] eqn:H3]];
          eexists; intros [|fuel] Hf; try lia;
          rewrite extract_step, Htruthy; cbn [negb]; cbv zeta;
          rewrite Hbrace, Hparse, ?H1, ?H2, ?H3; reflexivity.
    + eexists. intros [|fuel] Hf; [lia|].
      rewrite extract_step, Htruthy. cbn [negb]. cbv zeta.
      rewrite Hbrace. reflexivity.
  - destruct Hobject as [text Htext].
    exists text. intros [|fuel] Hf; [lia|].
    rewrite extract_step, Htruthy. cbn [negb]. exact (Htext (S fuel) Hf).
  - destruct Hobject as [text Htext].
    exists text. intros [|fuel] Hf; [lia|].
    rewrite extract_step, Htruthy. cbn [negb]. exact (Htext (S fuel) Hf).
Qed.

End Extract.

(** The reference platform parses only the listed documents, each of which
    is at least as long as its value is large. *)
Lemma parseWith_size (docs : list (string * value)) (text : string) (v : value) :
  Forall (fun d => (Vetting.value_size (snd d) <= String.length (fst d))%nat) docs ->
  Reference.parseWith docs text = Some v ->
  (Vetting.value_size v <= String.length text)%nat.
Proof.
  induction 1 as [|[t x] docs Hd Hdocs IH]; cbn [Reference.parseWith];
    [discriminate|].
  destruct (String.eqb_spec t text) as [<-|_]; [|exact IH].
  intros H. injection H as <-. exact Hd.
Qed.

Lemma reference_parse_size (text : string) (v : value) :
  JSON_parse (Platform := Reference.platform) text = Some v ->
  (Vetting.value_size v <= String.length text)%nat.
Proof.
  apply parseWith_size.
  repeat constructor; vm_compute; lia.
Qed.

(** C9.  Whatever the value, [extractQuestionTextFromAny] returns a string
    as soon as the fuel reaches the size of the value, and the same string
    for any larger fuel: the recursion ends and nothing is thrown.  On a
    falsy value the string is 'No question text'.  (The platform's
    [JSON.parse] is required to return values no larger than the text it
    reads, as every JSON parser does.) *)
Theorem extractQuestionTextFromAny_total {P : Platform} :
  (forall text v, JSON_parse text = Some v ->
                  (Vetting.value_size v <= String.length text)%nat) ->
  forall raw,
  exists text,
    (forall fuel, (Vetting.value_size raw <= fuel)%nat ->
                  Vetting.extractQuestionTextFromAny fuel raw = Some text)
    /\ (truthy raw = false -> text = "No question text").
Proof.
  intros Hparse raw.
  exact (extract_bounded Hparse (Vetting.value_size raw) raw (le_n _)).
Qed.

Lemma extractQuestionTextFromAny_total_witness :
  (forall fuel, (Vetting.value_size ExtractExamples.embedded <= fuel)%nat ->
     Vetting.extractQuestionTextFromAny (P := Reference.platform) fuel
       ExtractExamples.embedded = Some "Define osmosis.")
  /\ (forall fuel, (Vetting.value_size ExtractExamples.malformed <= fuel)%nat ->
        Vetting.extractQuestionTextFromAny (P := Reference.platform) fuel
          ExtractExamples.malformed = Some "Name two noble gases.")
  /\ (forall fuel, (Vetting.value_size (VNum (ofZ 0)) <= fuel)%nat ->
        Vetting.extractQuestionTextFromAny (P := Reference.platform) fuel
          (VNum (ofZ 0)) = Some "No question text").
Proof.
  assert (Hrun : forall raw expected,
            Vetting.extractQuestionTextFromAny (P := Reference.platform)
              (Vetting.value_size raw) raw = Some expected ->
            forall fuel, (Vetting.value_size raw <= fuel)%nat ->
              Vetting.extractQuestionTextFromAny (P := Reference.platform) fuel raw
              = Some expected).
  { intros raw expected Hrun fuel Hfuel.
    destruct (extractQuestionTextFromAny_total (P := Reference.platform)
                reference_parse_size raw) as (text & Htext & _).
    rewrite (Htext fuel Hfuel). rewrite <- Hrun. symmetry. apply Htext. lia. }
  repeat apply conj; apply Hrun; vm_compute; reflexivity.
Defined.

(** ** The training dashboard: the status poller *)

(** The effect registers its callback at 3000 ms. *)
Lemma pollEffect_registers (status : value)
    (st : React.store Training.State unit Training.call Training.callback Training.task) :
  React.timers (fst (React.exec (Training.pollEffect status) st))
  = (React.timers st ++
     [ {| React.timer_id := React.next_timer st;
          React.timer_callback := Training.statusTick status;
          React.timer_ms := 3000 |} ])%list.
Proof. reflexivity. Qed.

(** A tick asks for the training status exactly when the status of the
    render is one of the three active ones; otherwise it does nothing, and
    the interval stays registered. *)
Lemma statusTick_polls_while_active (subjectId : Z) (status : value) :
  (truthy status && Training.isActiveStatus (get status "status") = true ->
     forall c, React.issues (Training.statusTickBody subjectId status) c ->
               c = Training.getTrainingStatus subjectId)
  /\ (truthy status && Training.isActiveStatus (get status "status") = true ->
        React.issues (Training.statusTickBody subjectId status)
          (Training.getTrainingStatus subjectId))
  /\ (truthy status && Training.isActiveStatus (get status "status") = false ->
        Training.statusTickBody subjectId status = React.Ret tt).
Proof.
  unfold Training.statusTickBody.
  destruct (truthy status && Training.isActiveStatus (get status "status")).
  - split; [|split]; intros H.
    + intros c Hc. inversion Hc; subst; [reflexivity|].
      match goal with H' : React.issues (match ?o with _ => _ end) _ |- _ =>
        destruct o; no_issues H' end.
    + constructor.
    + discriminate H.
  - split; [|split]; intros H; try discriminate. reflexivity.
Qed.

(* ====================================================================== *)
(** * Part III.  Further properties of the same files                      *)
(* ====================================================================== *)

(** ** api.ts: what [request] sends and logs *)

Lemma headerOf_assign_same (k v : string) (hs : list (string * string)) :
  headerOf k (Api.assign k v hs) = Some v.
Proof.
  induction hs as [|[k' v'] hs IH]; simpl.
  - rewrite String.eqb_refl. reflexivity.
  - destruct (String.eqb_spec k' k) as [->|Hne]; simpl.
    + rewrite String.eqb_refl. reflexivity.
    + destruct (String.eqb_spec k' k) as [E|_]; [contradiction | exact IH].
Qed.

Lemma headerOf_assign_other (k v name : string) (hs : list (string * string)) :
  name <> k -> headerOf name (Api.assign k v hs) = headerOf name hs.
Proof.
  intros Hne. induction hs as [|[k' v'] hs IH]; simpl.
  - destruct (String.eqb_spec k name) as [E|_]; [congruence | reflexivity].
  - destruct (String.eqb_spec k' k) as [->|Hk]; simpl.
    + destruct (String.eqb_spec k name) as [E|_]; [congruence | reflexivity].
    + destruct (String.eqb_spec k' name); [reflexivity | exact IH].
Qed.

(** X1.  Whatever the caller passes and whatever the network does, the one
    [fetch] of a call goes to the base address followed by the endpoint and
    carries both tunnel headers with the value [true], also when the caller
    set them otherwise; every other header of the caller, the method and the
    body are passed on unchanged. *)
Theorem request_sends_tunnel_headers {P : Platform}
    (API_BASE endpoint : string) (options : option Api.RequestInit)
    (network : outcome Api.Response) :
  exists init,
    fetches (fst (Api.request API_BASE endpoint options network))
    = [Api.fetch (API_BASE ++ endpoint) init]
    /\ headerOf "Bypass-Tunnel-Reminder" (Api.headers init) = Some "true"
    /\ headerOf "ngrok-skip-browser-warning" (Api.headers init) = Some "true"
    /\ (forall name,
          name <> "Bypass-Tunnel-Reminder" -> name <> "ngrok-skip-browser-warning" ->
          headerOf name (Api.headers init) = headerOf name (callerHeaders options))
    /\ Api.method init = callerMethod options
    /\ Api.body init = callerBody options.
Proof.
  eexists. split; [apply request_fetches_once|]. cbn [Api.headers Api.method Api.body].
  fold (callerHeaders options).
  split; [|split; [|split; [|split; reflexivity]]].
  - rewrite headerOf_assign_other by discriminate. apply headerOf_assign_same.
  - apply headerOf_assign_same.
  - intros name H1 H2. rewrite !headerOf_assign_other by assumption. reflexivity.
Qed.

(** X2.  A call that resolves logs no error.  A call that rejects has logged
    the very error it rejects with, once, except in one case: a 2xx response
    other than 204 whose body does not parse, where nothing is logged. *)
Theorem request_logs_what_it_throws {P : Platform}
    (API_BASE endpoint : string) (options : option Api.RequestInit)
    (network : outcome Api.Response) :
  (forall v, snd (Api.request API_BASE endpoint options network) = Resolved v ->
     loggedErrors (fst (Api.request API_BASE endpoint options network)) = [])
  /\ (forall e, snd (Api.request API_BASE endpoint options network) = Rejected e ->
        loggedErrors (fst (Api.request API_BASE endpoint options network)) = [e]
        \/ (loggedErrors (fst (Api.request API_BASE endpoint options network)) = []
            /\ exists res, network = Resolved res /\ Api.ok res = true
                           /\ Api.status res <> 204 /\ Api.json res = Rejected e)).
Proof.
  destruct network as [res|e0].
  - destruct (Api.ok res) eqn:Hok.
    + destruct (Z.eq_dec (Api.status res) 204) as [E|E].
      * rewrite request_no_content by assumption. cbn.
        split; [reflexivity | intros e He; discriminate].
      * rewrite request_success by assumption. cbn.
        split; [reflexivity|].
        intros e He. right. split; [reflexivity|]. exists res. auto.
    + rewrite request_not_ok by assumption. cbn [fst snd].
      split; [intros v Hv; discriminate|].
      intros e He. injection He as <-. left.
      unfold Api.errorMessageOf. destruct (Api.json res); reflexivity.
  - rewrite request_network_failure. cbn.
    split; [intros v Hv; discriminate|].
    intros e He. injection He as <-. left. reflexivity.
Qed.

(** ** api.ts: getApiBase *)

Lemma beforeColon_no_colon (h : string) : includes ":" (Api.beforeColon h) = false.
Proof.
  induction h as [|c h IH]; cbn [Api.beforeColon]; [reflexivity|].
  destruct (Ascii.eqb_spec c ":") as [->|Hne]; [reflexivity|].
  cbn [includes eqPrefix].
  destruct (Ascii.eqb_spec ":" c) as [E|_]; [congruence | exact IH].
Qed.

(** X3.  The base address is always http://HOST:8000 with a HOST that holds
    no colon, so the port of the Expo server never reaches it.  HOST is
    localhost or 10.0.2.2, or what stands before the first colon of a
    non-empty one of hostUri and the two debuggerHost fields; a non-empty
    hostUri wins over the others, and when all three are missing or empty
    the fallback depends on the platform alone. *)
Theorem getApiBase_shape (env : Api.ExpoEnv) :
  exists host,
    Api.getApiBase env = "http://" ++ host ++ ":8000"
    /\ includes ":" host = false
    /\ (host = "localhost" \/ host = "10.0.2.2"
        \/ exists h, In (Some h) [Api.hostUri env; Api.manifest_debuggerHost env;
                                  Api.manifest2_debuggerHost env]
                     /\ h <> "" /\ host = Api.beforeColon h)
    /\ (forall h, Api.hostUri env = Some h -> h <> "" -> host = Api.beforeColon h)
    /\ ((forall h, In (Some h) [Api.hostUri env; Api.manifest_debuggerHost env;
                                Api.manifest2_debuggerHost env] -> h = "") ->
        host = if (Api.Platform_OS env =? "web")%string then "localhost" else "10.0.2.2").
Proof.
  destruct env as [a b c os]. unfold Api.getApiBase.
  cbn [Api.hostUri Api.manifest_debuggerHost Api.manifest2_debuggerHost Api.Platform_OS].
  destruct a as [[|ca sa]|], b as [[|cb sb]|], c as [[|cc sc]|];
    cbn [Api.orElse String.eqb];
    first
      [ (* a host was detected *)
        eexists; split; [reflexivity|]; split; [apply beforeColon_no_colon|];
        split; [right; right; eexists; refine (conj _ (conj _ eq_refl));
                [cbn [In]; tauto | discriminate]|];
        split; [intros h Hh Hne; first [congruence | injection Hh as <-; reflexivity]
               | intros Hall;
                 first [ discriminate (Hall _ (or_introl eq_refl))
                       | discriminate (Hall _ (or_intror (or_introl eq_refl)))
                       | discriminate (Hall _ (or_intror (or_intror (or_introl eq_refl)))) ] ]
      | (* the fallback *)
        exists (if (os =? "web")%string then "localhost" else "10.0.2.2");
        destruct (os =? "web")%string;
        (split; [reflexivity|]; split; [reflexivity|]; split; [tauto|];
         split; [intros h Hh Hne; congruence | reflexivity]) ].
Qed.






(** ** vetting.tsx: what handleSubmit does when the request settles *)

(** Both ways of taking the reviewed question out of the queue remove the
    same element. *)
Lemma filterNotIndex_splice1 (i : nat) (q : list value) :
  Vetting.filterNotIndex i q = Vetting.splice1 i q.
Proof.
  unfold Vetting.splice1. revert i.
  induction q as [|x q IH]; intros [|i]; cbn; try reflexivity.
  - now rewrite IH.
Qed.

Lemma length_splice1 (i : nat) (q : list value) :
  (i < List.length q)%nat ->
  List.length (Vetting.splice1 i q) = Nat.pred (List.length q).
Proof.
  intros Hi. unfold Vetting.splice1.
  rewrite length_app, length_firstn, length_skipn. lia.
Qed.

Lemma nth_out_of_range (i : nat) (q : list value) :
  (List.length q <= i)%nat -> nth i q VUndefined = VUndefined.
Proof. intros H. apply nth_overflow. exact H. Qed.

(** X5.  When handleSubmit has sent its request and the request resolves,
    what follows works on the queue and the index of the render that was
    submitted, whatever the view holds by then ([now]): the queue becomes
    that queue without the reviewed question, the form is reset, the Submit
    button is enabled again and a Success alert is shown.  The index is
    written only when the reviewed question was the last of a longer queue;
    otherwise it stays as it is at that moment.  So when nothing has moved
    the index meanwhile, it points into the shorter queue, or the queue is
    empty and the view is marked as all reviewed.  When Next has moved it to
    the last question meanwhile, it is left one past the end of the shorter
    queue. *)
Theorem handleSubmit_success_removes_question
    (st : Vetting.ReviewState) (store store1 now : VettingStore)
    (c : Vetting.call) (k : outcome value -> Vetting.handler unit) (v : value) :
  React.state store = st ->
  React.exec (Vetting.handleSubmit st) store = (store1, React.Waiting c k) ->
  exists store2,
    React.exec (k (Resolved v)) now = (store2, React.Finished (Resolved tt))
    /\ Vetting.queue (React.state store2)
       = (firstn (Vetting.currentIndex st) (Vetting.queue st)
          ++ skipn (S (Vetting.currentIndex st)) (Vetting.queue st))%list
    /\ S (List.length (Vetting.queue (React.state store2)))
       = List.length (Vetting.queue st)
    /\ (Vetting.queue (React.state store2) = [] ->
          Vetting.allReviewed (React.state store2) = true)
    /\ Vetting.currentIndex (React.state store2)
       = (if (S (Vetting.currentIndex st) <? List.length (Vetting.queue st))%nat
          then Vetting.currentIndex (React.state now)
          else if (List.length (Vetting.queue st) =? 1)%nat
          then Vetting.currentIndex (React.state now)
          else Nat.pred (Vetting.currentIndex st))
    /\ (Vetting.currentIndex (React.state now) = Vetting.currentIndex st ->
          Vetting.queue (React.state store2) <> [] ->
          indexInQueue (React.state store2))
    /\ ((S (Vetting.currentIndex st) < List.length (Vetting.queue st))%nat ->
          S (Vetting.currentIndex (React.state now)) = List.length (Vetting.queue st) ->
          ~ indexInQueue (React.state store2))
    /\ Vetting.submitting (React.state store2) = false
    /\ Vetting.action (React.state store2) = None
    /\ Vetting.feedback (React.state store2) = ""
    /\ Vetting.selectedCos (React.state store2) = []
    /\ Vetting.coLevels (React.state store2) = []
    /\ React.log store2
       = (React.log now
          ++ [React.Alerted "Success" "Question vetted and saved to dataset."])%list.
Proof.
  intros Hst H. unfold Vetting.handleSubmit in H.
  destruct (negb (Vetting.present (Vetting.action st))); [discriminate H|].
  destruct (List.length (Vetting.selectedCos st) =? 0)%nat; [discriminate H|].
  destruct (Vetting.isReject st && negb (Vetting.present (Vetting.rejectionReason st)));
    [discriminate H|].
  destruct (Vetting.isReject st
            && ((Vetting.feedback st =? "")%string
                || (String.length (Vetting.feedback st) <? 5)%nat)); [discriminate H|].
  assert (Hin : (Vetting.currentIndex st < List.length (Vetting.queue st))%nat).
  { destruct (Nat.lt_ge_cases (Vetting.currentIndex st) (List.length (Vetting.queue st)))
      as [Hlt|Hge]; [exact Hlt|].
    rewrite (nth_out_of_range _ _ Hge) in H. discriminate H. }
  pose proof (length_splice1 _ _ Hin) as Hlen.
  rewrite filterNotIndex_splice1 in H.
  unfold Vetting.readProp in H. unfold indexInQueue.
  destruct (Z.ltb_spec (Z.of_nat (Vetting.currentIndex st))
              (Z.of_nat (List.length (Vetting.queue st)) - 1)) as [Hlast|Hlast];
    [|destruct (Nat.eqb_spec (List.length (Vetting.splice1 (Vetting.currentIndex st)
                                             (Vetting.queue st))) 0) as [Hempty|Hempty]].
  all: destruct (Nat.ltb_spec (S (Vetting.currentIndex st))
                   (List.length (Vetting.queue st))) as [Hmore|Hmore]; try lia.
  all: destruct (Nat.eqb_spec (List.length (Vetting.queue st)) 1) as [Hone|Hone];
    try lia.
  all: destruct (nth (Vetting.currentIndex st) (Vetting.queue st) VUndefined) eqn:Hcur;
    try discriminate H.
  all: injection H as <- <- <-.
  all: eexists; split; [reflexivity|]; cbn [React.state React.log fst snd].
  all: fold (Vetting.splice1 (Vetting.currentIndex st) (Vetting.queue st)).
  all: cbn; rewrite ?Hlen.
  all: repeat apply conj; try reflexivity; try lia.
  all: try (intros Hq; rewrite Hq in Hlen; cbn in Hlen; lia).
  all: try (intros Hq; exfalso; apply Hq, length_zero_iff_nil; lia).
  all: intros _ Hq; exfalso; apply Hq, length_zero_iff_nil; lia.
Qed.

Lemma handleSubmit_success_removes_question_witness :
  exists store1 c k store2,
    React.exec (Vetting.handleSubmit ReviewExamples.approvingFirst)
      ReviewExamples.approving = (store1, React.Waiting c k)
    /\ Vetting.currentIndex (React.state ReviewExamples.movedOn) = 1%nat
    /\ React.exec (k (Resolved VNull)) ReviewExamples.movedOn
       = (store2, React.Finished (Resolved tt))
    /\ Vetting.queue (React.state store2) = [ReviewExamples.nobleGases]
    /\ Vetting.currentIndex (React.state store2) = 1%nat
    /\ ~ indexInQueue (React.state store2)
    /\ Vetting.submitting (React.state store2) = false.
Proof.
  eexists _, _, _.
  destruct (handleSubmit_success_removes_question ReviewExamples.approvingFirst
              ReviewExamples.approving _ ReviewExamples.movedOn _ _ VNull
              eq_refl eq_refl)
    as (store2 & Hexec & Hq & _ & _ & Hindex & _ & Hstale & Hsub & _).
  exists store2. split; [reflexivity|]. split; [reflexivity|].
  split; [exact Hexec|]. split; [exact Hq|]. split; [exact Hindex|].
  split; [apply Hstale; [cbn; lia | reflexivity] | exact Hsub].
Defined.

(** X6.  When handleSubmit has sent its request and the request is rejected,
    one alert titled Error shows the message of the rejection, or Failed to
    submit when that message is empty; the queue, the index and the whole
    form stay as they were, and the Submit button is enabled again.  The
    request that was sent is the submission of the current question. *)
Theorem handleSubmit_failure_keeps_question
    (st : Vetting.ReviewState) (store store1 : VettingStore)
    (c : Vetting.call) (k : outcome value -> Vetting.handler unit) (e : error) :
  React.state store = st ->
  React.exec (Vetting.handleSubmit st) store = (store1, React.Waiting c k) ->
  c = Vetting.submitVetting
        (Vetting.submission st
           (get (nth (Vetting.currentIndex st) (Vetting.queue st) VUndefined) "id"))
  /\ React.state store1 = Vetting.setSubmitting true st
  /\ exists store2,
       React.exec (k (Rejected e)) store1 = (store2, React.Finished (Resolved tt))
       /\ React.state store2 = Vetting.setSubmitting false st
       /\ React.log store2
          = (React.log store1
             ++ [React.Alerted "Error"
                   (if (message e =? "")%string then "Failed to submit"
                    else message e)])%list.
Proof.
  intros Hst H. unfold Vetting.handleSubmit in H.
  destruct (negb (Vetting.present (Vetting.action st))); [discriminate H|].
  destruct (List.length (Vetting.selectedCos st) =? 0)%nat; [discriminate H|].
  destruct (Vetting.isReject st && negb (Vetting.present (Vetting.rejectionReason st)));
    [discriminate H|].
  destruct (Vetting.isReject st
            && ((Vetting.feedback st =? "")%string
                || (String.length (Vetting.feedback st) <? 5)%nat)); [discriminate H|].
  destruct (nth (Vetting.currentIndex st) (Vetting.queue st) VUndefined) eqn:Hcur;
    try discriminate H.
  all: cbn in H; injection H as <- <- <-.
  all: subst st; cbn.
  all: split; [reflexivity|]; split; [reflexivity|].
  all: eexists; split; [reflexivity|]; cbn; split; reflexivity.
Qed.

Lemma handleSubmit_failure_keeps_question_witness :
  exists store1 c k store2,
    React.exec (Vetting.handleSubmit FormExamples.rejection)
      ReviewExamples.rejecting = (store1, React.Waiting c k)
    /\ React.exec (k (Rejected ReviewExamples.offline)) store1
       = (store2, React.Finished (Resolved tt))
    /\ React.state store2 = FormExamples.rejection
    /\ React.log store2
       = (React.log store1 ++ [React.Alerted "Error" "Network request failed"])%list.
Proof.
  eexists _, _, _.
  destruct (handleSubmit_failure_keeps_question FormExamples.rejection
              ReviewExamples.rejecting _ _ _ ReviewExamples.offline eq_refl eq_refl)
    as (_ & _ & store2 & Hexec & Hst & Hlog).
  exists store2. split; [reflexivity|]. split; [exact Hexec|].
  split; [exact Hst | exact Hlog].
Defined.

(** ** vetting.tsx: toggleCo and setLevel *)

Lemma levelOf_app (id : Z) (l1 l2 : list (Z * string)) :
  levelOf id (l1 ++ l2)
  = match levelOf id l1 with Some v => Some v | None => levelOf id l2 end.
Proof.
  induction l1 as [|[k v] l1 IH]; cbn; [reflexivity|].
  destruct (k =? id); [reflexivity | exact IH].
Qed.

Lemma levelOf_without (id j : Z) (l : list (Z * string)) :
  levelOf j (filter (fun kv => negb (fst kv =? id)) l)
  = if j =? id then None else levelOf j l.
Proof.
  induction l as [|[k v] l IH]; cbn.
  - destruct (j =? id); reflexivity.
  - destruct (Z.eqb_spec k id) as [->|Hk]; cbn.
    + rewrite IH. destruct (Z.eqb_spec j id) as [->|Hj]; [reflexivity|].
      destruct (Z.eqb_spec id j); [congruence | reflexivity].
    + rewrite IH. destruct (Z.eqb_spec k j) as [->|Hkj]; [|reflexivity].
      destruct (Z.eqb_spec j id); [congruence | reflexivity].
Qed.

Lemma keys_without (id j : Z) (l : list (Z * string)) :
  In j (map fst (filter (fun kv => negb (fst kv =? id)) l))
  <-> In j (map fst l) /\ j <> id.
Proof.
  rewrite !in_map_iff. split.
  - intros ([k v] & <- & Hin). apply filter_In in Hin. destruct Hin as [Hin Hne].
    cbn in *. split; [exists (k, v); auto|].
    destruct (Z.eqb_spec k id); [discriminate | assumption].
  - intros (([k v] & <- & Hin) & Hne). exists (k, v). split; [reflexivity|].
    apply filter_In. split; [exact Hin|]. cbn in *.
    destruct (Z.eqb_spec k id); [contradiction | reflexivity].
Qed.

Lemma selected_without (id j : Z) (l : list Z) :
  In j (filter (fun c => negb (c =? id)) l) <-> In j l /\ j <> id.
Proof.
  rewrite filter_In. split; intros [Hin Hne]; (split; [exact Hin|]).
  - destruct (Z.eqb_spec j id); [discriminate | assumption].
  - destruct (Z.eqb_spec j id); [contradiction | reflexivity].
Qed.

Lemma includesCo_In (id : Z) (cos : list Z) :
  Vetting.includesCo id cos = true <-> In id cos.
Proof.
  unfold Vetting.includesCo. rewrite existsb_exists. split.
  - intros (x & Hin & Heq). apply Z.eqb_eq in Heq. now subst.
  - intros Hin. exists id. split; [exact Hin | apply Z.eqb_refl].
Qed.

(** X7.  A contribution level is kept for exactly the selected Course
    Outcomes, and toggleCo and setLevel keep it so.  toggleCo flips the
    selection of its outcome and of no other; a newly selected outcome
    starts at moderate and a deselected one loses its level.  setLevel
    changes the level of a selected outcome and does nothing for one that
    is not selected. *)
Theorem co_levels_follow_selection
    (st : Vetting.ReviewState) (store : VettingStore) (id : Z) (level : string) :
  React.state store = st ->
  levelsMatch st ->
  (let st' := reviewAfter (Vetting.toggleCo id st) store in
   levelsMatch st'
   /\ (In id (Vetting.selectedCos st') <-> ~ In id (Vetting.selectedCos st))
   /\ levelOf id (Vetting.coLevels st')
      = (if Vetting.includesCo id (Vetting.selectedCos st) then None
         else Some "moderate")
   /\ forall j, j <> id ->
        (In j (Vetting.selectedCos st') <-> In j (Vetting.selectedCos st))
        /\ levelOf j (Vetting.coLevels st') = levelOf j (Vetting.coLevels st))
  /\ (let st' := reviewAfter (Vetting.setLevel id level st) store in
      levelsMatch st'
      /\ Vetting.selectedCos st' = Vetting.selectedCos st
      /\ (In id (Vetting.selectedCos st) ->
            levelOf id (Vetting.coLevels st') = Some level)
      /\ (~ In id (Vetting.selectedCos st) -> st' = st)
      /\ forall j, j <> id ->
           levelOf j (Vetting.coLevels st') = levelOf j (Vetting.coLevels st)).
Proof.
  intros Hst Hm. subst st. unfold reviewAfter, Vetting.toggleCo, Vetting.setLevel.
  pose proof (includesCo_In id (Vetting.selectedCos (React.state store))) as Hinc.
  destruct (Vetting.includesCo id (Vetting.selectedCos (React.state store))) eqn:E;
    cbn; unfold levelsMatch in *; cbn.
  - (* the outcome is selected *)
    assert (Hsel : In id (Vetting.selectedCos (React.state store))) by (apply Hinc; reflexivity).
    split; [split; [|split; [|split]]|split; [|split; [|split; [|split]]]].
    + intros j. rewrite keys_without, selected_without, Hm. reflexivity.
    + rewrite selected_without. tauto.
    + rewrite levelOf_without, Z.eqb_refl. reflexivity.
    + intros j Hj. rewrite selected_without, levelOf_without.
      destruct (Z.eqb_spec j id); [contradiction|]. tauto.
    + intros j. rewrite map_app, in_app_iff, keys_without. cbn.
      pose proof (Hm j) as Hj. pose proof (Hm id) as Hid.
      destruct (Z.eq_dec j id) as [->|Hne]; intuition congruence.
    + reflexivity.
    + intros _. rewrite levelOf_app, levelOf_without, Z.eqb_refl. cbn.
      rewrite Z.eqb_refl. reflexivity.
    + intros Hn. contradiction.
    + intros j Hj. rewrite levelOf_app, levelOf_without. cbn.
      destruct (Z.eqb_spec j id); [contradiction|].
      destruct (Z.eqb_spec id j); [congruence|].
      destruct (levelOf j _); reflexivity.
  - (* the outcome is not selected *)
    assert (Hsel : ~ In id (Vetting.selectedCos (React.state store))).
    { intros Hin. apply Hinc in Hin. discriminate. }
    split; [split; [|split; [|split]]|split; [|split; [|split; [|split]]]].
    + intros j. rewrite map_app, !in_app_iff, keys_without. cbn.
      pose proof (Hm j) as Hj. pose proof (Hm id) as Hid.
      destruct (Z.eq_dec j id) as [->|Hne]; intuition congruence.
    + rewrite in_app_iff. cbn. tauto.
    + rewrite levelOf_app, levelOf_without, Z.eqb_refl. cbn.
      rewrite Z.eqb_refl. reflexivity.
    + intros j Hj. rewrite in_app_iff, levelOf_app, levelOf_without. cbn.
      destruct (Z.eqb_spec j id); [contradiction|].
      destruct (Z.eqb_spec id j); [congruence|].
      split; [intuition congruence | destruct (levelOf j _); reflexivity].
    + exact Hm.
    + reflexivity.
    + intros Hin. contradiction.
    + intros _. reflexivity.
    + intros j Hj. reflexivity.
Qed.

Lemma co_levels_follow_selection_witness :
  Vetting.selectedCos
    (reviewAfter (Vetting.toggleCo 5 ReviewExamples.approvingFirst)
       ReviewExamples.approving) = [3; 5]
  /\ levelOf 5 (Vetting.coLevels
                  (reviewAfter (Vetting.toggleCo 5 ReviewExamples.approvingFirst)
                     ReviewExamples.approving)) = Some "moderate"
  /\ levelOf 3 (Vetting.coLevels
                  (reviewAfter (Vetting.setLevel 3 "high" ReviewExamples.approvingFirst)
                     ReviewExamples.approving)) = Some "high".
Proof.
  assert (Hm : levelsMatch ReviewExamples.approvingFirst).
  { intros id. cbn. tauto. }
  destruct (co_levels_follow_selection ReviewExamples.approvingFirst
              ReviewExamples.approving 5 "high" eq_refl Hm) as [(_ & _ & H5 & _) _].
  destruct (co_levels_follow_selection ReviewExamples.approvingFirst
              ReviewExamples.approving 3 "high" eq_refl Hm) as [_ (_ & _ & H3 & _)].
  split; [reflexivity|]. split; [exact H5|]. apply H3. cbn. tauto.
Defined.

(** ** vetting.tsx: Previous and Next *)

(** X8.  Previous and Next never move the index out of the queue: from an
    index inside the queue each of them leaves an index inside the queue.
    Previous moves one question back and does nothing at the first
    question; Next moves one question on and does nothing at the last one.
    Neither changes the queue. *)
Theorem navigation_stays_in_queue (st : Vetting.ReviewState) (store : VettingStore) :
  React.state store = st ->
  indexInQueue st ->
  (let st' := reviewAfter (VettingView.pressPrevious st) store in
   indexInQueue st'
   /\ Vetting.queue st' = Vetting.queue st
   /\ Vetting.currentIndex st' = Nat.pred (Vetting.currentIndex st)
   /\ (Vetting.currentIndex st = 0%nat -> st' = st))
  /\ (let st' := reviewAfter (VettingView.pressNext st) store in
      indexInQueue st'
      /\ Vetting.queue st' = Vetting.queue st
      /\ (S (Vetting.currentIndex st) < List.length (Vetting.queue st) ->
            Vetting.currentIndex st' = S (Vetting.currentIndex st))%nat
      /\ (S (Vetting.currentIndex st) = List.length (Vetting.queue st) -> st' = st)).
Proof.
  intros Hst Hin. subst st. unfold indexInQueue, reviewAfter in *.
  unfold VettingView.pressPrevious, VettingView.pressNext.
  split.
  - destruct (Nat.ltb_spec 0 (Vetting.currentIndex (React.state store))) as [Hpos|Hzero];
      cbn; repeat apply conj; try reflexivity; lia.
  - destruct (Z.ltb_spec (Z.of_nat (Vetting.currentIndex (React.state store)))
                (Z.of_nat (List.length (Vetting.queue (React.state store))) - 1))
      as [Hmore|Hlast];
      cbn; repeat apply conj; try reflexivity; lia.
Qed.

Lemma navigation_stays_in_queue_witness :
  indexInQueue ReviewExamples.approvingFirst
  /\ Vetting.currentIndex
       (reviewAfter (VettingView.pressNext ReviewExamples.approvingFirst)
          ReviewExamples.approving) = 1%nat
  /\ reviewAfter (VettingView.pressPrevious ReviewExamples.approvingFirst)
       ReviewExamples.approving = ReviewExamples.approvingFirst.
Proof.
  assert (Hin : indexInQueue ReviewExamples.approvingFirst)
    by (unfold indexInQueue; cbn; lia).
  destruct (navigation_stays_in_queue ReviewExamples.approvingFirst
              ReviewExamples.approving eq_refl Hin)
    as [(_ & _ & _ & Hfirst) (_ & _ & Hnext & _)].
  split; [exact Hin|]. split; [apply Hnext; cbn; lia | apply Hfirst; reflexivity].
Defined.

(** ** vetting.tsx: formatTimeAgo *)

(** X9.  For a timestamp that parses, formatTimeAgo shows Just now below one
    minute (also for a timestamp in the future), then the whole minutes
    below one hour, the whole hours below one day, and the whole days from
    there on: each number is the elapsed time itself divided by the unit and
    rounded down.  A missing or empty timestamp gives the empty string, and
    one that does not parse gives NaNd ago. *)
Theorem formatTimeAgo_units (iso : string) (diff : Z) :
  iso <> "" ->
  (diff < 60000 -> VettingView.formatTimeAgo (Some iso) (Some diff) = "Just now")
  /\ (60000 <= diff < 3600000 ->
        VettingView.formatTimeAgo (Some iso) (Some diff)
        = decimal (diff / 60000) ++ "m ago")
  /\ (3600000 <= diff < 86400000 ->
        VettingView.formatTimeAgo (Some iso) (Some diff)
        = decimal (diff / 3600000) ++ "h ago")
  /\ (86400000 <= diff ->
        VettingView.formatTimeAgo (Some iso) (Some diff)
        = decimal (diff / 86400000) ++ "d ago")
  /\ VettingView.formatTimeAgo (Some iso) None = "NaNd ago"
  /\ VettingView.formatTimeAgo None (Some diff) = ""
  /\ VettingView.formatTimeAgo (Some "") (Some diff) = "".
Proof.
  intros Hiso. destruct iso as [|c iso]; [contradiction|].
  unfold VettingView.formatTimeAgo.
  assert (Hh : diff / 60000 / 60 = diff / 3600000)
    by (rewrite Z.div_div by lia; reflexivity).
  assert (Hd : diff / 60000 / 60 / 24 = diff / 86400000)
    by (rewrite !Z.div_div by lia; reflexivity).
  repeat apply conj; try reflexivity.
  - intros H. destruct (Z.ltb_spec (diff / 60000) 1) as [_|Hge]; [reflexivity|].
    exfalso. assert (diff / 60000 < 1) by (apply Z.div_lt_upper_bound; lia). lia.
  - intros [Hlo Hhi].
    assert (1 <= diff / 60000) by (apply Z.div_le_lower_bound; lia).
    assert (diff / 60000 < 60) by (apply Z.div_lt_upper_bound; lia).
    destruct (Z.ltb_spec (diff / 60000) 1); [lia|].
    destruct (Z.ltb_spec (diff / 60000) 60); [reflexivity | lia].
  - intros [Hlo Hhi].
    assert (60 <= diff / 60000) by (apply Z.div_le_lower_bound; lia).
    assert (diff / 3600000 < 24) by (apply Z.div_lt_upper_bound; lia).
    destruct (Z.ltb_spec (diff / 60000) 1); [lia|].
    destruct (Z.ltb_spec (diff / 60000) 60); [lia|].
    rewrite Hh. destruct (Z.ltb_spec (diff / 3600000) 24); [reflexivity | lia].
  - intros Hlo.
    assert (60 <= diff / 60000) by (apply Z.div_le_lower_bound; lia).
    assert (24 <= diff / 3600000) by (apply Z.div_le_lower_bound; lia).
    destruct (Z.ltb_spec (diff / 60000) 1); [lia|].
    destruct (Z.ltb_spec (diff / 60000) 60); [lia|].
    rewrite Hd, Hh. destruct (Z.ltb_spec (diff / 3600000) 24); [lia | reflexivity].
Qed.

Lemma formatTimeAgo_units_witness :
  VettingView.formatTimeAgo (Some "2026-03-01T10:00:00Z") (Some 7260000) = "2h ago"
  /\ VettingView.formatTimeAgo (Some "2026-03-01T10:00:00Z") (Some (-5000)) = "Just now".
Proof.
  assert (Hiso : "2026-03-01T10:00:00Z" <> "") by discriminate.
  split.
  - destruct (formatTimeAgo_units "2026-03-01T10:00:00Z" 7260000 Hiso)
      as (_ & _ & Hh & _).
    rewrite Hh by lia. reflexivity.
  - destruct (formatTimeAgo_units "2026-03-01T10:00:00Z" (-5000) Hiso) as (Hnow & _).
    apply Hnow. lia.
Defined.

(** ** vetting.tsx: the pattern of extractQuestionTextFromAny *)

Lemma eqPrefix_sound (p s r : string) : eqPrefix false p s = Some r -> s = p ++ r.
Proof.
  revert s. induction p as [|a p IH]; intros s H; cbn in H.
  - injection H as ->. reflexivity.
  - destruct s as [|b s]; [discriminate|].
    destruct (Ascii.eqb_spec a b) as [->|_]; [|discriminate].
    cbn. f_equal. apply IH. exact H.
Qed.

Lemma trimStart_split (s : string) :
  exists ws, s = ws ++ trimStart s /\ trimStart ws = "".
Proof.
  induction s as [|c s (ws & Hs & Hws)]; cbn.
  - exists "". split; reflexivity.
  - destruct (isWhiteSpace c) eqn:Hc.
    + exists (String c ws). cbn. rewrite Hc. split; [f_equal; exact Hs | exact Hws].
    + exists "". split; reflexivity.
Qed.

Lemma untilQuote_sound (s cap : string) :
  Vetting.untilQuote s = Some cap ->
  includes Vetting.dq cap = false /\ exists rest, s = cap ++ Vetting.dq ++ rest.
Proof.
  revert cap. induction s as [|c s IH]; intros cap H; cbn [Vetting.untilQuote] in H;
    [discriminate|].
  destruct (Ascii.eqb_spec c (ascii_of_nat 34)) as [->|Hc].
  - injection H as <-. split; [reflexivity | exists s; reflexivity].
  - destruct (Vetting.untilQuote s) as [cap'|]; [|discriminate].
    injection H as <-. destruct (IH cap' eq_refl) as (Hno & rest & ->).
    split; [|exists rest; reflexivity].
    cbn [includes eqPrefix Vetting.dq].
    destruct (Ascii.eqb_spec (ascii_of_nat 34) c) as [E|_]; [congruence | exact Hno].
Qed.

Lemma matchHere_sound (field s cap : string) :
  Vetting.matchHere field s = Some cap ->
  cap <> "" /\ includes Vetting.dq cap = false
  /\ exists ws1 ws2 post,
       trimStart ws1 = "" /\ trimStart ws2 = ""
       /\ s = Vetting.dq ++ field ++ Vetting.dq ++ ws1 ++ ":" ++ ws2
              ++ Vetting.dq ++ cap ++ Vetting.dq ++ post.
Proof.
  unfold Vetting.matchHere. intros H.
  destruct (eqPrefix false (Vetting.dq ++ field ++ Vetting.dq) s) as [afterKey|] eqn:Hkey;
    [|discriminate].
  apply eqPrefix_sound in Hkey.
  destruct (trimStart_split afterKey) as (ws1 & H1 & Hws1).
  destruct (trimStart afterKey) as [|c afterColon]; [discriminate|].
  destruct (Ascii.eqb_spec c ":") as [->|_]; [|discriminate].
  destruct (trimStart_split afterColon) as (ws2 & H2 & Hws2).
  destruct (trimStart afterColon) as [|q inner]; [discriminate|].
  destruct (Ascii.eqb_spec q (ascii_of_nat 34)) as [->|_]; [|discriminate].
  destruct (Vetting.untilQuote inner) as [cap'|] eqn:Hcap; [|discriminate].
  destruct (untilQuote_sound _ _ Hcap) as (Hno & post & Hinner).
  destruct cap' as [|c0 cap']; [discriminate|].
  injection H as <-.
  split; [discriminate|]. split; [exact Hno|].
  exists ws1, ws2, post. split; [exact Hws1|]. split; [exact Hws2|].
  rewrite Hkey, H1, H2, Hinner. rewrite !append_assoc. reflexivity.
Qed.

(** X10.  When the pattern for a quoted field finds a match, the text holds
    the field name in double quotes, optional white space around a colon,
    and a quoted value; what is captured is that value: it is not empty and
    holds no double quote. *)
Theorem matchField_capture (field raw cap : string) :
  Vetting.matchField field raw = Some cap ->
  cap <> "" /\ includes Vetting.dq cap = false
  /\ exists pre ws1 ws2 post,
       trimStart ws1 = "" /\ trimStart ws2 = ""
       /\ raw = pre ++ Vetting.dq ++ field ++ Vetting.dq ++ ws1 ++ ":" ++ ws2
                ++ Vetting.dq ++ cap ++ Vetting.dq ++ post.
Proof.
  induction raw as [|c raw IH]; intros H.
  - cbn [Vetting.matchField] in H.
    destruct (Vetting.matchHere field "") as [cap'|] eqn:Hhere; [|discriminate].
    injection H as ->. destruct (matchHere_sound _ _ _ Hhere) as (H1 & H2 & ws1 & ws2 & post & H3 & H4 & H5).
    split; [exact H1|]. split; [exact H2|]. exists "", ws1, ws2, post. auto.
  - cbn [Vetting.matchField] in H.
    destruct (Vetting.matchHere field (String c raw)) as [cap'|] eqn:Hhere.
    + injection H as ->.
      destruct (matchHere_sound _ _ _ Hhere) as (H1 & H2 & ws1 & ws2 & post & H3 & H4 & H5).
      split; [exact H1|]. split; [exact H2|]. exists "", ws1, ws2, post. auto.
    + destruct (IH H) as (H1 & H2 & pre & ws1 & ws2 & post & H3 & H4 & H5).
      split; [exact H1|]. split; [exact H2|].
      exists (String c pre), ws1, ws2, post. split; [exact H3|]. split; [exact H4|].
      cbn. f_equal. exact H5.
Qed.

Lemma matchField_capture_witness :
  Vetting.matchField "question_text" ReviewExamples.cutShort
  = Some "Name two noble gases."
  /\ exists pre ws1 ws2 post,
       trimStart ws1 = "" /\ trimStart ws2 = ""
       /\ ReviewExamples.cutShort
          = pre ++ Vetting.dq ++ "question_text" ++ Vetting.dq ++ ws1 ++ ":" ++ ws2
            ++ Vetting.dq ++ "Name two noble gases." ++ Vetting.dq ++ post.
Proof.
  split; [reflexivity|].
  exact (proj2 (proj2 (matchField_capture "question_text" ReviewExamples.cutShort
                         "Name two noble gases." eq_refl))).
Defined.

(** ** vetting.tsx: the label of a key *)

Lemma length_underscoresToSpaces (s : string) :
  String.length (VettingView.underscoresToSpaces s) = String.length s.
Proof. induction s as [|c s IH]; cbn; [reflexivity | now rewrite IH]. Qed.

Lemma length_capitalizeWords (b : bool) (s : string) :
  String.length (VettingView.capitalizeWords b s) = String.length s.
Proof.
  revert b. induction s as [|c s IH]; intros b; cbn; [reflexivity | now rewrite IH].
Qed.

Lemma toUpperAscii_facts (c : ascii) :
  VettingView.toUpperAscii (VettingView.toUpperAscii c) = VettingView.toUpperAscii c
  /\ VettingView.isWordChar (VettingView.toUpperAscii c) = VettingView.isWordChar c
  /\ (c <> "_"%char -> VettingView.toUpperAscii c <> "_"%char).
Proof.
  destruct c as [[] [] [] [] [] [] [] []];
    (split; [reflexivity|]; split; [reflexivity|]; intros H; vm_compute; congruence).
Qed.

Lemma capitalizeWords_idempotent (b : bool) (s : string) :
  VettingView.capitalizeWords b (VettingView.capitalizeWords b s)
  = VettingView.capitalizeWords b s.
Proof.
  revert b. induction s as [|c s IH]; intros b;
    cbn [VettingView.capitalizeWords]; [reflexivity|].
  destruct (toUpperAscii_facts c) as (Hup & Hword & _).
  destruct (VettingView.isWordChar c) eqn:Hc, b; cbn [andb negb];
    rewrite ?Hword, ?Hc; cbn [andb negb]; rewrite ?Hup, IH; reflexivity.
Qed.

Lemma no_underscore_fixed (s : string) :
  includes "_" s = false -> VettingView.underscoresToSpaces s = s.
Proof.
  induction s as [|c s IH]; cbn [includes eqPrefix VettingView.underscoresToSpaces];
    [reflexivity|].
  destruct (Ascii.eqb_spec "_" c) as [<-|Hc]; [discriminate|].
  intros H. rewrite (IH H).
  destruct (Ascii.eqb_spec c "_"); [congruence | reflexivity].
Qed.

Lemma underscoresToSpaces_none (s : string) :
  includes "_" (VettingView.underscoresToSpaces s) = false.
Proof.
  induction s as [|c s IH]; cbn [includes eqPrefix VettingView.underscoresToSpaces];
    [reflexivity|].
  destruct (Ascii.eqb_spec c "_") as [->|Hc]; [exact IH|].
  destruct (Ascii.eqb_spec "_" c); [congruence | exact IH].
Qed.

Lemma capitalizeWords_no_underscore (b : bool) (s : string) :
  includes "_" s = false -> includes "_" (VettingView.capitalizeWords b s) = false.
Proof.
  revert b. induction s as [|c s IH]; intros b;
    cbn [includes eqPrefix VettingView.capitalizeWords]; [reflexivity|].
  destruct (Ascii.eqb_spec "_" c) as [<-|Hc]; [discriminate|].
  intros H.
  destruct (toUpperAscii_facts c) as (_ & _ & Hne).
  destruct (VettingView.isWordChar c && negb b).
  - destruct (Ascii.eqb_spec "_" (VettingView.toUpperAscii c)) as [E|_].
    + exfalso. apply Hne; congruence.
    + apply IH. exact H.
  - destruct (Ascii.eqb_spec "_" c); [congruence | apply IH; exact H].
Qed.

(** X11.  The label made from a key is as long as the key and holds no
    underscore; making a label from a label changes nothing. *)
Theorem label_idempotent (key : string) :
  String.length (VettingView.label key) = String.length key
  /\ includes "_" (VettingView.label key) = false
  /\ VettingView.label (VettingView.label key) = VettingView.label key.
Proof.
  unfold VettingView.label. split; [|split].
  - rewrite length_capitalizeWords. apply length_underscoresToSpaces.
  - apply capitalizeWords_no_underscore, underscoresToSpaces_none.
  - rewrite (no_underscore_fixed (VettingView.capitalizeWords false _)).
    + apply capitalizeWords_idempotent.
    + apply capitalizeWords_no_underscore, underscoresToSpaces_none.
Qed.

(** ** _layout.tsx: the Unit-CO mapping modal *)

Lemma Set_has_In (x : Z) (s : SubjectForms.NumberSet) :
  SubjectForms.Set_has x s = true <-> In x s.
Proof.
  unfold SubjectForms.Set_has. rewrite existsb_exists. split.
  - intros (y & Hin & Heq). apply Z.eqb_eq in Heq. now subst.
  - intros Hin. exists x. split; [exact Hin | apply Z.eqb_refl].
Qed.

Lemma Set_add_spec (x : Z) (s : SubjectForms.NumberSet) :
  NoDup s ->
  NoDup (SubjectForms.Set_add x s)
  /\ forall y, In y (SubjectForms.Set_add x s) <-> In y s \/ y = x.
Proof.
  intros Hs. unfold SubjectForms.Set_add.
  destruct (SubjectForms.Set_has x s) eqn:E.
  - apply Set_has_In in E. split; [exact Hs|].
    intros y. split; [auto | intros [H| ->]; assumption].
  - assert (Hx : ~ In x s).
    { intros Hin. apply Set_has_In in Hin. congruence. }
    split.
    + apply NoDup_app; [exact Hs | repeat constructor; intros [] |].
      intros y Hy [<-|[]]. contradiction.
    + intros y. rewrite in_app_iff. cbn. intuition congruence.
Qed.

Lemma Set_delete_spec (x : Z) (s : SubjectForms.NumberSet) :
  NoDup s ->
  NoDup (SubjectForms.Set_delete x s)
  /\ forall y, In y (SubjectForms.Set_delete x s) <-> In y s /\ y <> x.
Proof.
  intros Hs. unfold SubjectForms.Set_delete. split.
  - apply NoDup_filter. exact Hs.
  - intros y. rewrite filter_In. split; intros [Hin Hne]; (split; [exact Hin|]).
    + destruct (Z.eqb_spec y x); [discriminate | assumption].
    + destruct (Z.eqb_spec y x); [contradiction | reflexivity].
Qed.

Lemma Set_of_spec (items : list Z) :
  NoDup (SubjectForms.Set_of items)
  /\ forall y, In y (SubjectForms.Set_of items) <-> In y items.
Proof.
  unfold SubjectForms.Set_of.
  assert (G : forall s, NoDup s ->
            NoDup (fold_left (fun s x => SubjectForms.Set_add x s) items s)
            /\ forall y, In y (fold_left (fun s x => SubjectForms.Set_add x s) items s)
                         <-> In y s \/ In y items).
  { induction items as [|x items IH]; intros s Hs; cbn.
    - split; [exact Hs | intros y; tauto].
    - destruct (Set_add_spec x s Hs) as [Hnd Hin].
      destruct (IH _ Hnd) as [Hnd' Hin']. split; [exact Hnd'|].
      intros y. rewrite Hin', Hin. intuition congruence. }
  destruct (G [] (NoDup_nil _)) as [Hnd Hin]. split; [exact Hnd|].
  intros y. rewrite Hin. cbn. tauto.
Qed.

(** One press on a chip of the mapping modal. *)
Lemma toggleCOSelection_state (coId : Z) (store : MappingStore) :
  NoDup (SubjectForms.selectedCOs (React.state store)) ->
  let st' := React.state (fst (React.exec
               (SubjectForms.toggleCOSelection coId (React.state store)) store)) in
  NoDup (SubjectForms.selectedCOs st')
  /\ SubjectForms.activeUnitForMapping st'
     = SubjectForms.activeUnitForMapping (React.state store)
  /\ forall y, In y (SubjectForms.selectedCOs st')
               <-> (if Z.eq_dec coId y
                    then ~ In y (SubjectForms.selectedCOs (React.state store))
                    else In y (SubjectForms.selectedCOs (React.state store))).
Proof.
  intros Hnd. cbn.
  destruct (SubjectForms.Set_has coId (SubjectForms.selectedCOs (React.state store)))
    eqn:E.
  - apply Set_has_In in E. destruct (Set_delete_spec coId _ Hnd) as [H1 H2].
    split; [exact H1|]. split; [reflexivity|].
    intros y. rewrite H2. destruct (Z.eq_dec coId y) as [->|Hne]; intuition congruence.
  - assert (Hx : ~ In coId (SubjectForms.selectedCOs (React.state store))).
    { intros Hin. apply Set_has_In in Hin. congruence. }
    destruct (Set_add_spec coId _ Hnd) as [H1 H2].
    split; [exact H1|]. split; [reflexivity|].
    intros y. rewrite H2. destruct (Z.eq_dec coId y) as [->|Hne]; intuition congruence.
Qed.

Lemma toggles_state (chips : list Z) (store : MappingStore) :
  NoDup (SubjectForms.selectedCOs (React.state store)) ->
  let st' := React.state (renders (map SubjectForms.toggleCOSelection chips) store) in
  NoDup (SubjectForms.selectedCOs st')
  /\ SubjectForms.activeUnitForMapping st'
     = SubjectForms.activeUnitForMapping (React.state store)
  /\ forall y, In y (SubjectForms.selectedCOs st')
               <-> (if Nat.even (presses y chips)
                    then In y (SubjectForms.selectedCOs (React.state store))
                    else ~ In y (SubjectForms.selectedCOs (React.state store))).
Proof.
  revert store. induction chips as [|j chips IH]; intros store Hnd.
  - cbn. split; [exact Hnd|]. split; [reflexivity | intros y; reflexivity].
  - destruct (toggleCOSelection_state j store Hnd) as (H1 & H2 & H3).
    change (renders (map SubjectForms.toggleCOSelection (j :: chips)) store)
      with (renders (map SubjectForms.toggleCOSelection chips)
              (fst (React.exec (SubjectForms.toggleCOSelection j (React.state store))
                      store))).
    destruct (IH _ H1) as (I1 & I2 & I3). cbv zeta in *.
    split; [exact I1|]. split; [now rewrite I2|].
    intros y. specialize (I3 y). specialize (H3 y).
    unfold presses in *. cbn [count_occ].
    destruct (Z.eq_dec j y) as [->|Hne];
      [rewrite Nat.even_succ, <- Nat.negb_even|];
      destruct (Nat.even (count_occ Z.eq_dec chips y)); cbn [negb] in *;
      destruct (in_dec Z.eq_dec y (SubjectForms.selectedCOs (React.state store)));
      tauto.
Qed.

(** X12.  After the mapping modal is opened on a unit and any chips are
    pressed, Save Mapping sends the unit with the selected ids, and no id
    twice: an id is sent exactly when it was mapped and its chip was pressed
    an even number of times, or was not mapped and its chip was pressed an
    odd number of times. *)
Theorem mapping_sends_toggled_set
    (u : SubjectForms.Unit) (chips : list Z) (store : MappingStore) :
  let mapped := match SubjectForms.mapped_cos u with Some ids => ids | None => [] end in
  let final :=
    React.state
      (renders (map SubjectForms.toggleCOSelection chips)
         (fst (React.exec (SubjectForms.openMappingModal u) store))) in
  NoDup (SubjectForms.selectedCOs final)
  /\ (forall id, In id (SubjectForms.selectedCOs final)
                 <-> (if Nat.even (presses id chips) then In id mapped
                      else ~ In id mapped))
  /\ forall c, React.issues (SubjectForms.handleSaveMapping final) c
               <-> c = SubjectForms.updateUnitCOMapping (SubjectForms.unit_id u)
                         (SubjectForms.selectedCOs final).
Proof.
  intros mapped final.
  destruct (Set_of_spec mapped) as [Hnd Hin].
  destruct (toggles_state chips
              (fst (React.exec (SubjectForms.openMappingModal u) store)) Hnd)
    as (H1 & H2 & H3).
  fold final in H1, H2, H3. cbn in H2.
  split; [exact H1|]. split.
  - intros id. specialize (H3 id). cbn in H3. fold mapped in H3.
    specialize (Hin id). destruct (Nat.even (presses id chips)); tauto.
  - intros c. unfold SubjectForms.handleSaveMapping. rewrite H2. split.
    + intros H.
      apply issues_try_catch in H. destruct H as [H|[? H]]; [|no_issues H].
      apply issues_bind in H. destruct H as [H|[? H]]; [|no_issues H].
      apply issues_await in H. exact H.
    + intros ->. apply React.issues_here.
Qed.
(** ** _layout.tsx: the Course Outcome modal *)

(** X13.  handleCreateCO sends a request only when the code or the
    description is not blank and at least one Bloom's level is selected; the
    request is then updateCO for the outcome being edited when its id is
    truthy, and createCO for the subject otherwise, with the texts as typed.
    When both texts are blank, or no level is selected, it shows one alert
    and changes nothing else. *)
Theorem handleCreateCO_validates (numId : number) (st : SubjectForms.CoForm) :
  (forall c, React.issues (SubjectForms.handleCreateCO numId st) c ->
     (trim (SubjectForms.coCode st) <> "" \/ trim (SubjectForms.coText st) <> "")
     /\ SubjectForms.coBlooms st <> []
     /\ c = if truthy (SubjectForms.editingCoId st)
            then SubjectForms.updateCO (SubjectForms.editingCoId st)
                   (SubjectForms.coData st)
            else SubjectForms.createCO numId (SubjectForms.coData st))
  /\ (forall store : CoFormStore,
        (trim (SubjectForms.coCode st) = "" /\ trim (SubjectForms.coText st) = "")
        \/ SubjectForms.coBlooms st = [] ->
        exists msg,
          React.exec (SubjectForms.handleCreateCO numId st) store
          = (React.apply (React.Alert_alert "Error" msg) store,
             React.Finished (Resolved tt))).
Proof.
  unfold SubjectForms.handleCreateCO. split.
  - intros c H.
    destruct (String.eqb_spec (trim (SubjectForms.coCode st)) "") as [Hc|Hc];
      destruct (String.eqb_spec (trim (SubjectForms.coText st)) "") as [Ht|Ht];
      cbn [andb] in H; try solve [no_issues H].
    all: destruct (SubjectForms.coBlooms st) as [|b bs] eqn:Hb;
      cbn [List.length Nat.eqb] in H; [no_issues H|].
    all: split; [tauto|]; split; [discriminate|].
    all: apply issues_try_catch in H; destruct H as [H|[? H]]; [|no_issues H].
    all: apply issues_bind in H; destruct H as [H|[? H]]; [|no_issues H].
    all: destruct (truthy (SubjectForms.editingCoId st));
      apply issues_await in H; exact H.
  - intros store [[Hc Ht]|Hb].
    + rewrite Hc, Ht. eexists. reflexivity.
    + rewrite Hb.
      destruct ((trim (SubjectForms.coCode st) =? "")%string
                && (trim (SubjectForms.coText st) =? "")%string);
        eexists; reflexivity.
Qed.




(** ** _layout.tsx: the Add Unit and Add Topic modals *)

(** What [parseInt] reads: decimal digits after white space and a sign,
    hexadecimal digits after 0x, up to the first character that is no
    digit; an integer beyond 2^53 as the nearest double; NaN when there is
    no digit. *)
Example parseInt_reads :
  Generate.parseInt "12" = ofZ 12
  /\ Generate.parseInt "  -7 units" = ofZ (-7)
  /\ Generate.parseInt "+3.9" = ofZ 3
  /\ Generate.parseInt "1e3" = ofZ 1
  /\ Generate.parseInt "0x1A" = ofZ 26
  /\ Generate.parseInt "-0Xff" = ofZ (-255)
  /\ Generate.parseInt "9007199254740993" = ofZ 9007199254740992
  /\ Generate.parseInt "0x" = NaN
  /\ Generate.parseInt "" = NaN
  /\ Generate.parseInt "unit 4" = NaN.
Proof. repeat apply conj; vm_compute; reflexivity. Qed.

(** X15.  handleCreateUnit sends createUnit only when the name and the
    number are not blank, with the trimmed name and with what [parseInt]
    reads from the text of the number; handleCreateTopic sends createTopic only when the title is
    not blank and a unit is active, with the trimmed title.  Otherwise each
    of them returns without an alert and without any change. *)
Theorem unit_and_topic_need_names (numId : number) (st : SubjectForms.UnitForm) :
  (forall c, React.issues (SubjectForms.handleCreateUnit numId st) c ->
     trim (SubjectForms.unitName st) <> "" /\ trim (SubjectForms.unitNumber st) <> ""
     /\ c = SubjectForms.createUnit numId (trim (SubjectForms.unitName st))
              (Generate.parseInt (SubjectForms.unitNumber st)))
  /\ (forall store : UnitFormStore,
        trim (SubjectForms.unitName st) = "" \/ trim (SubjectForms.unitNumber st) = "" ->
        React.exec (SubjectForms.handleCreateUnit numId st) store
        = (store, React.Finished (Resolved tt)))
  /\ (forall c, React.issues (SubjectForms.handleCreateTopic st) c ->
        trim (SubjectForms.topicTitle st) <> ""
        /\ truthy (SubjectForms.activeUnitId st) = true
        /\ c = SubjectForms.createTopic (SubjectForms.activeUnitId st)
                 (trim (SubjectForms.topicTitle st)))
  /\ (forall store : UnitFormStore,
        trim (SubjectForms.topicTitle st) = ""
        \/ truthy (SubjectForms.activeUnitId st) = false ->
        React.exec (SubjectForms.handleCreateTopic st) store
        = (store, React.Finished (Resolved tt))).
Proof.
  unfold SubjectForms.handleCreateUnit, SubjectForms.handleCreateTopic.
  split; [|split; [|split]].
  - intros c H.
    destruct (String.eqb_spec (trim (SubjectForms.unitName st)) "") as [Hn|Hn];
      destruct (String.eqb_spec (trim (SubjectForms.unitNumber st)) "") as [Hu|Hu];
      cbn [orb] in H; try solve [no_issues H].
    split; [exact Hn|]. split; [exact Hu|].
    apply issues_try_catch in H. destruct H as [H|[? H]]; [|no_issues H].
    apply issues_bind in H. destruct H as [H|[? H]]; [|no_issues H].
    apply issues_await in H. exact H.
  - intros store [H|H]; rewrite H; [reflexivity|].
    destruct (trim (SubjectForms.unitName st) =? "")%string; reflexivity.
  - intros c H.
    destruct (String.eqb_spec (trim (SubjectForms.topicTitle st)) "") as [Hn|Hn];
      destruct (truthy (SubjectForms.activeUnitId st)) eqn:Hu;
      cbn [orb negb] in H; try solve [no_issues H].
    split; [exact Hn|]. split; [reflexivity|].
    apply issues_try_catch in H. destruct H as [H|[? H]]; [|no_issues H].
    apply issues_bind in H. destruct H as [H|[? H]]; [|no_issues H].
    apply issues_await in H. exact H.
  - intros store [H|H]; rewrite H; [reflexivity|].
    destruct (trim (SubjectForms.topicTitle st) =? "")%string; reflexivity.
Qed.

(** ** _layout.tsx: the Bloom's Taxonomy modal *)

(** X16.  With a topic open, handleSaveSyllabus sends one request and changes
    nothing until it settles.  When it resolves, the modal is closed, the
    subject is fetched again and a Success alert is shown.  When it is
    rejected, the only effect is an Error alert: the modal stays open with
    the weights as the user set them.  With no topic open the handler does
    nothing. *)
Theorem handleSaveSyllabus_outcomes
    (st : SubjectDetail.State) (store : SubjectDetailStore) :
  (SubjectDetail.activeTopicForSyllabus st = None ->
     React.exec (SubjectDetail.handleSaveSyllabus st) store
     = (store, React.Finished (Resolved tt)))
  /\ (forall topic, SubjectDetail.activeTopicForSyllabus st = Some topic ->
        exists store1 c k,
          React.exec (SubjectDetail.handleSaveSyllabus st) store
          = (store1, React.Waiting c k)
          /\ React.state store1 = React.state store
          /\ React.log store1 = (React.log store ++ [React.Called c])%list
          /\ (forall v, exists store2,
                React.exec (k (Resolved v)) store1
                = (store2, React.Finished (Resolved tt))
                /\ React.state store2
                   = SubjectDetail.setSyllabusModal false (React.state store)
                /\ React.log store2
                   = (React.log store1
                      ++ [React.Started SubjectDetail.fetchAll;
                          React.Alerted "Success" "Bloom's taxonomy saved"])%list)
          /\ (forall e, exists store2,
                React.exec (k (Rejected e)) store1
                = (store2, React.Finished (Resolved tt))
                /\ React.state store2 = React.state store
                /\ React.log store2
                   = (React.log store1
                      ++ [React.Alerted "Error" "Failed to save"])%list)).
Proof.
  unfold SubjectDetail.handleSaveSyllabus. split.
  - intros ->. reflexivity.
  - intros topic ->. eexists _, _, _. split; [reflexivity|].
    split; [reflexivity|]. split; [reflexivity|].
    split; [intros v | intros e]; eexists; (split; [reflexivity|]);
      cbn; rewrite <- ?app_assoc; split; reflexivity.
Qed.

Lemma weightOf_setWeight (level l : string) (val : number)
    (d : SubjectDetail.Distribution) :
  weightOf l (SubjectDetail.setWeight level val d)
  = if (l =? level)%string then Some val else weightOf l d.
Proof.
  induction d as [|[k w] d IH]; cbn.
  - rewrite (String.eqb_sym level l). destruct (l =? level)%string; reflexivity.
  - destruct (String.eqb_spec k level) as [->|Hk]; cbn.
    + rewrite (String.eqb_sym level l). destruct (l =? level)%string; reflexivity.
    + rewrite IH. destruct (String.eqb_spec k l) as [->|Hkl]; [|reflexivity].
      destruct (String.eqb_spec l level); [congruence | reflexivity].
Qed.

Lemma keys_setWeight (level : string) (val : number) (d : SubjectDetail.Distribution) :
  weightOf level d <> None ->
  map fst (SubjectDetail.setWeight level val d) = map fst d.
Proof.
  induction d as [|[k w] d IH]; cbn; [congruence|].
  destruct (String.eqb_spec k level) as [->|Hk]; cbn; [reflexivity|].
  intros H. now rewrite IH.
Qed.

(** X17.  Moving the slider of a level sets the weight of that level to the
    new value and leaves every other weight as it was; for a level the
    distribution has, the levels and their order do not change.  Opening the
    modal on a topic shows the distribution of the topic, and the six
    default weights when the topic has none. *)
Theorem slider_sets_one_weight
    (level : string) (val : number) (store : SubjectDetailStore) :
  let d := SubjectDetail.bloomDistribution (React.state store) in
  let d' := SubjectDetail.bloomDistribution
              (React.state (fst (React.exec (SubjectDetail.onValueChange level val)
                                   store))) in
  weightOf level d' = Some val
  /\ (forall l, l <> level -> weightOf l d' = weightOf l d)
  /\ (weightOf level d <> None -> map fst d' = map fst d)
  /\ forall topic,
       SubjectDetail.bloomDistribution
         (React.state (fst (React.exec (SubjectDetail.openSyllabusModal topic) store)))
       = match SubjectDetail.bloom_distribution topic with
         | Some d0 => d0
         | None => SubjectDetail.defaultDistribution
         end.
Proof.
  cbn. split; [|split; [|split]].
  - rewrite weightOf_setWeight, String.eqb_refl. reflexivity.
  - intros l Hl. rewrite weightOf_setWeight.
    destruct (String.eqb_spec l level); [contradiction | reflexivity].
  - apply keys_setWeight.
  - intros topic. reflexivity.
Qed.

(** ** generate.tsx: a start that fails, a poll that fails *)

(** X18.  When the request of handleGenerate is rejected, or resolves with
    null, the handler shows the alert Failed to start generation and does
    nothing else: no interval is registered, the refs and the state (so the
    view) stay as they were. *)
Theorem handleGenerate_failed_start
    (st : Generate.State) (store store1 : Generate.Store)
    (c : Generate.call) (k : outcome value -> Generate.handler unit)
    (o : outcome value) :
  React.exec (Generate.handleGenerate st) store = (store1, React.Waiting c k) ->
  (exists e, o = Rejected e) \/ o = Resolved VNull \/ o = Resolved VUndefined ->
  React.exec (k o) store1
  = (React.apply (React.Alert_alert "Error" "Failed to start generation") store1,
     React.Finished (Resolved tt))
  /\ React.state store1 = React.state store
  /\ React.timers store1 = React.timers store
  /\ React.refs store1 = React.refs store.
Proof.
  unfold Generate.handleGenerate. intros H Ho.
  destruct (truthy (Generate.selectedRubric st)); cbn [negb] in H; [|discriminate H].
  destruct (truthy (Generate.selectedSubject st)); cbn [negb] in H; [|discriminate H].
  cbn in H. injection H as <- <- <-.
  destruct Ho as [[e ->]|[->| ->]]; repeat split.
Qed.

Lemma handleGenerate_failed_start_witness :
  exists store1 c k,
    React.exec (Generate.handleGenerate SelectionExamples.readyState)
      SelectionExamples.ready = (store1, React.Waiting c k)
    /\ React.exec (k (Rejected ReviewExamples.offline)) store1
       = (React.apply (React.Alert_alert "Error" "Failed to start generation") store1,
          React.Finished (Resolved tt))
    /\ React.timers store1 = [].
Proof.
  eexists _, _, _. split; [reflexivity|].
  destruct (handleGenerate_failed_start SelectionExamples.readyState
              SelectionExamples.ready _ _ _ (Rejected ReviewExamples.offline) eq_refl
              (or_introl (ex_intro _ ReviewExamples.offline eq_refl)))
    as (Hexec & _ & Htimers & _).
  split; [exact Hexec | exact Htimers].
Defined.

(** X19.  A tick of the poll interval sends one pollJob for its job.  However
    that request settles, the callback finishes without throwing, shows no
    alert and registers no interval; when the request is rejected, nothing
    at all changes, so the interval stays registered and polls again. *)
Theorem poll_failure_is_silent
    (job_id : value) (store : Generate.Store) (o : outcome value) :
  exists store1 k,
    React.exec (Generate.pollBody job_id) store
    = (store1, React.Waiting (Generate.pollJob job_id) k)
    /\ React.timers store1 = React.timers store
    /\ (exists store2,
          React.exec (k o) store1 = (store2, React.Finished (Resolved tt))
          /\ React.log store2 = React.log store1
          /\ (forall t, In t (React.timers store2) -> In t (React.timers store1))
          /\ ((exists e, o = Rejected e) -> store2 = store1)).
Proof.
  eexists _, _. split; [reflexivity|]. split; [reflexivity|].
  destruct o as [job|e].
  - destruct store as [s [[p|] [tr|]] ts n l].
    all: destruct job; cbn;
      try (eexists; split; [reflexivity|]; cbn;
           split; [reflexivity|]; split; [auto|];
           intros [e He]; discriminate He).
    all: destruct (Generate.isString (lookupField "status" fields) "completed"); cbn;
      [|destruct (Generate.isString (lookupField "status" fields) "failed"); cbn].
    all: eexists; (split; [reflexivity|]); cbn;
      (split; [reflexivity|]); (split; [|intros [e He]; discriminate He]).
    all: intros t Ht; unfold React.remove_timer in Ht;
      repeat (apply filter_In in Ht; destruct Ht as [Ht _]); exact Ht.
  - destruct store as [s r ts n l]. cbn. eexists. split; [reflexivity|].
    split; [reflexivity|]. split; [auto | reflexivity].
Qed.

(** ** generate.tsx: fetchData *)

(** X20.  However its requests settle, fetchData ends with loading false,
    shows no alert and does not throw.  When getRubrics or getSubjects is
    rejected, the lists and the Ollama status stay as they were.  When only
    getOllamaStatus is rejected, the lists are set and the status is the
    fallback that is not available, so Generate Questions is disabled. *)
Theorem fetchData_settles (store : Generate.Store) (rubs subjs ollama : outcome value) :
  exists store1 k store2,
    React.exec Generate.fetchDataBody store = (store1, React.Waiting Generate.loadAll k)
    /\ React.exec (k (GenerateView.loadAllSettles rubs subjs ollama)) store1
       = (store2, React.Finished (Resolved tt))
    /\ Generate.loading (React.state store2) = false
    /\ alertsIn (React.log store2) = alertsIn (React.log store)
    /\ ((exists e, rubs = Rejected e) \/ (exists e, subjs = Rejected e) ->
          React.state store2 = Generate.setLoading false (React.state store))
    /\ (forall r s, rubs = Resolved r -> subjs = Resolved s ->
          Generate.rubrics (React.state store2) = r
          /\ Generate.subjects (React.state store2) = s
          /\ (forall v, ollama = Resolved v ->
                Generate.ollamaStatus (React.state store2) = v)
          /\ ((exists e, ollama = Rejected e) ->
                Generate.generateDisabled (React.state store2) = true)).
Proof.
  assert (Halerts : forall l : list (React.event Generate.call Generate.task),
            alertsIn (l ++ [React.Called Generate.loadAll]) = alertsIn l).
  { induction l as [|[title msg|c|t] l IH]; cbn; congruence. }
  destruct store as [s r ts n l].
  destruct rubs as [rv|re]; [destruct subjs as [sv|se]|];
    (eexists _, _, _; split; [reflexivity|]); cbn.
  - split; [reflexivity|]. cbn. split; [reflexivity|]. split; [apply Halerts|].
    split; [intros [[e He]|[e He]]; discriminate He|].
    intros r0 s0 Hr Hs. injection Hr as <-. injection Hs as <-.
    split; [reflexivity|]. split; [reflexivity|]. split.
    + intros v ->. reflexivity.
    + intros [e ->]. unfold Generate.generateDisabled. cbn.
      rewrite !orb_true_r. reflexivity.
  - split; [reflexivity|]. cbn. split; [reflexivity|]. split; [apply Halerts|].
    split; [reflexivity|]. intros r0 s0 _ Hs. discriminate Hs.
  - split; [reflexivity|]. cbn. split; [reflexivity|]. split; [apply Halerts|].
    split; [reflexivity|]. intros r0 s0 Hr. discriminate Hr.
Qed.

(** ** generate.tsx: getStatusText *)

Lemma numLt_below (p q : number) (z1 z2 : Z) :
  z1 <= z2 -> numLe p q = true -> numLt q (ofZ z1) = true -> numLt p (ofZ z2) = true.
Proof.
  intros Hz Hle Hq.
  destruct p as [|[|]|x], q as [|[|]|y]; cbn in *; try discriminate; try reflexivity.
  rewrite negb_involutive in Hle. apply Qle_bool_iff in Hle.
  apply negb_true_iff in Hq. apply negb_true_iff.
  destruct (Qle_bool (inject_Z z2) x) eqn:E; [|reflexivity].
  apply Qle_bool_iff in E.
  assert (Hy : Qle_bool (inject_Z z1) y = true).
  { apply Qle_bool_iff. eapply Qle_trans; [rewrite <- Zle_Qle; exact Hz|].
    eapply Qle_trans; [exact E | exact Hle]. }
  congruence.
Qed.

(** X21.  The status line follows the progress: it is Complete! exactly when
    the progress is not below 100 (so also when the progress is NaN), and
    when the progress grows the line never goes back to an earlier stage. *)
Theorem getStatusText_follows_progress (p q : number) :
  (GenerateView.getStatusText p = "Complete!" <-> numLt p (ofZ 100) = false)
  /\ GenerateView.getStatusText NaN = "Complete!"
  /\ (numLe p q = true ->
        (stageOf (GenerateView.getStatusText p)
         <= stageOf (GenerateView.getStatusText q))%nat).
Proof.
  split; [|split; [reflexivity|]].
  - unfold GenerateView.getStatusText.
    destruct (numLt p (ofZ 100)) eqn:H100.
    + split; [|discriminate].
      destruct (numLt p (ofZ 10)); [discriminate|].
      destruct (numLt p (ofZ 30)); [discriminate|].
      destruct (numLt p (ofZ 50)); [discriminate|].
      destruct (numLt p (ofZ 80)); discriminate.
    + split; [reflexivity|]. intros _.
      assert (Hb : forall z, z <= 100 -> numLt p (ofZ z) = false).
      { intros z Hz. destruct (numLt p (ofZ z)) eqn:E; [|reflexivity].
        destruct p as [|[|]|x]; cbn in *; try discriminate.
        apply negb_true_iff in E. apply negb_false_iff in H100.
        apply Qle_bool_iff in H100.
        assert (Hx : Qle_bool (inject_Z z) x = true).
        { apply Qle_bool_iff. eapply Qle_trans; [|exact H100].
          rewrite <- Zle_Qle. exact Hz. }
        congruence. }
      rewrite !Hb by lia. reflexivity.
  - intros Hle. unfold GenerateView.getStatusText.
    pose proof (fun z1 z2 Hz => numLt_below p q z1 z2 Hz Hle) as Hmono.
    destruct (numLt q (ofZ 10)) eqn:Q10.
    { rewrite (Hmono 10 10) by (lia || assumption). cbn. lia. }
    destruct (numLt q (ofZ 30)) eqn:Q30.
    { rewrite (Hmono 30 30) by (lia || assumption).
      destruct (numLt p (ofZ 10)); cbn; lia. }
    destruct (numLt q (ofZ 50)) eqn:Q50.
    { rewrite (Hmono 50 50) by (lia || assumption).
      destruct (numLt p (ofZ 10)); [cbn; lia|].
      destruct (numLt p (ofZ 30)); cbn; lia. }
    destruct (numLt q (ofZ 80)) eqn:Q80.
    { rewrite (Hmono 80 80) by (lia || assumption).
      destruct (numLt p (ofZ 10)); [cbn; lia|].
      destruct (numLt p (ofZ 30)); [cbn; lia|].
      destruct (numLt p (ofZ 50)); cbn; lia. }
    destruct (numLt q (ofZ 100)) eqn:Q100.
    { rewrite (Hmono 100 100) by (lia || assumption).
      destruct (numLt p (ofZ 10)); [cbn; lia|].
      destruct (numLt p (ofZ 30)); [cbn; lia|].
      destruct (numLt p (ofZ 50)); [cbn; lia|].
      destruct (numLt p (ofZ 80)); cbn; lia. }
    destruct (numLt p (ofZ 10)); [cbn; lia|].
    destruct (numLt p (ofZ 30)); [cbn; lia|].
    destruct (numLt p (ofZ 50)); [cbn; lia|].
    destruct (numLt p (ofZ 80)); [cbn; lia|].
    destruct (numLt p (ofZ 100)); cbn; lia.
Qed.
(** ** generate.tsx: the subject chips and the rubric cards *)

(** X22.  A press on a subject chip or a rubric card whose id is a defined
    primitive selects it when nothing is selected and when another one is,
    and clears the selection when it is the selected one.  An item without
    an id cannot be selected while nothing is selected. *)
Theorem selection_chips_toggle
    (s : value) (st : Generate.State) (store : Generate.Store) :
  React.state store = st ->
  Generate.strictEquals (get s "id") (get s "id") = true ->
  get s "id" <> VUndefined ->
  (Generate.selectedSubject st = VNull ->
     Generate.selectedSubject (generateAfter (Generate.pressSubject s st) store) = s)
  /\ (Generate.strictEquals (Generate.optId (Generate.selectedSubject st)) (get s "id")
      = false ->
      Generate.selectedSubject (generateAfter (Generate.pressSubject s st) store) = s)
  /\ (Generate.selectedSubject st = s ->
        Generate.selectedSubject (generateAfter (Generate.pressSubject s st) store)
        = VNull)
  /\ (Generate.selectedRubric st = VNull ->
        Generate.selectedRubric (generateAfter (Generate.pressRubric s st) store) = s)
  /\ (Generate.strictEquals (Generate.optId (Generate.selectedRubric st)) (get s "id")
      = false ->
      Generate.selectedRubric (generateAfter (Generate.pressRubric s st) store) = s)
  /\ (Generate.selectedRubric st = s ->
        Generate.selectedRubric (generateAfter (Generate.pressRubric s st) store)
        = VNull)
  /\ forall x : value,
       get x "id" = VUndefined ->
       (Generate.selectedSubject st = VNull ->
          Generate.selectedSubject (generateAfter (Generate.pressSubject x st) store)
          = VNull)
       /\ (Generate.selectedRubric st = VNull ->
             Generate.selectedRubric (generateAfter (Generate.pressRubric x st) store)
             = VNull).
Proof.
  intros Hst Hid Hdef. subst st.
  assert (Hsub : forall x,
            Generate.selectedSubject
              (generateAfter (Generate.pressSubject x (React.state store)) store)
            = if Generate.strictEquals
                   (Generate.optId (Generate.selectedSubject (React.state store)))
                   (get x "id")
              then VNull else x) by reflexivity.
  assert (Hrub : forall x,
            Generate.selectedRubric
              (generateAfter (Generate.pressRubric x (React.state store)) store)
            = if Generate.strictEquals
                   (Generate.optId (Generate.selectedRubric (React.state store)))
                   (get x "id")
              then VNull else x) by reflexivity.
  assert (Hopt : Generate.optId s = get s "id").
  { destruct s; try reflexivity; cbn in Hdef; contradiction. }
  assert (Hundef : Generate.strictEquals (Generate.optId VNull) (get s "id") = false).
  { cbn [Generate.optId]. destruct (get s "id"); try reflexivity. contradiction. }
  rewrite !Hsub, !Hrub. repeat apply conj.
  - intros ->. rewrite Hundef. reflexivity.
  - intros ->. reflexivity.
  - intros ->. rewrite Hopt, Hid. reflexivity.
  - intros ->. rewrite Hundef. reflexivity.
  - intros ->. reflexivity.
  - intros ->. rewrite Hopt, Hid. reflexivity.
  - intros x Hx.
    split; intros Hs; [rewrite Hsub | rewrite Hrub]; rewrite Hs, Hx; reflexivity.
Qed.

Lemma selection_chips_toggle_witness :
  Generate.selectedSubject
    (generateAfter (Generate.pressSubject (GenerateExamples.withId 2)
                      Generate.initialState) SelectionExamples.fresh)
  = GenerateExamples.withId 2
  /\ Generate.selectedSubject
       (generateAfter (Generate.pressSubject (GenerateExamples.withId 2)
                         SelectionExamples.readyState) SelectionExamples.ready)
     = VNull.
Proof.
  assert (Hdef : get (GenerateExamples.withId 2) "id" <> VUndefined) by discriminate.
  split.
  - destruct (selection_chips_toggle (GenerateExamples.withId 2) Generate.initialState
                SelectionExamples.fresh eq_refl eq_refl Hdef) as (Hnone & _).
    apply Hnone. reflexivity.
  - destruct (selection_chips_toggle (GenerateExamples.withId 2)
                SelectionExamples.readyState SelectionExamples.ready
                eq_refl eq_refl Hdef) as (_ & _ & Hsame & _).
    apply Hsame. reflexivity.
Defined.

(** ** TrainingDashboard: Start Training and View Skill *)

(** X25.  handleStartTraining disables its button before it sends
    startTraining, and enables it again however the requests settle.  It
    loads the data again only after startTraining has resolved; a rejected
    startTraining shows one Error alert with the message of the rejection,
    or Failed to start training when that is empty, and loads nothing.  A
    failure while loading is not alerted. *)
Theorem handleStartTraining_settles
    (subjectId : Z)
    (store : React.store TrainingView.State unit TrainingView.call Empty_set Empty_set)
    (o : outcome value) :
  exists store1 k,
    React.exec (TrainingView.handleStartTraining subjectId) store
    = (store1, React.Waiting (TrainingView.startTraining subjectId) k)
    /\ TrainingView.startDisabled (React.state store1) = true
    /\ (forall e, exists store2,
          React.exec (k (Rejected e)) store1 = (store2, React.Finished (Resolved tt))
          /\ React.state store2 = TrainingView.setStarting false (React.state store)
          /\ React.log store2
             = (React.log store1
                ++ [React.Alerted "Error"
                      (if (message e =? "")%string then "Failed to start training"
                       else message e)])%list)
    /\ (forall v, exists store2 k2,
          React.exec (k (Resolved v)) store1
          = (store2, React.Waiting (TrainingView.loadBoth subjectId) k2)
          /\ TrainingView.startDisabled (React.state store2) = true
          /\ exists store3,
               React.exec (k2 o) store2 = (store3, React.Finished (Resolved tt))
               /\ TrainingView.starting (React.state store3) = false
               /\ TrainingView.loading (React.state store3) = false
               /\ alertsIn (React.log store3) = alertsIn (React.log store)).
Proof.
  assert (Halerts : forall (l : list (React.event TrainingView.call Empty_set)) c c',
            alertsIn ((l ++ [React.Called c]) ++ [React.Called c']) = alertsIn l).
  { induction l as [|[title msg|c0|t] l IH]; intros c c'; cbn;
      try rewrite IH; reflexivity. }
  eexists _, _. split; [reflexivity|]. split; [reflexivity|]. split.
  - intros e. eexists. split; [reflexivity|]. cbn. split; reflexivity.
  - intros v. eexists _, _. split; [reflexivity|]. split; [reflexivity|].
    destruct o as [[| | | | |[|a [|b [|? ?]]]|]|e];
      eexists; (split; [reflexivity|]); cbn;
      (split; [reflexivity|]); (split; [reflexivity|]); apply Halerts.
Qed.

(** X26.  handleViewSkill opens the skill modal only when the request
    resolved with a truthy value, and then with the skill_content of that
    value; a falsy value gives the alert No skill content found and a
    rejection the alert Failed to load skill, and in both cases the modal
    and its content stay as they were. *)
Theorem handleViewSkill_opens_on_content
    (subjectId : Z)
    (store : React.store TrainingView.State unit TrainingView.call Empty_set Empty_set)
    (o : outcome value) :
  exists store1 k store2,
    React.exec (TrainingView.handleViewSkill subjectId) store
    = (store1, React.Waiting (TrainingView.getSkillContent subjectId) k)
    /\ React.state store1 = React.state store
    /\ React.exec (k o) store1 = (store2, React.Finished (Resolved tt))
    /\ match o with
       | Resolved skill =>
           if truthy skill then
             React.state store2
             = TrainingView.setSkillModal true
                 (TrainingView.setSkillContent (get skill "skill_content")
                    (React.state store))
             /\ alertsIn (React.log store2) = alertsIn (React.log store)
           else
             React.state store2 = React.state store
             /\ alertsIn (React.log store2)
                = (alertsIn (React.log store) ++ [("Info", "No skill content found.")])%list
       | Rejected _ =>
           React.state store2 = React.state store
           /\ alertsIn (React.log store2)
              = (alertsIn (React.log store) ++ [("Error", "Failed to load skill")])%list
       end.
Proof.
  assert (Halerts : forall (l : list (React.event TrainingView.call Empty_set)) c,
            alertsIn (l ++ [React.Called c]) = alertsIn l).
  { induction l as [|[title msg|c0|t] l IH]; intros c; cbn;
      try rewrite IH; reflexivity. }
  assert (Halert : forall (l : list (React.event TrainingView.call Empty_set)) c a b,
            alertsIn ((l ++ [React.Called c]) ++ [React.Alerted a b])
            = (alertsIn l ++ [(a, b)])%list).
  { induction l as [|[title msg|c0|t] l IH]; intros c a b; cbn;
      try rewrite IH; reflexivity. }
  destruct o as [skill|e].
  - destruct (truthy skill) eqn:Hs.
    + eexists _, _, _. split; [reflexivity|]. split; [reflexivity|].
      cbn. rewrite Hs. cbn. split; [reflexivity|]. cbn.
      split; [reflexivity | apply Halerts].
    + eexists _, _, _. split; [reflexivity|]. split; [reflexivity|].
      cbn. rewrite Hs. cbn. split; [reflexivity|]. cbn.
      split; [reflexivity | apply Halert].
  - eexists _, _, _. split; [reflexivity|]. split; [reflexivity|].
    cbn. split; [reflexivity|]. cbn. split; [reflexivity | apply Halert].
Qed.
(** ** The elapsed texts of the Generate screen and of the dashboard *)

Lemma length_append (a b : string) :
  String.length (a ++ b) = (String.length a + String.length b)%nat.
Proof. induction a as [|x a IH]; cbn; [reflexivity | now rewrite IH]. Qed.

Lemma append_inj_tail (a b c d : string) :
  a ++ c = b ++ d -> String.length c = String.length d -> a = b /\ c = d.
Proof.
  revert b. induction a as [|x a IH]; intros [|y b] H Hlen; cbn in H.
  - split; [reflexivity | exact H].
  - exfalso. rewrite H in Hlen. cbn in Hlen. rewrite length_append in Hlen. lia.
  - exfalso. rewrite <- H in Hlen. cbn in Hlen. rewrite length_append in Hlen. lia.
  - injection H as -> H. destruct (IH _ H Hlen) as [-> ->]. split; reflexivity.
Qed.

Lemma readNumber_decimal (z : Z) : readNumber (decimal z) = Some z.
Proof.
  unfold readNumber, decimal. rewrite NilZero.isi.
  - cbn. now rewrite DecimalZ.of_to.
  - destruct z; cbn; try discriminate.
    intros H. injection H as H. exact (Unsigned.to_uint_nonnil _ H).
  - destruct z; cbn; try discriminate.
    intros H. injection H as H. exact (Unsigned.to_uint_nonnil _ H).
Qed.

Lemma readNumber_zero_prefix (z : Z) :
  0 <= z -> readNumber (String "0" (decimal z)) = Some z.
Proof.
  intros Hz. pose proof (readNumber_decimal z) as H.
  unfold readNumber in *. cbn [NilZero.int_of_string NilZero.uint_of_string].
  change (Ascii.eqb "0" "-") with false. cbv iota.
  cbn [NilEmpty.uint_of_string].
  destruct (decimal z) as [|a s] eqn:E; [cbn in H; discriminate H|].
  cbn [NilZero.int_of_string] in H.
  destruct (Ascii.eqb a "-") eqn:Ha.
  - (* a negative text denotes no positive number *)
    destruct (NilZero.uint_of_string s) as [u|]; [|discriminate H].
    cbn in H. injection H as H. unfold Z.of_uint in H.
    assert (Hz0 : z = 0) by lia. rewrite Hz0 in E. vm_compute in E.
    injection E as <- _. discriminate Ha.
  - cbn [NilZero.uint_of_string] in H.
    destruct (NilEmpty.uint_of_string (String a s)) as [u|]; [|discriminate H].
    cbn in H. injection H as H. cbn. f_equal. exact H.
Qed.

Lemma padStart0_decimal (z : Z) :
  0 <= z -> readNumber (GenerateView.padStart0 2 (decimal z)) = Some z.
Proof.
  intros Hz. unfold GenerateView.padStart0.
  pose proof (readNumber_decimal z) as H.
  destruct (decimal z) as [|a [|b s]] eqn:E.
  - cbn in H. discriminate H.
  - cbn. rewrite <- E. apply readNumber_zero_prefix. exact Hz.
  - cbn. exact H.
Qed.

Lemma seconds_two_digits (r : Z) :
  0 <= r < 60 -> String.length (GenerateView.padStart0 2 (decimal r)) = 2%nat.
Proof.
  intros Hr.
  assert (G : forall n, (n < 60)%nat ->
            String.length (GenerateView.padStart0 2 (decimal (Z.of_nat n))) = 2%nat).
  { intros n Hn. do 60 (destruct n as [|n]; [reflexivity|]). lia. }
  rewrite <- (Z2Nat.id r) by lia. apply G. lia.
Qed.

(** X24.  For a clock that has counted a whole number of seconds, both
    elapsed texts show the minutes, a colon and the seconds in two digits:
    read back as numbers, the two fields give the count again, so two
    different counts never show the same text.  The dashboard also pads the
    minutes to two digits. *)
Theorem elapsed_texts_read_back (secs : Z) :
  0 <= secs ->
  (exists m s,
     GenerateView.elapsedText secs = m ++ ":" ++ s
     /\ String.length s = 2%nat
     /\ readNumber m = Some (secs / 60) /\ readNumber s = Some (Z.rem secs 60)
     /\ 60 * (secs / 60) + Z.rem secs 60 = secs)
  /\ (exists m s,
        TrainingView.formatElapsed secs = m ++ ":" ++ s
        /\ String.length s = 2%nat /\ (2 <= String.length m)%nat
        /\ readNumber m = Some (secs / 60) /\ readNumber s = Some (Z.rem secs 60))
  /\ (forall other, 0 <= other ->
        (GenerateView.elapsedText other = GenerateView.elapsedText secs
         -> other = secs)
        /\ (TrainingView.formatElapsed other = TrainingView.formatElapsed secs
            -> other = secs)).
Proof.
  intros Hs.
  assert (Hrem : forall z, 0 <= z -> 0 <= Z.rem z 60 < 60 /\ Z.rem z 60 = z mod 60).
  { intros z Hz. rewrite Z.rem_mod_nonneg by lia. split; [|reflexivity].
    apply Z.mod_pos_bound. lia. }
  assert (Hdiv : forall z, 0 <= z -> 0 <= z / 60) by (intros; apply Z.div_pos; lia).
  assert (Hsplit : forall z, 0 <= z -> 60 * (z / 60) + Z.rem z 60 = z).
  { intros z Hz. destruct (Hrem z Hz) as [_ ->]. symmetry. apply Z.div_mod. lia. }
  assert (Hlen2 : forall z, 0 <= z ->
            (2 <= String.length (GenerateView.padStart0 2 (decimal z)))%nat).
  { intros z Hz. unfold GenerateView.padStart0.
    destruct (decimal z) as [|a [|b s]]; cbn; lia. }
  split; [|split].
  - eexists _, _. split; [reflexivity|].
    split; [apply seconds_two_digits, Hrem, Hs|].
    split; [apply readNumber_decimal|].
    split; [apply padStart0_decimal, Hrem, Hs | apply Hsplit, Hs].
  - eexists _, _. split; [reflexivity|].
    split; [apply seconds_two_digits, Hrem, Hs|].
    split; [apply Hlen2, Hdiv, Hs|].
    split; [apply padStart0_decimal, Hdiv, Hs | apply padStart0_decimal, Hrem, Hs].
  - intros other Ho.
    assert (Hback : forall m1 s1 m2 s2 : string,
              m1 ++ ":" ++ s1 = m2 ++ ":" ++ s2 ->
              String.length s1 = 2%nat -> String.length s2 = 2%nat ->
              readNumber m1 = Some (other / 60) ->
              readNumber s1 = Some (Z.rem other 60) ->
              readNumber m2 = Some (secs / 60) ->
              readNumber s2 = Some (Z.rem secs 60) -> other = secs).
    { intros m1 s1 m2 s2 Heq L1 L2 R1 R2 R3 R4.
      apply append_inj_tail in Heq; [|cbn; congruence].
      destruct Heq as [-> Heq]. injection Heq as ->.
      rewrite <- (Hsplit other Ho), <- (Hsplit secs Hs). congruence. }
    split; intros Heq.
    + apply (Hback _ _ _ _ Heq);
        first [ apply seconds_two_digits, Hrem; assumption
              | apply readNumber_decimal
              | apply padStart0_decimal, Hrem; assumption ].
    + apply (Hback _ _ _ _ Heq);
        first [ apply seconds_two_digits, Hrem; assumption
              | apply padStart0_decimal, Hdiv; assumption
              | apply padStart0_decimal, Hrem; assumption ].
Qed.

Lemma elapsed_texts_read_back_witness :
  GenerateView.elapsedText 125 = "2:05"
  /\ TrainingView.formatElapsed 125 = "02:05"
  /\ forall other, 0 <= other ->
       TrainingView.formatElapsed other = "02:05" -> other = 125.
Proof.
  split; [reflexivity|]. split; [reflexivity|].
  intros other Ho Heq.
  assert (H125 : 0 <= 125) by lia.
  destruct (elapsed_texts_read_back 125 H125) as (_ & _ & Hinj).
  apply (proj2 (Hinj other Ho)). exact Heq.
Defined.

(** ** generate.tsx: the difficulty chips *)

Lemma oblivious_bind {A B} (m : Generate.handler A) (f : A -> Generate.handler B) :
  oblivious m -> (forall a, oblivious (f a)) -> oblivious (React.bind m f).
Proof.
  intros Hm Hf. induction m as [a|e|e k IH|k IH|c k IH|cb ms k IH]; cbn in *.
  - apply Hf.
  - exact I.
  - destruct Hm as [He Hk]. split; [exact He | apply IH; exact Hk].
  - intros r. apply IH, Hm.
  - intros o. apply IH, Hm.
  - intros id. apply IH, Hm.
Qed.

Lemma oblivious_try_catch {A} (m : Generate.handler A)
    (h : error -> Generate.handler A) :
  oblivious m -> (forall e, oblivious (h e)) -> oblivious (React.try_catch m h).
Proof.
  intros Hm Hh. induction m as [a|e|e k IH|k IH|c k IH|cb ms k IH]; cbn in *.
  - exact I.
  - apply Hh.
  - destruct Hm as [He Hk]. split; [exact He | apply IH; exact Hk].
  - intros r. apply IH, Hm.
  - intros o. apply IH, Hm.
  - intros id. apply IH, Hm.
Qed.

Lemma oblivious_try_finally {A} (m : Generate.handler A)
    (cleanup : Generate.handler unit) :
  oblivious m -> oblivious cleanup -> oblivious (React.try_finally m cleanup).
Proof.
  intros Hm Hc. unfold React.try_finally.
  apply oblivious_bind.
  - apply oblivious_try_catch; [|intros e; exact I].
    apply oblivious_bind; [exact Hm | intros a; exact I].
  - intros r. apply oblivious_bind; [exact Hc|]. intros _. destruct r; exact I.
Qed.

Lemma oblivious_await (c : Generate.call) : oblivious (React.await c).
Proof. intros [v|e]; exact I. Qed.

(** Break a handler into its statements. *)
Ltac obl :=
  repeat first
    [ apply oblivious_try_finally
    | apply oblivious_try_catch
    | apply oblivious_bind
    | apply oblivious_await
    | progress intros
    | match goal with
      | |- oblivious (if ?b then _ else _) => destruct b
      | |- oblivious (match ?x with _ => _ end) => destruct x
      end
    | progress cbn [oblivious React.perform]
    | split
    | reflexivity
    | exact I ].

Lemma fetchDataBody_oblivious : oblivious Generate.fetchDataBody.
Proof. unfold Generate.fetchDataBody. obl. Qed.

Lemma handleCreateRubric_oblivious (st : Generate.State) :
  oblivious (Generate.handleCreateRubric st).
Proof. unfold Generate.handleCreateRubric. obl. Qed.

Lemma afterStart_oblivious (result : value) : oblivious (Generate.afterStart result).
Proof. unfold Generate.afterStart, Generate.readProp. obl. Qed.

Lemma handleGenerate_oblivious (st : Generate.State) :
  oblivious (Generate.handleGenerate st).
Proof.
  unfold Generate.handleGenerate.
  destruct (negb (truthy (Generate.selectedRubric st))); [exact I|].
  destruct (negb (truthy (Generate.selectedSubject st))); [cbn; auto|].
  apply oblivious_try_catch; [|intros e; cbn; auto].
  apply oblivious_bind; [apply oblivious_await | apply afterStart_oblivious].
Qed.

Lemma callbackBody_oblivious (cb : Generate.callback) :
  oblivious (Generate.callbackBody cb).
Proof.
  destruct cb as [job_id|]; cbn [Generate.callbackBody].
  - unfold Generate.pollBody, Generate.afterPoll, Generate.readProp, Generate.clearBoth.
    obl.
  - cbn. auto.
Qed.

(** What two stores that agree up to the difficulty have in common. *)
Lemma forgetInStore_eq (s1 s2 : Generate.Store) :
  forgetInStore s1 = forgetInStore s2 ->
  forgetDifficulty (React.state s1) = forgetDifficulty (React.state s2)
  /\ React.refs s1 = React.refs s2
  /\ React.timers s1 = React.timers s2
  /\ React.next_timer s1 = React.next_timer s2
  /\ map forgetInEvent (React.log s1) = map forgetInEvent (React.log s2).
Proof.
  intros H.
  pose proof (f_equal React.state H) as H1. pose proof (f_equal React.refs H) as H2.
  pose proof (f_equal React.timers H) as H3.
  pose proof (f_equal React.next_timer H) as H4.
  pose proof (f_equal React.log H) as H5.
  repeat split; assumption.
Qed.

Lemma via_forget {B} (h : Generate.State -> B) (st1 st2 : Generate.State) :
  (forall st, h st = h (forgetDifficulty st)) ->
  forgetDifficulty st1 = forgetDifficulty st2 -> h st1 = h st2.
Proof. intros Hh Hst. rewrite (Hh st1), (Hh st2), Hst. reflexivity. Qed.

Lemma exec_forget {A} (p : Generate.handler A) :
  oblivious p ->
  forall s1 s2, forgetInStore s1 = forgetInStore s2 ->
    forgetInStore (fst (React.exec p s1)) = forgetInStore (fst (React.exec p s2))
    /\ snd (React.exec p s1) = snd (React.exec p s2).
Proof.
  induction p as [a|e|e k IH|k IH|c k IH|cb ms k IH]; intros Hp s1 s2 Hs.
  - split; [exact Hs | reflexivity].
  - split; [exact Hs | reflexivity].
  - destruct Hp as [He Hk].
    change (React.exec (React.Eff e k) s1) with (React.exec k (React.apply e s1)).
    change (React.exec (React.Eff e k) s2) with (React.exec k (React.apply e s2)).
    apply IH; [exact Hk|].
    destruct (forgetInStore_eq _ _ Hs) as (H1 & H2 & H3 & H4 & H5).
    destruct e as [f|f|title msg|[id|]|t]; unfold forgetInStore; cbn.
    + rewrite (He (React.state s1)), (He (React.state s2)), H1, H2, H3, H4, H5.
      reflexivity.
    + rewrite H2, H3, H4, H5. fold (forgetDifficulty (React.state s1)).
      fold (forgetDifficulty (React.state s2)). rewrite H1. reflexivity.
    + rewrite !map_app, H2, H3, H4, H5.
      fold (forgetDifficulty (React.state s1)).
      fold (forgetDifficulty (React.state s2)). rewrite H1. reflexivity.
    + rewrite H2, H3, H4, H5. fold (forgetDifficulty (React.state s1)).
      fold (forgetDifficulty (React.state s2)). rewrite H1. reflexivity.
    + exact Hs.
    + rewrite !map_app, H2, H3, H4, H5.
      fold (forgetDifficulty (React.state s1)).
      fold (forgetDifficulty (React.state s2)). rewrite H1. reflexivity.
  - destruct (forgetInStore_eq _ _ Hs) as (H1 & H2 & H3 & H4 & H5).
    change (React.exec (React.ReadRefs k) s1) with (React.exec (k (React.refs s1)) s1).
    change (React.exec (React.ReadRefs k) s2) with (React.exec (k (React.refs s2)) s2).
    rewrite H2. apply IH; [apply Hp | exact Hs].
  - destruct (forgetInStore_eq _ _ Hs) as (H1 & H2 & H3 & H4 & H5).
    cbn. split; [|reflexivity]. unfold forgetInStore. cbn.
    rewrite !map_app, H2, H3, H4, H5.
    fold (forgetDifficulty (React.state s1)).
    fold (forgetDifficulty (React.state s2)). rewrite H1. reflexivity.
  - destruct (forgetInStore_eq _ _ Hs) as (H1 & H2 & H3 & H4 & H5).
    change (React.exec (React.setInterval cb ms k) s1)
      with (React.exec (k (React.next_timer s1))
              {| React.state := React.state s1; React.refs := React.refs s1;
                 React.timers :=
                   (React.timers s1
                    ++ [{| React.timer_id := React.next_timer s1;
                           React.timer_callback := cb; React.timer_ms := ms |}])%list;
                 React.next_timer := React.next_timer s1 + 1;
                 React.log := React.log s1 |}).
    change (React.exec (React.setInterval cb ms k) s2)
      with (React.exec (k (React.next_timer s2))
              {| React.state := React.state s2; React.refs := React.refs s2;
                 React.timers :=
                   (React.timers s2
                    ++ [{| React.timer_id := React.next_timer s2;
                           React.timer_callback := cb; React.timer_ms := ms |}])%list;
                 React.next_timer := React.next_timer s2 + 1;
                 React.log := React.log s2 |}).
    cbn [forgetInStore React.next_timer] in H4. rewrite H4. apply IH; [apply Hp|].
    unfold forgetInStore. cbn. cbn in H2, H3, H5. rewrite H2, H3, H5.
    fold (forgetDifficulty (React.state s1)).
    fold (forgetDifficulty (React.state s2)). rewrite H1. reflexivity.
Qed.

Lemma parked_oblivious {A} (p : Generate.handler A) (s : Generate.Store)
    (c : Generate.call) (k : outcome value -> Generate.handler A) :
  oblivious p -> snd (React.exec p s) = React.Waiting c k -> forall o, oblivious (k o).
Proof.
  revert s. induction p as [a|e|e k0 IH|k0 IH|c0 k0 IH|cb ms k0 IH]; intros s Hp H.
  - discriminate H.
  - discriminate H.
  - destruct Hp as [_ Hk]. exact (IH _ Hk H).
  - exact (IH _ _ (Hp _) H).
  - cbn in H. injection H as _ <-. exact Hp.
  - exact (IH _ _ (Hp _) H).
Qed.
Lemma startedIn_forget (evs : list (React.event Generate.call Generate.task)) :
  Generate.startedIn (map forgetInEvent evs) = Generate.startedIn evs.
Proof.
  induction evs as [|[title msg|c|t] evs IH]; cbn; [reflexivity | exact IH | exact IH|].
  now rewrite IH.
Qed.

Lemma started_forget (l1 l2 l1' l2' : list (React.event Generate.call Generate.task)) :
  map forgetInEvent l1 = map forgetInEvent l2 ->
  map forgetInEvent l1' = map forgetInEvent l2' ->
  Generate.startedIn (skipn (List.length l1) l1')
  = Generate.startedIn (skipn (List.length l2) l2').
Proof.
  intros H H'.
  assert (Hlen : List.length l1 = List.length l2).
  { rewrite <- (length_map forgetInEvent l1), H. apply length_map. }
  rewrite <- (startedIn_forget (skipn _ l1')), <- (startedIn_forget (skipn _ l2')).
  rewrite <- !skipn_map, H', Hlen. reflexivity.
Qed.

Lemma parkedAt_forget
    (p1 p2 : React.parked Generate.State Generate.Refs Generate.call
               Generate.callback Generate.task unit) :
  p1 = p2 ->
  map forgetInPending (Generate.parkedAt p1) = map forgetInPending (Generate.parkedAt p2).
Proof. intros ->. reflexivity. Qed.

Lemma forgetInWorld_eq (w1 w2 : Generate.World) :
  forgetInWorld w1 = forgetInWorld w2 ->
  forgetInStore (Generate.the_store w1) = forgetInStore (Generate.the_store w2)
  /\ map forgetInPending (Generate.pending w1) = map forgetInPending (Generate.pending w2)
  /\ Generate.mounted w1 = Generate.mounted w2.
Proof.
  intros H.
  pose proof (f_equal Generate.the_store H). pose proof (f_equal Generate.pending H).
  pose proof (f_equal Generate.mounted H). auto.
Qed.

Lemma runTask_forget (w1 w2 : Generate.World) (t : Generate.task) :
  forgetInWorld w1 = forgetInWorld w2 ->
  forgetInWorld (Generate.runTask w1 t) = forgetInWorld (Generate.runTask w2 t).
Proof.
  intros H. destruct (forgetInWorld_eq _ _ H) as (Hs & Hp & Hm).
  unfold Generate.runTask.
  assert (Hob : oblivious (Generate.taskBody t)) by (destruct t; apply fetchDataBody_oblivious).
  destruct (exec_forget _ Hob _ _ Hs) as [He Hk].
  destruct (React.exec (Generate.taskBody t) (Generate.the_store w1)) as [s1 k1].
  destruct (React.exec (Generate.taskBody t) (Generate.the_store w2)) as [s2 k2].
  cbn in He, Hk. unfold forgetInWorld. cbn.
  rewrite !map_app, He, Hp, Hm, (parkedAt_forget _ _ Hk). reflexivity.
Qed.

Lemma runTasks_forget (ts : list Generate.task) (w1 w2 : Generate.World) :
  forgetInWorld w1 = forgetInWorld w2 ->
  forgetInWorld (fold_left Generate.runTask ts w1)
  = forgetInWorld (fold_left Generate.runTask ts w2).
Proof.
  revert w1 w2. induction ts as [|t ts IH]; intros w1 w2 H; cbn; [exact H|].
  apply IH, runTask_forget, H.
Qed.

(** Two runs that agree up to the difficulty on their first stretch agree
    up to the difficulty on the tasks they start. *)
Lemma run_forget (p1 p2 : Generate.handler unit) (w1 w2 : Generate.World) :
  forgetInWorld w1 = forgetInWorld w2 ->
  forgetInStore (fst (React.exec p1 (Generate.the_store w1)))
  = forgetInStore (fst (React.exec p2 (Generate.the_store w2))) ->
  map forgetInPending (Generate.parkedAt (snd (React.exec p1 (Generate.the_store w1))))
  = map forgetInPending (Generate.parkedAt (snd (React.exec p2 (Generate.the_store w2)))) ->
  forgetInWorld (Generate.run p1 w1) = forgetInWorld (Generate.run p2 w2).
Proof.
  intros H He Hk. destruct (forgetInWorld_eq _ _ H) as (Hs & Hp & Hm).
  unfold Generate.run.
  destruct (React.exec p1 (Generate.the_store w1)) as [s1 k1].
  destruct (React.exec p2 (Generate.the_store w2)) as [s2 k2].
  cbn [fst snd] in He, Hk.
  rewrite (started_forget (React.log (Generate.the_store w1))
             (React.log (Generate.the_store w2)) (React.log s1) (React.log s2)).
  - apply runTasks_forget. unfold forgetInWorld. cbn.
    rewrite !map_app, He, Hp, Hm, Hk. reflexivity.
  - exact (f_equal React.log Hs).
  - exact (f_equal React.log He).
Qed.

Lemma run_same_forget (p : Generate.handler unit) (w1 w2 : Generate.World) :
  oblivious p ->
  forgetInWorld w1 = forgetInWorld w2 ->
  forgetInWorld (Generate.run p w1) = forgetInWorld (Generate.run p w2).
Proof.
  intros Hp H. destruct (forgetInWorld_eq _ _ H) as (Hs & _ & _).
  destruct (exec_forget p Hp _ _ Hs) as [He Hk].
  apply run_forget; [exact H | exact He | apply parkedAt_forget, Hk].
Qed.

(** The one handler that reads the difficulty passes it to startGeneration
    and does nothing else with it. *)
Lemma handleGenerate_forget (s1 s2 : Generate.Store) :
  forgetInStore s1 = forgetInStore s2 ->
  forgetInStore (fst (React.exec (Generate.handleGenerate (React.state s1)) s1))
  = forgetInStore (fst (React.exec (Generate.handleGenerate (React.state s2)) s2))
  /\ map forgetInPending
       (Generate.parkedAt (snd (React.exec (Generate.handleGenerate (React.state s1)) s1)))
     = map forgetInPending
         (Generate.parkedAt (snd (React.exec (Generate.handleGenerate (React.state s2)) s2))).
Proof.
  intros Hs. destruct (forgetInStore_eq _ _ Hs) as (H1 & H2 & H3 & H4 & H5).
  assert (Hr : Generate.selectedRubric (React.state s1)
               = Generate.selectedRubric (React.state s2))
    by exact (f_equal Generate.selectedRubric H1).
  assert (Hj : Generate.selectedSubject (React.state s1)
               = Generate.selectedSubject (React.state s2))
    by exact (f_equal Generate.selectedSubject H1).
  unfold Generate.handleGenerate. rewrite Hr, Hj.
  destruct (negb (truthy (Generate.selectedRubric (React.state s2)))).
  { split; [exact Hs | reflexivity]. }
  destruct (negb (truthy (Generate.selectedSubject (React.state s2)))).
  { split; [|reflexivity]. unfold forgetInStore. cbn.
    cbn in H1, H2, H3, H4, H5. rewrite !map_app, H2, H3, H4, H5.
    fold (forgetDifficulty (React.state s1)). fold (forgetDifficulty (React.state s2)).
    rewrite H1. reflexivity. }
  split; [|reflexivity]. unfold forgetInStore. cbn.
  cbn in H1, H2, H3, H4, H5. rewrite !map_app, H2, H3, H4, H5.
  fold (forgetDifficulty (React.state s1)). fold (forgetDifficulty (React.state s2)).
  rewrite H1. reflexivity.
Qed.

Lemma nth_error_forget (l1 l2 : list (Generate.call * (outcome value -> Generate.handler unit)))
    (n : nat) :
  map forgetInPending l1 = map forgetInPending l2 ->
  match nth_error l1 n, nth_error l2 n with
  | Some (_, k1), Some (_, k2) => k1 = k2
  | None, None => True
  | _, _ => False
  end.
Proof.
  intros H. pose proof (f_equal (fun l => nth_error l n) H) as Hn. cbn in Hn.
  rewrite !nth_error_map in Hn.
  destruct (nth_error l1 n) as [[c1 k1]|], (nth_error l2 n) as [[c2 k2]|];
    cbn in Hn; try discriminate; [|exact I].
  injection Hn as _ Hk. exact Hk.
Qed.

Lemma removeNth_forget (l1 l2 : list (Generate.call * (outcome value -> Generate.handler unit)))
    (n : nat) :
  map forgetInPending l1 = map forgetInPending l2 ->
  map forgetInPending (Generate.removeNth n l1)
  = map forgetInPending (Generate.removeNth n l2).
Proof.
  revert l2 n. induction l1 as [|x l1 IH]; intros [|y l2] n H; cbn in H;
    try discriminate; [reflexivity|].
  injection H as Hc Hk Hl. destruct n as [|n]; cbn; [exact Hl|].
  unfold forgetInPending at 1 3. rewrite Hc, Hk. f_equal. apply IH. exact Hl.
Qed.
Lemma runTasks_waiting (ts : list Generate.task) (w : Generate.World) :
  waitingOblivious w -> waitingOblivious (fold_left Generate.runTask ts w).
Proof.
  revert w. induction ts as [|t ts IH]; intros w Hw; cbn; [exact Hw|].
  apply IH. unfold Generate.runTask.
  assert (Hob : oblivious (Generate.taskBody t)) by (destruct t; apply fetchDataBody_oblivious).
  pose proof (fun c k => parked_oblivious (Generate.taskBody t) (Generate.the_store w) c k Hob)
    as Hpark.
  destruct (React.exec (Generate.taskBody t) (Generate.the_store w)) as [s pk].
  intros c k Hin. cbn in Hin. apply in_app_or in Hin. destruct Hin as [Hin|Hin].
  - exact (Hw c k Hin).
  - destruct pk as [r|c0 k0]; cbn in Hin; [contradiction|].
    destruct Hin as [Hin|[]]. injection Hin as <- <-. exact (Hpark _ _ eq_refl).
Qed.

Lemma run_waiting (p : Generate.handler unit) (w : Generate.World) :
  oblivious p -> waitingOblivious w -> waitingOblivious (Generate.run p w).
Proof.
  intros Hp Hw. unfold Generate.run.
  pose proof (fun c k => parked_oblivious p (Generate.the_store w) c k Hp) as Hpark.
  destruct (React.exec p (Generate.the_store w)) as [s pk].
  apply runTasks_waiting.
  intros c k Hin. cbn in Hin. apply in_app_or in Hin. destruct Hin as [Hin|Hin].
  - exact (Hw c k Hin).
  - destruct pk as [r|c0 k0]; cbn in Hin; [contradiction|].
    destruct Hin as [Hin|[]]. injection Hin as <- <-. exact (Hpark _ _ eq_refl).
Qed.

(** Every handler, callback and cleanup of the screen is oblivious. *)
Lemma step_handlers_oblivious (st : Generate.State) :
  (forall s, oblivious (Generate.pressSubject s st))
  /\ (forall r, oblivious (Generate.pressRubric r st))
  /\ (forall f : Generate.State -> Generate.State,
        (forall s, forgetDifficulty (f s) = forgetDifficulty (f (forgetDifficulty s))) ->
        oblivious (React.perform (React.SetState f)))
  /\ oblivious Generate.pressTryAgain
  /\ oblivious Generate.pressGenerateAnother
  /\ oblivious Generate.unmountCleanup.
Proof.
  split; [|split; [|split; [|split; [|split]]]].
  - intros s. unfold Generate.pressSubject. obl.
  - intros r. unfold Generate.pressRubric. obl.
  - intros f Hf. split; [exact Hf | exact I].
  - unfold Generate.pressTryAgain, Generate.clearBoth. obl.
  - unfold Generate.pressGenerateAnother. obl.
  - unfold Generate.unmountCleanup. obl.
Qed.

Lemma step_waiting (w : Generate.World) (i : Generate.input) :
  waitingOblivious w -> waitingOblivious (Generate.step w i).
Proof.
  intros Hw.
  destruct (step_handlers_oblivious (React.state (Generate.the_store w)))
    as (Hsub & Hrub & Hset & Htry & Hanother & Hunmount).
  destruct i; cbn [Generate.step].
  - destruct (_ && _); [|exact Hw]. apply run_waiting; [apply Hsub | exact Hw].
  - destruct (_ && _); [|exact Hw]. apply run_waiting; [apply Hrub | exact Hw].
  - destruct (_ && _); [|exact Hw]. apply run_waiting; [|exact Hw].
    apply Hset. reflexivity.
  - destruct (_ && _); [|exact Hw]. apply run_waiting; [|exact Hw].
    apply Hset. reflexivity.
  - destruct (_ && _); [|exact Hw]. apply run_waiting; [|exact Hw].
    apply Hset. reflexivity.
  - destruct (_ && _); [|exact Hw]. apply run_waiting; [|exact Hw].
    apply Hset. reflexivity.
  - destruct (_ && _); [|exact Hw].
    apply run_waiting; [apply handleCreateRubric_oblivious | exact Hw].
  - destruct (_ && _); [|exact Hw].
    apply run_waiting; [apply handleGenerate_oblivious | exact Hw].
  - destruct (_ && _); [|exact Hw]. apply run_waiting; [exact Htry | exact Hw].
  - destruct (_ && _); [|exact Hw]. apply run_waiting; [exact Hanother | exact Hw].
  - destruct (Generate.findTimer id _) as [t|]; [|exact Hw].
    apply run_waiting; [apply callbackBody_oblivious | exact Hw].
  - destruct (nth_error (Generate.pending w) n) as [[c0 k]|] eqn:Hn; [|exact Hw].
    apply run_waiting.
    + exact (Hw c0 k (nth_error_In _ _ Hn) r).
    + intros c k' Hin. cbn in Hin. apply removeNth_In in Hin. exact (Hw c k' Hin).
  - destruct (Generate.mounted w); [|exact Hw].
    apply run_waiting; [exact Hunmount | exact Hw].
Qed.

Lemma steps_waiting (inputs : list Generate.input) (w : Generate.World) :
  waitingOblivious w -> waitingOblivious (Generate.steps w inputs).
Proof.
  revert w. induction inputs as [|i inputs IH]; intros w Hw; cbn; [exact Hw|].
  apply IH, step_waiting, Hw.
Qed.

Lemma mount_waiting : waitingOblivious Generate.mount.
Proof.
  unfold Generate.mount. apply run_waiting.
  - cbn. auto.
  - intros c k [].
Qed.

(** One input moves two worlds that agree up to the difficulty to two
    worlds that agree up to the difficulty. *)
Lemma step_forget (w1 w2 : Generate.World) (i : Generate.input) :
  forgetInWorld w1 = forgetInWorld w2 ->
  waitingOblivious w1 ->
  forgetInWorld (Generate.step w1 i) = forgetInWorld (Generate.step w2 i).
Proof.
  intros H Hw. destruct (forgetInWorld_eq _ _ H) as (Hs & Hp & Hm).
  destruct (forgetInStore_eq _ _ Hs) as (H1 & H2 & H3 & H4 & H5).
  cbn in H1, H3.
  destruct (step_handlers_oblivious (React.state (Generate.the_store w2)))
    as (Hsub & Hrub & Hset & Htry & Hanother & Hunmount).
  assert (Hview : forall v, Generate.viewIs w1 v = Generate.viewIs w2 v).
  { intros v. unfold Generate.viewIs.
    rewrite (via_forget Generate.view _ _ (fun _ => eq_refl) H1). reflexivity. }
  assert (Hdis : Generate.generateDisabled (React.state (Generate.the_store w1))
                 = Generate.generateDisabled (React.state (Generate.the_store w2)))
    by exact (via_forget Generate.generateDisabled _ _ (fun _ => eq_refl) H1).
  assert (Hfail : Generate.isFailed (React.state (Generate.the_store w1))
                  = Generate.isFailed (React.state (Generate.the_store w2)))
    by exact (via_forget Generate.isFailed _ _ (fun _ => eq_refl) H1).
  destruct i; cbn [Generate.step]; rewrite ?Hm, ?Hview, ?Hdis, ?Hfail.
  - destruct (_ && _); [|exact H].
    rewrite (via_forget (Generate.pressSubject s) _ _ (fun _ => eq_refl) H1).
    apply run_same_forget; [apply Hsub | exact H].
  - destruct (_ && _); [|exact H].
    rewrite (via_forget (Generate.pressRubric r) _ _ (fun _ => eq_refl) H1).
    apply run_same_forget; [apply Hrub | exact H].
  - destruct (_ && _); [|exact H].
    apply run_same_forget; [apply Hset; reflexivity | exact H].
  - destruct (_ && _); [|exact H].
    apply run_same_forget; [apply Hset; reflexivity | exact H].
  - destruct (_ && _); [|exact H].
    apply run_same_forget; [apply Hset; reflexivity | exact H].
  - destruct (_ && _); [|exact H].
    apply run_same_forget; [apply Hset; reflexivity | exact H].
  - destruct (_ && _); [|exact H].
    rewrite (via_forget Generate.handleCreateRubric _ _ (fun _ => eq_refl) H1).
    apply run_same_forget; [apply handleCreateRubric_oblivious | exact H].
  - destruct (_ && _); [|exact H].
    destruct (handleGenerate_forget _ _ Hs) as [He Hk].
    apply run_forget; assumption.
  - destruct (_ && _); [|exact H]. apply run_same_forget; [exact Htry | exact H].
  - destruct (_ && _); [|exact H]. apply run_same_forget; [exact Hanother | exact H].
  - rewrite H3. destruct (Generate.findTimer id _) as [t|]; [|exact H].
    apply run_same_forget; [apply callbackBody_oblivious | exact H].
  - pose proof (nth_error_forget _ _ n Hp) as Hn.
    destruct (nth_error (Generate.pending w1) n) as [[c1 k1]|] eqn:E1;
      destruct (nth_error (Generate.pending w2) n) as [[c2 k2]|] eqn:E2;
      try contradiction; [|exact H].
    subst k2. apply run_same_forget.
    + exact (Hw c1 k1 (nth_error_In _ _ E1) r).
    + unfold forgetInWorld.
      cbn [Generate.the_store Generate.pending Generate.mounted].
      rewrite Hs, ?Hm, (removeNth_forget _ _ n Hp). reflexivity.
  - destruct (Generate.mounted w2); [|exact H].
    apply run_same_forget; [exact Hunmount|].
    unfold forgetInWorld.
    cbn [Generate.the_store Generate.pending Generate.mounted].
    rewrite Hs, Hp. reflexivity.
Qed.

Lemma press_difficulty_forget (w : Generate.World) (level : string) :
  forgetInWorld (Generate.step w (Generate.PressDifficulty level)) = forgetInWorld w.
Proof.
  cbn [Generate.step]. destruct (_ && _); [|reflexivity].
  unfold Generate.run. cbn. rewrite skipn_all. cbn.
  unfold forgetInWorld, forgetInStore. cbn. rewrite app_nil_r. reflexivity.
Qed.

Lemma steps_forget (inputs : list Generate.input) (w1 w2 : Generate.World) :
  forgetInWorld w1 = forgetInWorld w2 ->
  waitingOblivious w1 ->
  forgetInWorld (Generate.steps w1 inputs)
  = forgetInWorld (Generate.steps w2 (filter notDifficultyPress inputs)).
Proof.
  revert w1 w2. induction inputs as [|i inputs IH]; intros w1 w2 H Hw; [exact H|].
  destruct (notDifficultyPress i) eqn:Hi.
  - cbn [filter]. rewrite Hi. cbn [Generate.steps fold_left].
    apply IH; [apply step_forget; assumption | apply step_waiting; exact Hw].
  - cbn [filter]. rewrite Hi. destruct i; try discriminate Hi.
    cbn [Generate.steps fold_left]. apply IH; [|apply step_waiting; exact Hw].
    rewrite press_difficulty_forget. exact H.
Qed.

Lemma requests_forget {P : Platform} (stringify : value -> string)
    (evs : list (React.event Generate.call Generate.task)) :
  flat_map (requestsOf stringify) (Generate.callsIn (map forgetInEvent evs))
  = flat_map (requestsOf stringify) (Generate.callsIn evs).
Proof.
  induction evs as [|[title msg|c|t] evs IH]; cbn; [reflexivity | exact IH | | exact IH].
  rewrite IH. destruct c; reflexivity.
Qed.

(** X23.  The difficulty chips reach no request.  Whatever the user and the
    network do, the screen with the presses on the difficulty chips left
    out makes the same requests in the same order, registers the same
    intervals and shows the same view and alerts: the two runs differ in the
    stored difficulty alone, which startGeneration of api.ts does not read. *)
Theorem difficulty_reaches_no_request {P : Platform} (stringify : value -> string)
    (inputs : list Generate.input) :
  let w := Generate.steps Generate.mount inputs in
  let w' := Generate.steps Generate.mount (filter notDifficultyPress inputs) in
  flat_map (requestsOf stringify) (Generate.callsOf w)
  = flat_map (requestsOf stringify) (Generate.callsOf w')
  /\ Generate.activeTimers w = Generate.activeTimers w'
  /\ Generate.view (React.state (Generate.the_store w))
     = Generate.view (React.state (Generate.the_store w'))
  /\ alertsIn (React.log (Generate.the_store w))
     = alertsIn (React.log (Generate.the_store w'))
  /\ forgetInWorld w = forgetInWorld w'.
Proof.
  intros w w'.
  assert (H : forgetInWorld w = forgetInWorld w')
    by (apply steps_forget; [reflexivity | apply mount_waiting]).
  destruct (forgetInWorld_eq _ _ H) as (Hs & _ & _).
  destruct (forgetInStore_eq _ _ Hs) as (H1 & _ & H3 & _ & H5).
  cbn in H1, H3, H5.
  assert (Halerts : forall evs : list (React.event Generate.call Generate.task),
            alertsIn (map forgetInEvent evs) = alertsIn evs).
  { induction evs as [|[title msg|c|t] evs IH]; cbn; congruence. }
  repeat apply conj.
  - unfold Generate.callsOf. rewrite <- (requests_forget stringify (React.log _)), H5.
    apply requests_forget.
  - unfold Generate.activeTimers. rewrite H3. reflexivity.
  - exact (f_equal Generate.view H1).
  - rewrite <- (Halerts (React.log (Generate.the_store w))), H5. apply Halerts.
  - exact H.
Qed.

(** ** vetting.tsx: the text extractQuestionTextFromAny returns *)

Lemma matchField_nonempty (field raw m : string) :
  Vetting.matchField field raw = Some m -> m <> "".
Proof.
  induction raw as [|c raw IH]; cbn [Vetting.matchField]; intros H.
  - destruct (Vetting.matchHere field "") as [cap|] eqn:Hhere; [|discriminate].
    injection H as <-. exact (proj1 (matchHere_sound _ _ _ Hhere)).
  - destruct (Vetting.matchHere field (String c raw)) as [cap|] eqn:Hhere.
    + injection H as <-. exact (proj1 (matchHere_sound _ _ _ Hhere)).
    + exact (IH H).
Qed.

Lemma truthy_string (s : string) : truthy (VStr s) = true -> s <> "".
Proof. cbn. destruct (String.eqb_spec s ""); [discriminate | auto]. Qed.

(** X27.  On a platform that renders no number and no object as the empty
    string, extractQuestionTextFromAny never returns the empty string:
    whatever it is given, the review view has a text to show. *)
Theorem extract_never_empty {P : Platform} :
  (forall n, Number_toString n <> "") ->
  (forall v, JSON_stringify v <> "") ->
  forall (fuel : nat) (raw : value) (text : string),
    Vetting.extractQuestionTextFromAny fuel raw = Some text -> text <> "".
Proof.
  intros Hnum Hjson. induction fuel as [|fuel IH]; intros raw text H; [discriminate H|].
  rewrite extract_step in H.
  destruct (truthy raw) eqn:Ht; cbn [negb] in H; [|injection H as <-; discriminate].
  assert (Hobject :
            forall text',
              (if truthy (get raw "question_text")
               then Vetting.extractQuestionTextFromAny fuel (get raw "question_text")
               else if truthy (get raw "question")
               then Vetting.extractQuestionTextFromAny fuel (get raw "question")
               else if truthy (get raw "text")
               then Vetting.extractQuestionTextFromAny fuel (get raw "text")
               else
                 match Vetting.firstTruthy raw ["json"; "response"; "selected_question";
                                                "draft"; "result"; "output"] with
                 | Some v => Vetting.extractQuestionTextFromAny fuel v
                 | None =>
                     match Vetting.firstTruthy raw ["MCQ"; "Short Notes"; "Essay"] with
                     | Some v => Vetting.extractQuestionTextFromAny fuel v
                     | None => Some (JSON_stringify raw)
                     end
                 end) = Some text' -> text' <> "").
  { intros text' H'.
    destruct (truthy (get raw "question_text")); [exact (IH _ _ H')|].
    destruct (truthy (get raw "question")); [exact (IH _ _ H')|].
    destruct (truthy (get raw "text")); [exact (IH _ _ H')|].
    destruct (Vetting.firstTruthy raw _); [exact (IH _ _ H')|].
    destruct (Vetting.firstTruthy raw _); [exact (IH _ _ H')|].
    injection H' as <-. apply Hjson. }
  destruct raw as [| |b|n|s|items|fields]; try discriminate Ht.
  - cbn in Ht. subst b. injection H as <-. discriminate.
  - injection H as <-. apply Hnum.
  - apply truthy_string in Ht. cbv zeta in H.
    destruct (startsWith (trim s) "{" || startsWith (trim s) "[");
      [|injection H as <-; exact Ht].
    destruct (JSON_parse _) as [parsed|]; [exact (IH _ _ H)|].
    destruct (Vetting.matchField "question_text" s) as [m|] eqn:E1.
    { injection H as <-. exact (matchField_nonempty _ _ _ E1). }
    destruct (Vetting.matchField "question" s) as [m|] eqn:E2.
    { injection H as <-. exact (matchField_nonempty _ _ _ E2). }
    destruct (Vetting.matchField "text" s) as [m|] eqn:E3.
    { injection H as <-. exact (matchField_nonempty _ _ _ E3). }
    injection H as <-. exact Ht.
  - exact (Hobject _ H).
  - exact (Hobject _ H).
Qed.

Lemma decimal_nonempty (z : Z) : decimal z <> "".
Proof.
  intros H. pose proof (readNumber_decimal z) as Hr. rewrite H in Hr.
  cbn in Hr. discriminate Hr.
Qed.

Lemma numberText_nonempty (n : number) : Reference.numberText n <> "".
Proof.
  destruct n as [|[|]|q]; cbn; try discriminate.
  destruct (Qden (Qred q)); intros H;
    try (apply (decimal_nonempty (Qnum (Qred q))); exact H);
    destruct (decimal (Qnum (Qred q))) eqn:E; try discriminate H;
    exact (decimal_nonempty _ E).
Qed.

Lemma stringify_nonempty (indent : string) (v : value) :
  Reference.stringify indent v <> "".
Proof.
  destruct v as [| |[|]|n|s|[|x items]|[|kv fields]]; cbn; try discriminate.
  apply numberText_nonempty.
Qed.

Lemma extract_never_empty_witness :
  Vetting.extractQuestionTextFromAny (P := Reference.platform) 3
    ExtractExamples.embedded = Some "Define osmosis."
  /\ "Define osmosis." <> "".
Proof.
  assert (H : Vetting.extractQuestionTextFromAny (P := Reference.platform) 3
                ExtractExamples.embedded = Some "Define osmosis.") by reflexivity.
  split; [exact H|].
  exact (extract_never_empty (P := Reference.platform) numberText_nonempty
           (stringify_nonempty "") 3 ExtractExamples.embedded "Define osmosis." H).
Defined.

(** ** vetting.tsx: the council panel *)

(** X28.  A press on View Council Deliberation flips the panel.  It requests
    the detail of the current question, and only that, exactly when the
    panel was closed, no detail is loaded and there is a current question;
    closing the panel requests nothing.  When the request resolves the
    detail is stored; when it is rejected nothing changes and no alert is
    shown. *)
Theorem council_loads_detail_on_open
    (st : Vetting.ReviewState) (store : VettingStore) :
  let current := nth (Vetting.currentIndex st) (Vetting.queue st) VUndefined in
  let opening := negb (Vetting.showCouncil st) && negb (truthy (Vetting.detail st))
                 && truthy current in
  Vetting.showCouncil (reviewAfter (VettingView.pressCouncil st) store)
  = negb (Vetting.showCouncil st)
  /\ (forall c, React.issues (VettingView.pressCouncil st) c ->
        opening = true /\ c = Vetting.getQuestionDetail (get current "id"))
  /\ (opening = false ->
        snd (React.exec (VettingView.pressCouncil st) store)
        = React.Finished (Resolved tt))
  /\ (opening = true ->
        exists store1 k,
          React.exec (VettingView.pressCouncil st) store
          = (store1, React.Waiting (Vetting.getQuestionDetail (get current "id")) k)
          /\ (forall data,
                React.exec (k (Resolved data)) store1
                = (React.apply (React.SetState (Vetting.setDetail data)) store1,
                   React.Finished (Resolved tt)))
          /\ (forall e,
                React.exec (k (Rejected e)) store1
                = (store1, React.Finished (Resolved tt)))).
Proof.
  intros current opening. unfold opening, VettingView.pressCouncil, VettingView.loadDetail.
  fold current.
  destruct (Vetting.showCouncil st) eqn:Hshow; cbn [negb andb].
  { split; [reflexivity|]. split; [intros c H; no_issues H|].
    split; [reflexivity | discriminate]. }
  destruct (truthy (Vetting.detail st)) eqn:Hdetail; cbn [negb andb].
  { split; [reflexivity|]. split; [intros c H; no_issues H|].
    split; [reflexivity | discriminate]. }
  destruct (truthy current) eqn:Hcur; cbn [negb].
  - split; [reflexivity|]. split.
    + intros c H. split; [reflexivity|].
      apply issues_bind in H. destruct H as [H|[? H]]; [no_issues H|].
      apply issues_try_catch in H. destruct H as [H|[? H]]; [|no_issues H].
      apply issues_bind in H. destruct H as [H|[? H]]; [|no_issues H].
      apply issues_await in H. exact H.
    + split; [discriminate|]. intros _.
      eexists _, _. split; [reflexivity|]. split; intros; reflexivity.
  - split; [reflexivity|]. split; [intros c H; no_issues H|].
    split; [reflexivity | discriminate].
Qed.

(** ** QuestionUploadDialog.tsx: the weights of SyllabusUploadDialog *)

Lemma Qred_whole (z : Z) : Qred (z # 1) = z # 1.
Proof.
  unfold Qred.
  pose proof (Z.ggcd_correct_divisors z 1) as H.
  pose proof (Z.ggcd_gcd z 1) as G.
  destruct (Z.ggcd z 1) as [g [aa bb]]. cbn [fst snd] in *.
  rewrite Z.gcd_1_r in G. subst g. destruct H as [Ha Hb].
  rewrite Z.mul_1_l in Ha, Hb. subst aa bb. reflexivity.
Qed.

Lemma roundHalfEven_whole (n : Z) : roundHalfEven n 1 = n.
Proof.
  unfold roundHalfEven. rewrite Z.mod_1_r, Z.div_1_r. reflexivity.
Qed.

(** Every integer up to 2^53 in size is a double: rounding leaves it as it
    is. *)
Lemma roundToDouble_whole (z : Z) :
  Z.abs z <= 2 ^ 53 -> roundToDouble (inject_Z z) = ofZ z.
Proof.
  intros Hz. unfold roundToDouble, ofZ, inject_Z. cbn [Qnum Qden].
  destruct (Z.eqb_spec (Z.abs z) 0) as [E|E].
  - assert (z = 0) by lia. subst z. reflexivity.
  - assert (Hpos : 0 < Z.abs z) by lia.
    change (Z.log2 1) with 0. rewrite Z.sub_0_r.
    pose proof (Z.log2_nonneg (Z.abs z)) as Hnn.
    pose proof (Z.log2_spec _ Hpos) as [Hlo Hhi].
    destruct (Z.leb_spec 0 (Z.log2 (Z.abs z))) as [_|?]; [|lia].
    rewrite Z.mul_1_l.
    destruct (Z.leb_spec (2 ^ Z.log2 (Z.abs z)) (Z.abs z)) as [_|?]; [|lia].
    assert (He : Z.log2 (Z.abs z) <= 53).
    { rewrite <- (Z.log2_pow2 53) by lia. apply Z.log2_le_mono. exact Hz. }
    rewrite Z.max_l by lia.
    destruct (Z.leb_spec 1024 (Z.log2 (Z.abs z))) as [?|_]; [lia|].
    destruct (Z.eqb_spec (Z.log2 (Z.abs z)) 1023) as [?|_]; [lia|].
    cbn [orb andb].
    assert (Hred : forall a p, 0 < p -> Qred (a * p # Z.to_pos p) = a # 1).
    { intros a p Hp. rewrite <- Qred_whole. apply Qred_complete.
      unfold Qeq. cbn [Qnum Qden]. rewrite Z2Pos.id by lia. ring. }
    destruct (Z.leb_spec 0 (52 - Z.log2 (Z.abs z))) as [Hs|Hs].
    + rewrite roundHalfEven_whole.
      assert (Hp : 0 < 2 ^ (52 - Z.log2 (Z.abs z))) by (apply Z.pow_pos_nonneg; lia).
      destruct (Z.ltb_spec z 0) as [Hneg|Hneg].
      * unfold Qopp. cbn [Qnum Qden]. rewrite <- Z.mul_opp_l.
        rewrite Hred by exact Hp. f_equal. f_equal. lia.
      * rewrite Hred by exact Hp. f_equal. f_equal. lia.
    + assert (E53 : Z.log2 (Z.abs z) = 53) by lia.
      assert (Habs : Z.abs z = 2 ^ 53) by (rewrite E53 in Hlo; lia).
      rewrite E53, Habs.
      destruct (Z.ltb_spec z 0) as [Hneg|Hneg].
      * assert (z = - 2 ^ 53) by lia. subst z. vm_compute. reflexivity.
      * assert (z = 2 ^ 53) by lia. subst z. vm_compute. reflexivity.
Qed.

(** The sum of two whole numbers is exact as long as it stays within
    2^53. *)
Lemma numAdd_whole (a b : Z) :
  Z.abs (a + b) <= 2 ^ 53 ->
  SubjectDetail.numAdd (ofZ a) (ofZ b) = ofZ (a + b).
Proof.
  intros H. unfold SubjectDetail.numAdd, ofZ.
  replace (inject_Z a + inject_Z b)%Q with (inject_Z (a + b)).
  - apply roundToDouble_whole. exact H.
  - unfold Qplus, inject_Z. cbn [Qnum Qden]. f_equal. lia.
Qed.

Lemma wholeOf_ofZ (w : number) (z : Z) : wholeOf w = Some z -> w = ofZ z.
Proof.
  destruct w as [| |[n [d|d|]]]; cbn; intros H; try discriminate H.
  injection H as ->. reflexivity.
Qed.

Lemma wholePercent_range (w : number) :
  wholePercent w = true -> exists z, w = ofZ z /\ 0 <= z <= 100.
Proof.
  unfold wholePercent. destruct (wholeOf w) as [z|] eqn:E; [|discriminate].
  intros H. exists z. split; [apply wholeOf_ofZ; exact E | lia].
Qed.

Lemma wholeSum_range (d : SubjectDetail.Distribution) :
  forallb (fun kv => wholePercent (snd kv)) d = true ->
  0 <= wholeSum d <= 100 * Z.of_nat (List.length d).
Proof.
  induction d as [|[k w] d IH]; cbn [forallb wholeSum List.length snd]; [lia|].
  intros H. apply andb_true_iff in H. destruct H as [Hw Hd].
  specialize (IH Hd). unfold wholePercent in Hw.
  destruct (wholeOf w) as [z|]; [|discriminate Hw]. lia.
Qed.

(** The running total of [reduce] is the integer sum, as long as the
    weights are whole percentages and there are not too many of them for
    the total to stay within 2^53. *)
Lemma totalWeight_from (d : SubjectDetail.Distribution) (a : Z) :
  forallb (fun kv => wholePercent (snd kv)) d = true ->
  0 <= a -> a + 100 * Z.of_nat (List.length d) <= 2 ^ 53 ->
  fold_left (fun acc kv => SubjectDetail.numAdd acc (snd kv)) d (ofZ a)
  = ofZ (a + wholeSum d).
Proof.
  revert a. induction d as [|[k w] d IH]; intros a Hall Ha Hbound.
  - cbn. now rewrite Z.add_0_r.
  - cbn [forallb snd] in Hall. apply andb_true_iff in Hall. destruct Hall as [Hw Hd].
    destruct (wholePercent_range w Hw) as (z & -> & Hz).
    cbn [List.length] in Hbound. cbn [fold_left snd wholeSum wholeOf ofZ inject_Z].
    fold (inject_Z z). fold (ofZ z).
    rewrite numAdd_whole by lia.
    rewrite IH by (try assumption; lia). f_equal. lia.
Qed.

Lemma wholeSum_setWeight (d : SubjectDetail.Distribution)
    (level : string) (old new : Z) :
  weightOf level d = Some (ofZ old) ->
  wholeSum (SubjectDetail.setWeight level (ofZ new) d) = wholeSum d - old + new.
Proof.
  induction d as [|[k w] d IH]; cbn [weightOf SubjectDetail.setWeight];
    [discriminate|].
  destruct (String.eqb_spec k level) as [->|Hk]; intros Hw.
  - injection Hw as ->. cbn. lia.
  - cbn [wholeSum]. rewrite (IH Hw). destruct (wholeOf w); lia.
Qed.

Lemma wholePercent_setWeight (d : SubjectDetail.Distribution)
    (level : string) (new : number) :
  wholePercent new = true ->
  forallb (fun kv => wholePercent (snd kv)) d = true ->
  forallb (fun kv => wholePercent (snd kv)) (SubjectDetail.setWeight level new d)
  = true.
Proof.
  intros Hnew. induction d as [|[k w] d IH]; cbn [SubjectDetail.setWeight forallb snd].
  - intros _. now rewrite Hnew.
  - intros H. apply andb_true_iff in H. destruct H as [Hw Hd].
    destruct (k =? level)%string; cbn [forallb snd].
    + now rewrite Hnew, Hd.
    + now rewrite Hw, IH.
Qed.

Lemma weightOf_whole (d : SubjectDetail.Distribution) (level : string) :
  forallb (fun kv => wholePercent (snd kv)) d = true ->
  In level (map fst d) ->
  exists old, weightOf level d = Some (ofZ old) /\ 0 <= old <= 100.
Proof.
  induction d as [|[k w] d IH]; cbn [forallb snd map fst In weightOf]; [intros _ []|].
  intros H Hin. apply andb_true_iff in H. destruct H as [Hw Hd].
  destruct (String.eqb_spec k level) as [->|Hk].
  - destruct (wholePercent_range w Hw) as (z & -> & Hz). exists z. split; [reflexivity | exact Hz].
  - destruct Hin as [E|Hin]; [contradiction | apply IH; assumption].
Qed.

(** X29.  In SyllabusUploadDialog the six default weights sum to 100, so
    Save Mapping is enabled when the dialog opens.  While the weights are
    those of the six levels, each a whole percentage, as the sliders give
    them, the total the dialog computes is their exact sum; moving the
    slider of a level to a new whole percentage keeps the weights so,
    changes the total by new minus old, and Save Mapping is then enabled
    exactly when the new total is 100. *)
Theorem slider_moves_the_total
    (weights : SubjectDetail.Distribution) (name : string) (new : Z) :
  sliderWeights weights ->
  In name (map fst SubjectDetail.BLOOM_LEVELS) ->
  0 <= new <= 100 ->
  SubjectDetail.saveMappingDisabled SubjectDetail.BLOOM_LEVELS = false
  /\ sliderWeights SubjectDetail.BLOOM_LEVELS
  /\ sliderWeights (SubjectDetail.updateWeight name (ofZ new) weights)
  /\ SubjectDetail.totalWeight weights = ofZ (wholeSum weights)
  /\ exists old,
       weightOf name weights = Some (ofZ old)
       /\ SubjectDetail.totalWeight (SubjectDetail.updateWeight name (ofZ new) weights)
          = ofZ (wholeSum weights - old + new)
       /\ SubjectDetail.saveMappingDisabled
            (SubjectDetail.updateWeight name (ofZ new) weights)
          = negb (wholeSum weights - old + new =? 100).
Proof.
  intros [Hkeys Hall] Hname Hnew.
  assert (Hlen : forall d : SubjectDetail.Distribution,
             map fst d = map fst SubjectDetail.BLOOM_LEVELS -> List.length d = 6%nat).
  { intros d Hd. rewrite <- (length_map fst), Hd. reflexivity. }
  assert (Htotal : forall d : SubjectDetail.Distribution,
             map fst d = map fst SubjectDetail.BLOOM_LEVELS ->
             forallb (fun kv => wholePercent (snd kv)) d = true ->
             SubjectDetail.totalWeight d = ofZ (wholeSum d)).
  { intros d Hd Hw. unfold SubjectDetail.totalWeight.
    rewrite totalWeight_from; [reflexivity | exact Hw | lia |].
    rewrite (Hlen d Hd). vm_compute. discriminate. }
  rewrite <- Hkeys in Hname.
  destruct (weightOf_whole weights name Hall Hname) as (old & Hold & Hrange).
  assert (Hwnew : wholePercent (ofZ new) = true).
  { unfold wholePercent. cbn [wholeOf ofZ inject_Z].
    apply andb_true_iff. split; apply Z.leb_le; lia. }
  assert (Hkeys' : map fst (SubjectDetail.updateWeight name (ofZ new) weights)
                   = map fst SubjectDetail.BLOOM_LEVELS).
  { unfold SubjectDetail.updateWeight. rewrite keys_setWeight; [exact Hkeys|].
    rewrite Hold. discriminate. }
  assert (Hall' : forallb (fun kv => wholePercent (snd kv))
                    (SubjectDetail.updateWeight name (ofZ new) weights) = true).
  { apply wholePercent_setWeight; assumption. }
  assert (Htotal' : SubjectDetail.totalWeight
                      (SubjectDetail.updateWeight name (ofZ new) weights)
                    = ofZ (wholeSum weights - old + new)).
  { rewrite (Htotal _ Hkeys' Hall'). unfold SubjectDetail.updateWeight.
    rewrite (wholeSum_setWeight _ _ _ _ Hold). reflexivity. }
  split; [vm_compute; reflexivity|].
  split; [split; reflexivity|].
  split; [split; assumption|].
  split; [apply Htotal; assumption|].
  exists old. split; [exact Hold|]. split; [exact Htotal'|].
  unfold SubjectDetail.saveMappingDisabled. rewrite Htotal'.
  cbn [numStrictEq ofZ]. f_equal.
  destruct (Qeq_bool (inject_Z (wholeSum weights - old + new)) (inject_Z 100)) eqn:B;
    destruct (Z.eqb_spec (wholeSum weights - old + new) 100) as [E|Hne];
    try reflexivity; exfalso.
  - apply Qeq_bool_iff in B. apply Hne. unfold Qeq in B. cbn in B. lia.
  - rewrite E in B. discriminate B.
Qed.

Lemma slider_moves_the_total_witness :
  SubjectDetail.saveMappingDisabled
    (SubjectDetail.updateWeight "Knowledge" (ofZ 45) SubjectDetail.BLOOM_LEVELS)
  = true
  /\ SubjectDetail.saveMappingDisabled
       (SubjectDetail.updateWeight "Knowledge" (ofZ 40) SubjectDetail.BLOOM_LEVELS)
     = false.
Proof.
  assert (Hs : sliderWeights SubjectDetail.BLOOM_LEVELS) by (split; reflexivity).
  assert (Hn : In "Knowledge" (map fst SubjectDetail.BLOOM_LEVELS))
    by (left; reflexivity).
  split.
  - destruct (slider_moves_the_total _ "Knowledge" 45 Hs Hn ltac:(lia))
      as (_ & _ & _ & _ & old & Hold & _ & H).
    rewrite H. injection Hold as <-. reflexivity.
  - destruct (slider_moves_the_total _ "Knowledge" 40 Hs Hn ltac:(lia))
      as (_ & _ & _ & _ & old & Hold & _ & H).
    rewrite H. injection Hold as <-. reflexivity.
Defined.
